(** * Numinix: the study-plan service ([src/services/studyPlanService.ts])

    A shallow embedding of the four generation operations of the service
    and of the parts of the JavaScript run time they rely on (strings as
    sequences of UTF-16 code units, [String.prototype.trim], the three
    regular expressions of the fence stripping, binary64 numbers,
    [JSON.parse], exceptions and [try]/[catch]), followed by the properties
    of the operations. *)

From Stdlib Require Import String Ascii ZArith NArith QArith List Bool Lia.
From Stdlib Require Import Floats.SpecFloat.
Import ListNotations.

Local Open Scope N_scope.

(** ** JavaScript strings

    A JavaScript string is a finite sequence of 16-bit code units.  The
    source file is UTF-8; [js] gives the value denoted by a string literal
    of the source: its bytes decoded to code points and every code point
    encoded in UTF-16. *)

Definition code_unit := N.
Definition jsstring := list code_unit.

Module Utf.

Definition continuation (b : N) : N := N.land b 63.

(** Code points of a well-formed UTF-8 byte sequence; decoding stops at a
    truncated sequence. *)
Fixpoint decode8 (bs : list N) : list N :=
  match bs with
  | [] => []
  | b0 :: r0 =>
    if b0 <? 128 then b0 :: decode8 r0
    else if b0 <? 224 then
      match r0 with
      | b1 :: r1 => (N.land b0 31 * 64 + continuation b1) :: decode8 r1
      | _ => []
      end
    else if b0 <? 240 then
      match r0 with
      | b1 :: b2 :: r2 =>
        (N.land b0 15 * 4096 + continuation b1 * 64 + continuation b2)
          :: decode8 r2
      | _ => []
      end
    else
      match r0 with
      | b1 :: b2 :: b3 :: r3 =>
        (N.land b0 7 * 262144 + continuation b1 * 4096
         + continuation b2 * 64 + continuation b3) :: decode8 r3
      | _ => []
      end
  end.

(** UTF-16 encoding of one code point: itself, or a surrogate pair. *)
Definition encode16 (cp : N) : jsstring :=
  if cp <? 65536 then [cp]
  else [55296 + (cp - 65536) / 1024; 56320 + (cp - 65536) mod 1024].

Definition bytes (s : string) : list N :=
  map N_of_ascii (list_ascii_of_string s).

End Utf.

Definition js (s : string) : jsstring :=
  flat_map Utf.encode16 (Utf.decode8 (Utf.bytes s)).

(** Strict equality [===] of two strings: the same code units. *)
Definition str_eqb (a b : jsstring) : bool :=
  if list_eq_dec N.eq_dec a b then true else false.

(** The characters not writable inside a literal of this file. *)
Definition LF : code_unit := 10.
Definition DQUOTE : code_unit := 34.
Definition quoted (s : jsstring) : jsstring := DQUOTE :: s ++ [DQUOTE].

(** [Array.prototype.join] on an array of strings. *)
Fixpoint join (sep : jsstring) (l : list jsstring) : jsstring :=
  match l with
  | [] => []
  | [x] => x
  | x :: r => x ++ sep ++ join sep r
  end.

(** A template literal that spans several source lines. *)
Definition lines (l : list jsstring) : jsstring := join [LF] l.

(** ** White space and [trim]

    [String.prototype.trim] removes the code units of the WhiteSpace and
    LineTerminator productions; the class escape [\s] of regular
    expressions is the same set. *)

Definition is_white_space (c : code_unit) : bool :=
  (9 <=? c) && (c <=? 13)            (* TAB LF VT FF CR *)
  || (c =? 32) || (c =? 160)         (* SP NBSP *)
  || (c =? 5760)                     (* U+1680 *)
  || (8192 <=? c) && (c <=? 8202)    (* U+2000 .. U+200A *)
  || (c =? 8232) || (c =? 8233)      (* LS PS *)
  || (c =? 8239) || (c =? 8287)      (* U+202F U+205F *)
  || (c =? 12288) || (c =? 65279).   (* U+3000 ZWNBSP *)

Fixpoint trimStart (s : jsstring) : jsstring :=
  match s with
  | c :: r => if is_white_space c then trimStart r else s
  | [] => []
  end.

Definition trimEnd (s : jsstring) : jsstring := rev (trimStart (rev s)).

Definition trim (s : jsstring) : jsstring := trimEnd (trimStart s).

(** ** Regular expressions

    The fragment of the regular-expression language that the service
    uses: the assertions [^] and [$] (no [m] flag: start and end of the
    input), literal characters, and the greedy [\s*]; the flag [i]. *)

Module RegExp.

Inductive term :=
| Caret
| Dollar
| Char (c : code_unit)
| WhiteSpaceStar.

Record t := { source : list term; ignoreCase : bool }.

Definition literal (s : jsstring) : list term := map Char s.

(** Canonicalize of the specification, without the [u] flag: upper
    case, where a code unit outside ASCII never maps into ASCII.  Only
    ASCII pattern characters occur, so the mapping of the other code
    units among themselves is left out. *)
Definition canonicalize (i : bool) (c : code_unit) : code_unit :=
  if i && (97 <=? c) && (c <=? 122) then c - 32 else c.

(** Greedy [\s*] followed by the continuation [k]: the longest run
    first, then backtracking. *)
Fixpoint star (k : nat -> jsstring -> option jsstring)
    (pos : nat) (s : jsstring) : option jsstring :=
  match s with
  | c :: r =>
    if is_white_space c then
      match star k (S pos) r with
      | Some e => Some e
      | None => k pos s
      end
    else k pos s
  | [] => k pos s
  end.

(** [matches i p pos s]: the pattern matches at index [pos] of the
    input, of which [s] is what is left; the result is the input after
    the match. *)
Fixpoint matches (i : bool) (p : list term) (pos : nat) (s : jsstring)
    : option jsstring :=
  match p with
  | [] => Some s
  | Caret :: p' =>
    match pos with O => matches i p' pos s | S _ => None end
  | Dollar :: p' =>
    match s with [] => matches i p' pos s | _ :: _ => None end
  | Char c :: p' =>
    match s with
    | x :: r =>
      if canonicalize i x =? canonicalize i c
      then matches i p' (S pos) r else None
    | [] => None
    end
  | WhiteSpaceStar :: p' => star (matches i p') pos s
  end.

(** The leftmost match at or after index [pos]: what precedes it and
    what follows it. *)
Fixpoint search (re : t) (pos : nat) (s : jsstring)
    : option (jsstring * jsstring) :=
  match matches (ignoreCase re) (source re) pos s with
  | Some rest => Some ([], rest)
  | None =>
    match s with
    | [] => None
    | c :: r =>
      match search re (S pos) r with
      | Some (before, rest) => Some (c :: before, rest)
      | None => None
      end
    end
  end.

(** [s.replace(re, '')] for a regular expression without the [g] flag. *)
Definition remove (re : t) (s : jsstring) : jsstring :=
  match search re 0 s with
  | Some (before, rest) => before ++ rest
  | None => s
  end.

End RegExp.

(** ** Response extraction (lines 58-59 and 250-251) *)

Definition fence : jsstring := js "```".

(** [/^```json\s*/i] *)
Definition re_fence_json : RegExp.t :=
  {| RegExp.source :=
       RegExp.Caret :: RegExp.literal (js "```json") ++ [RegExp.WhiteSpaceStar];
     RegExp.ignoreCase := true |}.

(** [/^```\s*/i] *)
Definition re_fence_open : RegExp.t :=
  {| RegExp.source :=
       RegExp.Caret :: RegExp.literal (js "```") ++ [RegExp.WhiteSpaceStar];
     RegExp.ignoreCase := true |}.

(** [/```$/i] *)
Definition re_fence_close : RegExp.t :=
  {| RegExp.source := RegExp.literal (js "```") ++ [RegExp.Dollar];
     RegExp.ignoreCase := true |}.

(** Line 59: the three replacements and the final [trim]. *)
Definition stripFences (text : jsstring) : jsstring :=
  trim (RegExp.remove re_fence_close
          (RegExp.remove re_fence_open
             (RegExp.remove re_fence_json text))).

(** Lines 58-59: from the content of the response to the text handed to
    [JSON.parse]. *)
Definition extract (content : jsstring) : jsstring :=
  stripFences (trim content).

(** ** Numbers

    A JavaScript Number is an IEEE 754 binary64 value; the operations are
    those of the standard library's executable specification of binary
    floating point, at precision 53 and maximal exponent 1024. *)

Module Number.

Local Open Scope Z_scope.

Definition t := spec_float.

Definition prec : Z := 53.
Definition emax : Z := 1024.

Definition valid (x : t) : bool := valid_binary prec emax x.

Definition of_Z (z : Z) : t := binary_normalize prec emax z 0 false.

Definition div (x y : t) : t := SFdiv prec emax x y.
Definition mul (x y : t) : t := SFmul prec emax x y.

(** [x === y], [x >= y], [x > y], [x < y], [x <= y]: false when an
    operand is NaN. *)
Definition eqb (x y : t) : bool := SFeqb x y.
Definition geb (x y : t) : bool := SFleb y x.
Definition gtb (x y : t) : bool := SFltb y x.
Definition ltb (x y : t) : bool := SFltb x y.
Definition leb (x y : t) : bool := SFleb x y.

(** The value of a decimal literal [mant * 10^exp10], rounded to the
    nearest binary64, ties to even; [neg] is the sign of a zero. *)
Definition of_decimal (neg : bool) (mant : positive) (exp10 : Z) : t :=
  if 0 <=? exp10
  then binary_normalize prec emax
         ((if neg then Z.neg mant else Z.pos mant) * 10 ^ exp10) 0 neg
  else div (S754_finite neg mant 0)
           (S754_finite false (Z.to_pos (10 ^ (- exp10))) 0).

(** The literal [0.7] of line 74. *)
Definition seven_tenths : t := of_decimal false 7 (-1).

(** ToBoolean. *)
Definition truthy (x : t) : bool :=
  match x with
  | S754_zero _ | S754_nan => false
  | _ => true
  end.

(** [Math.floor]. *)
Definition floor (x : t) : t :=
  match x with
  | S754_finite s m e =>
    if 0 <=? e then x
    else
      let q := Z.shiftr (if s then Z.neg m else Z.pos m) (- e) in
      if q =? 0 then S754_zero s else of_Z q
  | _ => x
  end.

(** The array index that a number used as a property key denotes, if
    any: the key is ToString of the number, an array index when the
    number is an integer from 0 to 2^32 - 2 ([-0] prints as [0]). *)
Definition to_index (x : t) : option nat :=
  match x with
  | S754_zero _ => Some O
  | S754_finite false m e =>
    if 0 <=? e then
      (if Z.pos m * 2 ^ e <? 2 ^ 32 - 1
       then Some (Z.to_nat (Z.pos m * 2 ^ e)) else None)
    else if Z.land (Z.pos m) (Z.ones (- e)) =? 0 then
      (if Z.shiftr (Z.pos m) (- e) <? 2 ^ 32 - 1
       then Some (Z.to_nat (Z.shiftr (Z.pos m) (- e))) else None)
    else None
  | _ => None
  end.

(** *** Number::toString

    The digits are the shortest decimal [s * 10^(n - k)], of [k] digits,
    that reads back as the number; among several of that length, the
    closest to it, and of two equally close the even one. *)

Definition same (x y : t) : bool :=
  match x, y with
  | S754_finite sx mx ex, S754_finite sy my ey =>
    Bool.eqb sx sy && (mx =? my)%positive && (ex =? ey)
  | _, _ => false
  end.

(** [n] with [10^(n-1) <= num/den < 10^n], searched upwards from [n]
    when the quotient is at least 1 and downwards when it is below. *)
Fixpoint magnitude_up (fuel : nat) (num den n : Z) : Z :=
  match fuel with
  | O => n
  | S f => if num <? den * 10 ^ n then n else magnitude_up f num den (n + 1)
  end.

Fixpoint magnitude_down (fuel : nat) (num den j : Z) : Z :=
  match fuel with
  | O => - j
  | S f =>
    if den <=? num * 10 ^ (j + 1) then - j
    else magnitude_down f num den (j + 1)
  end.

Definition magnitude (num den : Z) : Z :=
  if den <=? num then magnitude_up 400 num den 1
  else magnitude_down 400 num den 0.

(** The candidate of [k] digits for [x = num/den] of magnitude [n0], if
    one reads back as [x]. *)
Definition candidate (x : t) (num den n0 k : Z) : option (Z * Z) :=
  let sc := k - n0 in
  let '(a, b) :=
    if 0 <=? sc then (num * 10 ^ sc, den) else (num, den * 10 ^ (- sc)) in
  let lo := a / b in
  let r := a mod b in
  let hi := if lo + 1 =? 10 ^ k then (10 ^ (k - 1), n0 + 1)
            else (lo + 1, n0) in
  let reads (c : Z * Z) :=
    match fst c with
    | Z.pos s => same (of_decimal false s (snd c - k)) x
    | _ => false
    end in
  match reads (lo, n0), reads hi with
  | true, true =>
    if 2 * r <? b then Some (lo, n0)
    else if b <? 2 * r then Some hi
    else if Z.even lo then Some (lo, n0) else Some hi
  | true, false => Some (lo, n0)
  | false, true => Some hi
  | false, false => None
  end.

Fixpoint shortest (fuel : nat) (x : t) (num den n0 k : Z)
    : Z * Z * Z :=
  match fuel with
  | O => (0, n0, k)
  | S f =>
    match candidate x num den n0 k with
    | Some (s, n) => (s, n, k)
    | None => shortest f x num den n0 (k + 1)
    end
  end.

Fixpoint uint_digits (u : Decimal.uint) : jsstring :=
  match u with
  | Decimal.Nil => []
  | Decimal.D0 r => 48%N :: uint_digits r
  | Decimal.D1 r => 49%N :: uint_digits r
  | Decimal.D2 r => 50%N :: uint_digits r
  | Decimal.D3 r => 51%N :: uint_digits r
  | Decimal.D4 r => 52%N :: uint_digits r
  | Decimal.D5 r => 53%N :: uint_digits r
  | Decimal.D6 r => 54%N :: uint_digits r
  | Decimal.D7 r => 55%N :: uint_digits r
  | Decimal.D8 r => 56%N :: uint_digits r
  | Decimal.D9 r => 57%N :: uint_digits r
  end.

Definition decimal_digits (z : Z) : jsstring :=
  uint_digits (N.to_uint (Z.to_N z)).

Definition zeros (n : Z) : jsstring := repeat 48%N (Z.to_nat n).

Definition exponent_part (n : Z) : jsstring :=
  (js "e" ++ (if 0 <=? n - 1 then js "+" else js "-")
   ++ decimal_digits (Z.abs (n - 1)))%list.

Definition format (s n k : Z) : jsstring :=
  let ds := decimal_digits s in
  (if (k <=? n) && (n <=? 21) then ds ++ zeros (n - k)
   else if (0 <? n) && (n <=? 21)
   then firstn (Z.to_nat n) ds ++ js "." ++ skipn (Z.to_nat n) ds
   else if (-6 <? n) && (n <=? 0)
   then js "0." ++ zeros (- n) ++ ds
   else if k =? 1 then ds ++ exponent_part n
   else firstn 1 ds ++ js "." ++ skipn 1 ds ++ exponent_part n)%list.

Definition toString (x : t) : jsstring :=
  match x with
  | S754_nan => js "NaN"
  | S754_zero _ => js "0"
  | S754_infinity s => if s then js "-Infinity" else js "Infinity"
  | S754_finite s m e =>
    let '(num, den) :=
      if 0 <=? e then (Z.pos m * 2 ^ e, 1) else (Z.pos m, 2 ^ (- e)) in
    let '(d, n, k) :=
      shortest 17 (S754_finite false m e) num den (magnitude num den) 1 in
    ((if s then js "-" else []) ++ format d n k)%list
  end.

End Number.

Definition number := Number.t.

(** ** JSON values and [JSON.parse] *)

Module JSON.

#[warnings="-register-all"]
Inductive value :=
| Null
| Bool (b : bool)
| Num (x : number)
| Str (s : jsstring)
| Arr (elements : list value)
| Obj (properties : list (jsstring * value)).

(** The properties of an object are listed in the order in which the
    object enumerates its keys (OrdinaryOwnPropertyKeys): the keys that
    are array indices first, by ascending value, then the other keys in
    the order of their creation. *)

Fixpoint lookup (k : jsstring) (ps : list (jsstring * value))
    : option value :=
  match ps with
  | [] => None
  | (k', v) :: r => if str_eqb k' k then Some v else lookup k r
  end.

Fixpoint numeral (k : jsstring) (acc : N) : option N :=
  match k with
  | [] => Some acc
  | c :: r =>
    if (48 <=? c) && (c <=? 57) then numeral r (10 * acc + (c - 48))
    else None
  end.

(** The array index that a key spells: the decimal numeral, without a
    leading zero, of an integer from 0 to 2^32 - 2. *)
Definition own_index (k : jsstring) : option N :=
  match k with
  | [] => None
  | c :: r =>
    if (c =? 48) && negb (length r =? 0)%nat then None
    else
      match numeral k 0 with
      | Some i => if i <=? 4294967294 then Some i else None
      | None => None
      end
  end.

(** A new array index goes before the first key that is a greater index
    or not an index. *)
Fixpoint insert_index (i : N) (k : jsstring) (v : value)
    (ps : list (jsstring * value)) : list (jsstring * value) :=
  match ps with
  | [] => [(k, v)]
  | (k', v') :: r =>
    match own_index k' with
    | Some j => if j <? i then (k', v') :: insert_index i k v r
                else (k, v) :: ps
    | None => (k, v) :: ps
    end
  end.

(** A key that the object has keeps its place and takes the later value;
    a new key that is not an index goes to the end. *)
Fixpoint assign (k : jsstring) (v : value) (ps : list (jsstring * value))
    : list (jsstring * value) :=
  match ps with
  | [] => [(k, v)]
  | (k', v') :: r =>
    if str_eqb k' k then (k', v) :: r else (k', v') :: assign k v r
  end.

(** CreateDataProperty, as [JSON.parse] calls it for each member of an
    object in the order of the text. *)
Definition define (k : jsstring) (v : value) (ps : list (jsstring * value))
    : list (jsstring * value) :=
  match lookup k ps, own_index k with
  | None, Some i => insert_index i k v ps
  | _, _ => assign k v ps
  end.

(** *** Lexical layer *)

Definition is_ws (c : code_unit) : bool :=
  (c =? 9) || (c =? 10) || (c =? 13) || (c =? 32).

Fixpoint skip_ws (s : jsstring) : jsstring :=
  match s with
  | c :: r => if is_ws c then skip_ws r else s
  | [] => []
  end.

Definition is_digit (c : code_unit) : bool := (48 <=? c) && (c <=? 57).

Definition hex_digit (c : code_unit) : option N :=
  if is_digit c then Some (c - 48)
  else if (97 <=? c) && (c <=? 102) then Some (c - 87)
  else if (65 <=? c) && (c <=? 70) then Some (c - 55)
  else None.

Definition hex4 (a b c d : code_unit) : option code_unit :=
  match hex_digit a, hex_digit b, hex_digit c, hex_digit d with
  | Some x, Some y, Some z, Some w => Some (((x * 16 + y) * 16 + z) * 16 + w)
  | _, _, _, _ => None
  end.

Definition escape (c : code_unit) : option code_unit :=
  if (c =? 34) || (c =? 47) || (c =? 92) then Some c
  else if c =? 98 then Some 8
  else if c =? 102 then Some 12
  else if c =? 110 then Some 10
  else if c =? 114 then Some 13
  else if c =? 116 then Some 9
  else None.

(** The characters of a string literal after its opening quote, up to
    and including the closing quote; [acc] is what was read, reversed. *)
Fixpoint string_chars (s : jsstring) (acc : jsstring)
    : option (jsstring * jsstring) :=
  match s with
  | [] => None
  | c :: r =>
    if c =? 34 then Some (rev acc, r)
    else if c =? 92 then
      match r with
      | e :: r1 =>
        if e =? 117 then
          match r1 with
          | h1 :: h2 :: h3 :: h4 :: r2 =>
            match hex4 h1 h2 h3 h4 with
            | Some u => string_chars r2 (u :: acc)
            | None => None
            end
          | _ => None
          end
        else
          match escape e with
          | Some u => string_chars r1 (u :: acc)
          | None => None
          end
      | [] => None
      end
    else if c <? 32 then None
    else string_chars r (c :: acc)
  end.

Fixpoint digits (s : jsstring) : list N * jsstring :=
  match s with
  | c :: r =>
    if is_digit c then let '(ds, rest) := digits r in ((c - 48) :: ds, rest)
    else ([], s)
  | [] => ([], [])
  end.

Definition decimal (ds : list N) : N :=
  fold_left (fun a d => 10 * a + d) ds 0.

(** JSONNumber: an optional minus sign; [0] or a digit from 1 to 9
    followed by digits; optionally a point and one digit or more;
    optionally [e] or [E], an optional sign and one digit or more. *)
Definition number_literal (s : jsstring) : option (number * jsstring) :=
  let '(neg, s1) :=
    match s with
    | c :: r => if c =? 45 then (true, r) else (false, s)
    | [] => (false, s)
    end in
  let '(int, s2) := digits s1 in
  match int with
  | [] => None
  | d :: more =>
    if (d =? 0) && negb (match more with [] => true | _ => false end)
    then None
    else
      let frac_part :=
        match s2 with
        | c :: r =>
          if c =? 46 then
            match digits r with
            | ([], _) => None
            | (fs, s3) => Some (fs, s3)
            end
          else Some ([], s2)
        | [] => Some ([], s2)
        end in
      match frac_part with
      | None => None
      | Some (frac, s3) =>
        let exp_part :=
          match s3 with
          | c :: r =>
            if (c =? 101) || (c =? 69) then
              let '(eneg, r1) :=
                match r with
                | g :: r' =>
                  if g =? 45 then (true, r')
                  else if g =? 43 then (false, r') else (false, r)
                | [] => (false, r)
                end in
              match digits r1 with
              | ([], _) => None
              | (es, s4) =>
                Some (if eneg then (- Z.of_N (decimal es))%Z
                      else Z.of_N (decimal es), s4)
              end
            else Some (0%Z, s3)
          | [] => Some (0%Z, s3)
          end in
        match exp_part with
        | None => None
        | Some (e, s4) =>
          let exp10 := (e - Z.of_nat (length frac))%Z in
          match decimal (int ++ frac) with
          | N0 => Some (S754_zero neg, s4)
          | Npos m => Some (Number.of_decimal neg m exp10, s4)
          end
        end
      end
  end.

Fixpoint strip_prefix (p s : jsstring) : option jsstring :=
  match p, s with
  | [], _ => Some s
  | a :: p', b :: s' => if a =? b then strip_prefix p' s' else None
  | _ :: _, [] => None
  end.

(** *** Values, elements and members

    [fuel] bounds the depth of the calls; each call reads at least one
    character before the next one at the same depth, so twice the length
    of the text is enough. *)
Fixpoint parse_value (fuel : nat) (s : jsstring) {struct fuel}
    : option (value * jsstring) :=
  match fuel with
  | O => None
  | S f =>
    match skip_ws s with
    | [] => None
    | c :: r =>
      if c =? 34 then
        match string_chars r [] with
        | Some (str, rest) => Some (Str str, rest)
        | None => None
        end
      else if c =? 91 then
        match skip_ws r with
        | d :: r' => if d =? 93 then Some (Arr [], r')
                     else parse_elements f r []
        | [] => None
        end
      else if c =? 123 then
        match skip_ws r with
        | d :: r' => if d =? 125 then Some (Obj [], r')
                     else parse_members f r []
        | [] => None
        end
      else if (c =? 45) || is_digit c then
        match number_literal (c :: r) with
        | Some (x, rest) => Some (Num x, rest)
        | None => None
        end
      else
        match strip_prefix (js "null") (c :: r) with
        | Some rest => Some (Null, rest)
        | None =>
          match strip_prefix (js "true") (c :: r) with
          | Some rest => Some (Bool true, rest)
          | None =>
            match strip_prefix (js "false") (c :: r) with
            | Some rest => Some (Bool false, rest)
            | None => None
            end
          end
        end
    end
  end

with parse_elements (fuel : nat) (s : jsstring) (acc : list value)
    {struct fuel} : option (value * jsstring) :=
  match fuel with
  | O => None
  | S f =>
    match parse_value f s with
    | None => None
    | Some (v, rest) =>
      match skip_ws rest with
      | c :: r =>
        if c =? 44 then parse_elements f r (v :: acc)
        else if c =? 93 then Some (Arr (rev (v :: acc)), r)
        else None
      | [] => None
      end
    end
  end

with parse_members (fuel : nat) (s : jsstring)
    (acc : list (jsstring * value)) {struct fuel}
    : option (value * jsstring) :=
  match fuel with
  | O => None
  | S f =>
    match skip_ws s with
    | q :: s1 =>
      if q =? 34 then
        match string_chars s1 [] with
        | None => None
        | Some (k, s2) =>
          match skip_ws s2 with
          | colon :: s3 =>
            if colon =? 58 then
              match parse_value f s3 with
              | None => None
              | Some (v, rest) =>
                match skip_ws rest with
                | c :: r =>
                  if c =? 44 then parse_members f r (define k v acc)
                  else if c =? 125 then Some (Obj (define k v acc), r)
                  else None
                | [] => None
                end
              end
            else None
          | [] => None
          end
        end
      else None
    | [] => None
    end
  end.

(** [JSON.parse(text)]; [None] stands for the SyntaxError it throws. *)
Definition parse (text : jsstring) : option value :=
  match parse_value (2 * length text + 2) text with
  | Some (v, rest) =>
    match skip_ws rest with [] => Some v | _ :: _ => None end
  | None => None
  end.

(** *** Property access

    [get v k] is [v[k]] for the keys the service reads ([choices], [0],
    [message], [content], and the fields of a study plan), none of which
    names an inherited property; [None] is [undefined]. *)

Definition array_index (k : jsstring) : option nat :=
  match k with
  | [] => None
  | c :: r =>
    if forallb is_digit k && negb ((c =? 48) && negb (length r =? 0)%nat)
    then Some (N.to_nat (decimal (map (fun d => d - 48) k)))
    else None
  end.

Definition get (v : value) (k : jsstring) : option value :=
  match v with
  | Obj ps => lookup k ps
  | Arr l => match array_index k with Some i => nth_error l i | None => None end
  | Str s =>
    match array_index k with
    | Some i => option_map (fun c => Str [c]) (nth_error s i)
    | None => None
    end
  | _ => None
  end.

(** [o?.[k]]: [undefined] when [o] is [undefined] or [null]. *)
Definition opt_get (o : option value) (k : jsstring) : option value :=
  match o with
  | None | Some Null => None
  | Some v => get v k
  end.

(** ToBoolean of a value or [undefined]. *)
Definition truthy (o : option value) : bool :=
  match o with
  | None | Some Null => false
  | Some (Bool b) => b
  | Some (Num x) => Number.truthy x
  | Some (Str s) => negb (length s =? 0)%nat
  | Some (Arr _) | Some (Obj _) => true
  end.

End JSON.

(** ** Exceptions, the world, and the monad of an asynchronous operation

    An operation runs against a world: the remote endpoint and the random
    source are its inputs, the requests sent and the console are its
    outputs.  A thrown exception keeps the effects made before it. *)

Inductive exn :=
| Error (message : jsstring)   (* [new Error(message)] *)
| TypeError                    (* a rejected [fetch]; a call of [undefined] *)
| SyntaxError.                 (* [JSON.parse], [response.json()] *)

(** The argument of [fetch]: the URL and, of the fixed POST request, what
    varies in the body [{model, messages: [{role: "user", content}]}]. *)
Record Request := {
  url : jsstring;
  model : jsstring;
  content : jsstring
}.

(** What the service reads of a response: [response.ok] and the outcome of
    [response.json()], [None] when the body is not JSON. *)
Record Response := {
  ok : bool;
  json : option JSON.value
}.

Record world := {
  endpoint : Request -> option Response;   (* [None]: [fetch] rejects *)
  random : number;                         (* what [Math.random()] returns *)
  requests : list Request;                 (* the calls of [fetch], in order *)
  console : list (jsstring * exn)          (* the calls of [console.error] *)
}.

Inductive completion (A : Type) :=
| Normal (a : A)
| Throw (e : exn).
Arguments Normal {A} a.
Arguments Throw {A} e.

Definition M (A : Type) : Type := world -> completion A * world.

Definition ret {A} (a : A) : M A := fun w => (Normal a, w).

Definition throw {A} (e : exn) : M A := fun w => (Throw e, w).

Definition bind {A B} (m : M A) (k : A -> M B) : M B :=
  fun w =>
    match m w with
    | (Normal a, w') => k a w'
    | (Throw e, w') => (Throw e, w')
    end.

Definition try_catch {A} (body : M A) (handler : exn -> M A) : M A :=
  fun w =>
    match body w with
    | (Normal a, w') => (Normal a, w')
    | (Throw e, w') => handler e w'
    end.

Declare Scope js_scope.
Delimit Scope js_scope with js.
Notation "x <- m ;; k" := (bind m (fun x => k))
  (at level 61, m at next level, right associativity) : js_scope.
Notation "m ;; k" := (bind m (fun _ => k))
  (at level 61, right associativity) : js_scope.

(** The world after one more request, and after one more console line. *)
Definition sent (r : Request) (w : world) : world :=
  {| endpoint := endpoint w; random := random w;
     requests := requests w ++ [r]; console := console w |}.

Definition logged (label : jsstring) (e : exn) (w : world) : world :=
  {| endpoint := endpoint w; random := random w;
     requests := requests w; console := console w ++ [(label, e)] |}.

Definition fetch (r : Request) : M Response :=
  fun w =>
    match endpoint w r with
    | Some response => (Normal response, sent r w)
    | None => (Throw TypeError, sent r w)
    end.

Definition response_json (response : Response) : M JSON.value :=
  match json response with
  | Some data => ret data
  | None => throw SyntaxError
  end.

Definition console_error (label : jsstring) (e : exn) : M unit :=
  fun w => (Normal tt, logged label e w).

Definition Math_random : M number := fun w => (Normal (random w), w).

Definition JSON_parse (text : jsstring) : M JSON.value :=
  match JSON.parse text with
  | Some v => ret v
  | None => throw SyntaxError
  end.

(** [v.trim()] on a value that is not [undefined] or [null]: only a string
    has the method. *)
Definition call_trim (v : JSON.value) : M jsstring :=
  match v with
  | JSON.Str s => ret (trim s)
  | _ => throw TypeError
  end.

(** ** The data model ([../types]) *)

Record DiagnosticResult := {
  strengths : list jsstring;
  weaknesses : list jsstring;
  gaps : list jsstring;
  score : number;
  total_questions : number
}.

Record Chapter := {
  id : jsstring;
  chapter : jsstring;
  topics : list jsstring
}.

Inductive Level := beginner | intermediate | advanced.

Definition level_name (l : Level) : jsstring :=
  match l with
  | beginner => js "beginner"
  | intermediate => js "intermediate"
  | advanced => js "advanced"
  end.

Record StudyPlan := {
  chapter_id : jsstring;
  prerequisites : list jsstring;
  recommended_practice : list jsstring;
  estimated_time : number;
  difficulty_level : Level
}.

(** The object that the literal of lines 78-89 creates. *)
Definition plan_object (p : StudyPlan) : JSON.value :=
  JSON.Obj [
    (js "chapter_id", JSON.Str (chapter_id p));
    (js "prerequisites", JSON.Arr (map JSON.Str (prerequisites p)));
    (js "recommended_practice",
     JSON.Arr (map JSON.Str (recommended_practice p)));
    (js "estimated_time", JSON.Num (estimated_time p));
    (js "difficulty_level", JSON.Str (level_name (difficulty_level p)))
  ].

(** ** The service *)

Definition GROQ_PROXY_URL : jsstring := js "http://localhost:3001/api/groq-chat".
Definition MODEL_NAME : jsstring := js "openai/gpt-oss-20b".

Definition groq_request (prompt : jsstring) : Request :=
  {| url := GROQ_PROXY_URL; model := MODEL_NAME; content := prompt |}.

(** [data?.choices?.[0]?.message?.content] *)
Definition message_content (data : JSON.value) : option JSON.value :=
  JSON.opt_get
    (JSON.opt_get
       (JSON.opt_get (JSON.opt_get (Some data) (js "choices")) (js "0"))
       (js "message"))
    (js "content").

Local Open Scope js_scope.
Local Open Scope list_scope.

(** The part shared by the four operations, lines 43-58: one request; the
    trimmed content of a successful response with a truthy content, or
    [None] when control leaves the two [if]s. *)
Definition request_content (prompt : jsstring) : M (option jsstring) :=
  response <- fetch (groq_request prompt) ;;
  if ok response then
    data <- response_json response ;;
    match message_content data with
    | Some c =>
      if JSON.truthy (Some c)
      then (text <- call_trim c ;; ret (Some text))
      else ret None
    | None => ret None
    end
  else ret None.

Section Service.

(** [../data/chapters.json], the chapter catalog. *)
Variable chaptersData : list Chapter.

(** *** generatePersonalizedStudyPlan (lines 7-90) *)

(** Lines 18-41. *)
Definition studyPlanPrompt (c : Chapter) (chapterId : jsstring)
    (diagnosticResult : DiagnosticResult) : jsstring :=
  lines [
    js "Create a personalized study plan for this student based on their diagnostic results.";
    [];
    js "Chapter: " ++ chapter c;
    js "Topics: " ++ join (js ", ") (topics c);
    js "Student's Strengths: " ++ join (js ", ") (strengths diagnosticResult);
    js "Student's Weaknesses: " ++ join (js ", ") (weaknesses diagnosticResult);
    js "Student's Gaps: " ++ join (js ", ") (gaps diagnosticResult);
    js "Diagnostic Score: " ++ Number.toString (score diagnosticResult)
      ++ js "/" ++ Number.toString (total_questions diagnosticResult);
    [];
    js "Generate a study plan as JSON with this structure:";
    js "{";
    js "  " ++ quoted (js "chapter_id") ++ js ": " ++ quoted chapterId ++ js ",";
    js "  " ++ quoted (js "prerequisites") ++ js ": ["
      ++ quoted (js "concept1") ++ js ", " ++ quoted (js "concept2") ++ js "],";
    js "  " ++ quoted (js "recommended_practice") ++ js ": ["
      ++ quoted (js "practice1") ++ js ", " ++ quoted (js "practice2")
      ++ js ", " ++ quoted (js "practice3") ++ js "],";
    js "  " ++ quoted (js "estimated_time") ++ js ": 120,";
    js "  " ++ quoted (js "difficulty_level") ++ js ": " ++ quoted (js "beginner");
    js "}";
    [];
    js "Prerequisites should be concepts the student needs to review first.";
    js "Recommended practice should be specific, actionable study activities.";
    js "Estimated time should be in minutes for completing this chapter.";
    js "Difficulty level should be " ++ quoted (js "beginner") ++ js ", "
      ++ quoted (js "intermediate") ++ js ", or " ++ quoted (js "advanced")
      ++ js " based on student's readiness.";
    [];
    js "Return only the JSON object."
  ].

(** Lines 69-89, the fallback study plan. *)
Definition fallbackStudyPlan (chapterId : jsstring)
    (diagnosticResult : DiagnosticResult) : StudyPlan :=
  let prerequisites :=
    if (0 <? length (gaps diagnosticResult))%nat
    then firstn 3 (gaps diagnosticResult)
    else [js "Basic arithmetic"; js "Number concepts"] in
  let difficultyLevel :=
    if Number.geb
         (Number.div (score diagnosticResult)
                     (total_questions diagnosticResult))
         Number.seven_tenths
    then intermediate
    else beginner in
  {| chapter_id := chapterId;
     prerequisites := prerequisites;
     recommended_practice := [
       js "Complete 10 practice problems daily";
       js "Review concept explanations";
       js "Take mini-quizzes to test understanding";
       js "Practice with real-world examples"
     ];
     estimated_time :=
       match difficultyLevel with
       | beginner => Number.of_Z 180
       | _ => Number.of_Z 120
       end;
     difficulty_level := difficultyLevel |}.

Definition generatePersonalizedStudyPlan (chapterId : jsstring)
    (diagnosticResult : DiagnosticResult) (userProgress : option JSON.value)
    : M JSON.value :=
  match find (fun c => str_eqb (id c) chapterId) chaptersData with
  | None => throw (Error (js "Chapter not found"))
  | Some c =>
    returned <-
      try_catch
        (let prompt := studyPlanPrompt c chapterId diagnosticResult in
         found <- request_content prompt ;;
         match found with
         | Some text =>
           let text := stripFences text in
           studyPlan <- JSON_parse text ;;
           ret (Some studyPlan)
         | None => ret None
         end)
        (fun error =>
           console_error (js "Error generating study plan:") error ;;
           ret None) ;;
    match returned with
    | Some studyPlan => ret studyPlan
    | None => ret (plan_object (fallbackStudyPlan chapterId diagnosticResult))
    end
  end.

(** *** generateChapterExplanation (lines 92-144) *)

(** Lines 98-112; the first line ends in a space. *)
Definition explanationPrompt (topic : jsstring) (studentLevel : Level)
    : jsstring :=
  lines [
    js "You are a friendly math mentor explaining " ++ topic ++ js " to a "
      ++ level_name studentLevel ++ js " student. ";
    [];
    js "Create an engaging, interactive explanation that:";
    js "- Uses simple, clear language";
    js "- Includes fun analogies and examples";
    js "- Uses emojis naturally";
    js "- Feels like a conversation with a helpful friend";
    js "- Never mentions being an AI";
    js "- Includes practical examples";
    js "- Makes the concept feel approachable and interesting";
    [];
    js "Keep it concise but comprehensive. Make the student feel excited about learning this topic!";
    [];
    js "Topic: " ++ topic;
    js "Student Level: " ++ level_name studentLevel
  ].

(** Lines 137-143. *)
Definition fallbackExplanation (topic : jsstring) : jsstring :=
  lines [
    js "Let's explore " ++ topic ++ js " together! 🌟";
    [];
    js "This is an important concept that will help you understand mathematics better. Think of it as building blocks - each piece helps you construct something amazing!";
    [];
    js "We'll start with the basics and gradually build up your understanding. Don't worry if it seems challenging at first - that's completely normal! 💪";
    [];
    js "Remember: every expert was once a beginner. You're on an exciting journey of discovery! 🚀"
  ].

Definition generateChapterExplanation (chapterId topic : jsstring)
    (studentLevel : Level) : M jsstring :=
  returned <-
    try_catch
      (let prompt := explanationPrompt topic studentLevel in
       request_content prompt)
      (fun error =>
         console_error (js "Error generating explanation:") error ;;
         ret None) ;;
  match returned with
  | Some text => ret text
  | None => ret (fallbackExplanation topic)
  end.

(** *** generateSmartNotification (lines 146-201) *)

(** Lines 151-168. *)
Definition notificationPrompt (recentActivity : list jsstring) : jsstring :=
  lines [
    js "Generate a motivational, personalized notification for a student based on their progress.";
    [];
    js "Recent Activity: " ++ join (js ", ") recentActivity;
    js "Progress Info: Strong areas, areas for improvement, recent achievements";
    [];
    js "Create a short, encouraging message that:";
    js "- Celebrates their progress";
    js "- Provides specific next steps";
    js "- Uses emojis appropriately";
    js "- Feels personal and motivating";
    js "- Is under 100 characters";
    js "- Never mentions being AI";
    [];
    js "Examples:";
    quoted (js "Amazing work on Algebra! 🚀 Ready to tackle Geometry next?");
    quoted (js "Great streak! 🔥 Try the Number Systems quiz to keep momentum going!");
    [];
    js "Return just the notification text."
  ].

(** Lines 193-198. *)
Definition fallbackNotifications : list jsstring := [
  js "You're making great progress! 🌟 Keep up the amazing work!";
  js "Ready for your next challenge? 🚀 Let's keep learning!";
  js "Fantastic effort today! 💪 Tomorrow brings new discoveries!";
  js "You're on fire! 🔥 Your dedication is paying off!"
].

(** [a[x]] for a number [x]: [None] is [undefined]. *)
Definition element {A} (a : list A) (x : number) : option A :=
  match Number.to_index x with
  | Some i => nth_error a i
  | None => None
  end.

(** The result is a string, or [undefined] where line 200 indexes
    outside of the array. *)
Definition generateSmartNotification (userProgress : option JSON.value)
    (recentActivity : list jsstring) : M (option jsstring) :=
  returned <-
    try_catch
      (let prompt := notificationPrompt recentActivity in
       request_content prompt)
      (fun error =>
         console_error (js "Error generating notification:") error ;;
         ret None) ;;
  match returned with
  | Some text => ret (Some text)
  | None =>
    r <- Math_random ;;
    ret (element fallbackNotifications
           (Number.floor
              (Number.mul r
                 (Number.of_Z (Z.of_nat (length fallbackNotifications))))))
  end.

(** *** generatePersonalizedStudyContent (lines 203-271) *)

(** [a || b] on strings: the empty string is falsy. *)
Definition or_else (a b : jsstring) : jsstring :=
  match a with [] => b | _ :: _ => a end.

(** Lines 211-235. *)
Definition studyContentPrompt (chapterName : jsstring) (userLevel : Level)
    (userWeaknesses userStrengths : list jsstring) : jsstring :=
  lines [
    js "You are a friendly math mentor creating personalized study content for a student.";
    [];
    js "Chapter: " ++ chapterName;
    js "Student Level: " ++ level_name userLevel;
    js "Student's Strengths: "
      ++ or_else (join (js ", ") userStrengths) (js "Building foundation");
    js "Student's Weaknesses: "
      ++ or_else (join (js ", ") userWeaknesses) (js "None identified");
    [];
    js "Create personalized study content for 4 key topics in this chapter. Return as JSON object:";
    js "{";
    js "  " ++ quoted (js "Introduction") ++ js ": "
      ++ quoted (js "Engaging introduction content...") ++ js ",";
    js "  " ++ quoted (js "Core Concepts") ++ js ": "
      ++ quoted (js "Core concepts explanation...") ++ js ",";
    js "  " ++ quoted (js "Problem Solving") ++ js ": "
      ++ quoted (js "Problem solving strategies...") ++ js ",";
    js "  " ++ quoted (js "Practice & Review") ++ js ": "
      ++ quoted (js "Practice and review guidance...");
    js "}";
    [];
    js "Each content section should:";
    js "- Be 2-3 paragraphs long";
    js "- Use encouraging, mentor-like tone";
    js "- Address student's specific level and needs";
    js "- Include practical examples and analogies";
    js "- Use emojis naturally";
    js "- Build confidence while being educational";
    js "- Reference their strengths and help with weaknesses";
    [];
    js "Return only the JSON object."
  ].

(** Lines 265-270. *)
Definition fallbackStudyContent (chapterName : jsstring)
    (userWeaknesses userStrengths : list jsstring) : JSON.value :=
  JSON.Obj [
    (js "Introduction",
     JSON.Str
       (js "Welcome to " ++ chapterName ++ js "! 🌟" ++ [LF; LF]
        ++ js "This chapter will build on your existing knowledge and introduce exciting new concepts. "
        ++ (if (0 <? length userStrengths)%nat
            then js "Your strength in " ++ hd [] userStrengths
                 ++ js " will be very helpful here!"
            else js "We'll start with the basics and build up your understanding step by step.")
        ++ [LF; LF] ++ js "Get ready for an amazing learning adventure! 🚀"));
    (js "Core Concepts",
     JSON.Str
       (js "Let's dive into the heart of " ++ chapterName ++ js "! 💡"
        ++ [LF; LF]
        ++ js "We'll explore the fundamental ideas that make this topic so important in mathematics. "
        ++ (if (0 <? length userWeaknesses)%nat
            then js "Don't worry about " ++ hd [] userWeaknesses
                 ++ js " - we'll work on that together!"
            else js "You're well-prepared for these concepts!")
        ++ [LF; LF]
        ++ js "Remember, every expert was once a beginner. Take your time and enjoy the process! 📚"));
    (js "Problem Solving",
     JSON.Str
       (js "Now for the exciting part - solving problems! 🎯" ++ [LF; LF]
        ++ js "We'll learn strategies and techniques that will make you confident in tackling any question. Practice makes perfect, and every mistake is a learning opportunity."
        ++ [LF; LF]
        ++ js "You've got this! Let's turn challenges into victories! 💪"));
    (js "Practice & Review",
     JSON.Str
       (js "Time to reinforce your learning! ⭐" ++ [LF; LF]
        ++ js "Regular practice and review will help cement these concepts in your mind. "
        ++ (if (0 <? length userStrengths)%nat
            then js "Use your strength in " ++ hd [] userStrengths
                 ++ js " to build confidence!"
            else js "Focus on understanding rather than memorizing.")
        ++ [LF; LF]
        ++ js "Celebrate every small win - you're making amazing progress! 🎉"))
  ].

(** An omitted (or [undefined]) list argument takes the default [[]]. *)
Definition generatePersonalizedStudyContent (chapterId chapterName : jsstring)
    (userLevel : Level)
    (userWeaknesses userStrengths : option (list jsstring))
    : M JSON.value :=
  let userWeaknesses :=
    match userWeaknesses with Some l => l | None => [] end in
  let userStrengths :=
    match userStrengths with Some l => l | None => [] end in
  returned <-
    try_catch
      (let prompt :=
         studyContentPrompt chapterName userLevel userWeaknesses
           userStrengths in
       found <- request_content prompt ;;
       match found with
       | Some text =>
         let text := stripFences text in
         try_catch
           (parsed <- JSON_parse text ;; ret (Some parsed))
           (fun parseError =>
              console_error (js "Error parsing study content JSON:")
                parseError ;;
              ret None)
       | None => ret None
       end)
      (fun error =>
         console_error
           (js "Error generating personalized study content:") error ;;
         ret None) ;;
  match returned with
  | Some parsed => ret parsed
  | None =>
    ret (fallbackStudyContent chapterName userWeaknesses userStrengths)
  end.

End Service.

(** ** The body of a request (lines 46-51)

    [JSON.stringify] without indentation.  QuoteJSONString escapes the
    quote, the backslash and the control characters, the latter with the
    short escapes where there is one, and a surrogate that is not part of
    a pair; every other code point is written as it is.  The properties
    of an object are written in the order of the list (the service has no
    index keys, which would come first). *)

Definition hex_char (d : N) : code_unit := if d <? 10 then 48 + d else 87 + d.

Definition unicode_escape (c : code_unit) : jsstring :=
  [92; 117; hex_char (c / 4096); hex_char ((c / 256) mod 16);
   hex_char ((c / 16) mod 16); hex_char (c mod 16)].

Definition is_leading_surrogate (c : code_unit) : bool :=
  (55296 <=? c) && (c <=? 56319).

Definition is_trailing_surrogate (c : code_unit) : bool :=
  (56320 <=? c) && (c <=? 57343).

Fixpoint quote_chars (s : jsstring) : jsstring :=
  match s with
  | [] => []
  | c :: r =>
    if c =? 8 then 92 :: 98 :: quote_chars r
    else if c =? 9 then 92 :: 116 :: quote_chars r
    else if c =? 10 then 92 :: 110 :: quote_chars r
    else if c =? 12 then 92 :: 102 :: quote_chars r
    else if c =? 13 then 92 :: 114 :: quote_chars r
    else if c =? 34 then 92 :: 34 :: quote_chars r
    else if c =? 92 then 92 :: 92 :: quote_chars r
    else if c <? 32 then unicode_escape c ++ quote_chars r
    else if is_leading_surrogate c then
      match r with
      | c2 :: r2 =>
        if is_trailing_surrogate c2 then c :: c2 :: quote_chars r2
        else unicode_escape c ++ quote_chars r
      | [] => unicode_escape c
      end
    else if is_trailing_surrogate c then unicode_escape c ++ quote_chars r
    else c :: quote_chars r
  end.

Definition QuoteJSONString (s : jsstring) : jsstring :=
  DQUOTE :: quote_chars s ++ [DQUOTE].

Fixpoint stringify (v : JSON.value) : jsstring :=
  match v with
  | JSON.Null => js "null"
  | JSON.Bool b => if b then js "true" else js "false"
  | JSON.Num x =>
    match x with
    | S754_nan | S754_infinity _ => js "null"
    | _ => Number.toString x
    end
  | JSON.Str s => QuoteJSONString s
  | JSON.Arr l => js "[" ++ join (js ",") (map stringify l) ++ js "]"
  | JSON.Obj ps =>
    js "{"
    ++ join (js ",")
         (map (fun p => QuoteJSONString (fst p) ++ js ":" ++ stringify (snd p))
              ps)
    ++ js "}"
  end.

(** The object of lines 46-51 and the body sent. *)
Definition request_object (r : Request) : JSON.value :=
  JSON.Obj [
    (js "model", JSON.Str (model r));
    (js "messages",
     JSON.Arr [JSON.Obj [(js "role", JSON.Str (js "user"));
                         (js "content", JSON.Str (content r))]])
  ].

Definition request_body (r : Request) : jsstring :=
  stringify (request_object r).

(** ** Vocabulary of the properties *)

(** What a call of the endpoint comes to (section 4.2 of the design): the
    content of a successful response, or one of the failures that lead
    to the fallback. *)
Inductive reply :=
| NetworkError                 (* [fetch] rejects *)
| BadStatus                    (* [response.ok] is false *)
| MalformedBody                (* [response.json()] rejects *)
| NoContent                    (* the content is missing or falsy *)
| ContentNotText               (* a truthy content that is not a string *)
| Content (raw : jsstring).    (* a non-empty string *)

Definition classify (o : option Response) : reply :=
  match o with
  | None => NetworkError
  | Some response =>
    if ok response then
      match json response with
      | None => MalformedBody
      | Some data =>
        match message_content data with
        | Some (JSON.Str s) => match s with [] => NoContent | _ => Content s end
        | Some v => if JSON.truthy (Some v) then ContentNotText else NoContent
        | None => NoContent
        end
      end
    else BadStatus
  end.

Definition generation_failed (o : option Response) : bool :=
  match classify o with
  | Content _ => false
  | _ => true
  end.

(** The exception that the [catch] clause of an operation logs, if any. *)
Definition caught (o : option Response) : option exn :=
  match classify o with
  | NetworkError | ContentNotText => Some TypeError
  | MalformedBody => Some SyntaxError
  | _ => None
  end.

Definition log_caught (label : jsstring) (o : option Response) (w : world)
    : world :=
  match caught o with
  | Some e => logged label e w
  | None => w
  end.

(** The range of a study plan (section 3): a positive [estimated_time] and
    a [difficulty_level] among the three names. *)
Definition plan_in_range (v : JSON.value) : bool :=
  match JSON.get v (js "estimated_time"), JSON.get v (js "difficulty_level") with
  | Some (JSON.Num x), Some (JSON.Str l) =>
    Number.gtb x (S754_zero false)
    && (str_eqb l (js "beginner") || str_eqb l (js "intermediate")
        || str_eqb l (js "advanced"))
  | _, _ => false
  end.

(** Code-fence markers around a payload: three backquotes, a language tag
    or none, white space; the payload; white space, three backquotes. *)
Definition fenced (tag before payload after : jsstring) : jsstring :=
  fence ++ tag ++ before ++ payload ++ after ++ fence.

Definition blank (s : jsstring) : bool := forallb is_white_space s.

Fixpoint equal_ignoring_case (a b : jsstring) : bool :=
  match a, b with
  | [], [] => true
  | x :: a', y :: b' =>
    (RegExp.canonicalize true x =? RegExp.canonicalize true y)%N
    && equal_ignoring_case a' b'
  | _, _ => false
  end.

(** No tag, followed by white space; or the tag [json] in any case. *)
Definition opening (tag before : jsstring) : bool :=
  match tag with
  | [] => match before with [] => false | _ :: _ => true end
  | _ :: _ => equal_ignoring_case tag (js "json")
  end.

Fixpoint startsWith (p s : jsstring) : bool :=
  match p, s with
  | [], _ => true
  | a :: p', b :: s' => (a =? b)%N && startsWith p' s'
  | _ :: _, [] => false
  end.

Definition endsWith (p s : jsstring) : bool := startsWith (rev p) (rev s).

(** The lines of a prompt. *)
Fixpoint split_lines (s : jsstring) (line : jsstring) : list jsstring :=
  match s with
  | [] => [rev line]
  | c :: r =>
    if (c =? LF)%N then rev line :: split_lines r []
    else split_lines r (c :: line)
  end.

Definition prompt_line (n : nat) (prompt : jsstring) : jsstring :=
  nth n (split_lines prompt []) [].

(** The exact value of a finite number. *)
Definition exact (x : number) : Q :=
  match x with
  | S754_finite s m e =>
    let z := if s then Z.neg m else Z.pos m in
    if (0 <=? e)%Z then inject_Z (z * 2 ^ e) else z # Z.to_pos (2 ^ (- e))
  | _ => 0
  end.

Definition zero : number := S754_zero false.
Definition one : number := Number.of_Z 1.

(** What the three replacements of line 59 do, said without regular
    expressions; the lemmas below relate them to [RegExp.remove]. *)
Fixpoint drop_literal (lit s : jsstring) : option jsstring :=
  match lit, s with
  | [], _ => Some s
  | c :: lit', x :: s' =>
    if (RegExp.canonicalize true x =? RegExp.canonicalize true c)%N
    then drop_literal lit' s' else None
  | _ :: _, [] => None
  end.

Definition drop_opening (lit s : jsstring) : jsstring :=
  match drop_literal lit s with
  | Some rest => trimStart rest
  | None => s
  end.

Definition drop_closing (s : jsstring) : jsstring :=
  if endsWith fence s then firstn (length s - length fence) s else s.

Definition is_trimmed (s : jsstring) : bool :=
  match s with
  | [] => true
  | c :: _ => negb (is_white_space c) && negb (is_white_space (last s c))
  end.

(** The characters at which the text of a JSON value can start, and those
    at which it can end. *)
Definition starts_value (c : code_unit) : bool :=
  (c =? 34) || (c =? 91) || (c =? 123) || (c =? 45) || JSON.is_digit c
  || (c =? 110) || (c =? 116) || (c =? 102).

Definition ends_value (c : code_unit) : bool :=
  (c =? 34) || (c =? 93) || (c =? 125) || JSON.is_digit c
  || (c =? 108) || (c =? 101).

Definition value_text (body : jsstring) : bool :=
  match body with
  | [] => false
  | c :: _ => starts_value c && ends_value (last body c)
  end.

Definition json_blank (s : jsstring) : bool := forallb JSON.is_ws s.

(** [Object.keys] of a value (an object without index keys). *)
Definition object_keys (v : JSON.value) : list jsstring :=
  match v with
  | JSON.Obj ps => map fst ps
  | _ => []
  end.

(** ** Worlds and inputs of the examples *)

(** The success envelope [{choices: [{message: {content}}]}]. *)
Definition envelope (c : JSON.value) : JSON.value :=
  JSON.Obj [(js "choices",
             JSON.Arr [JSON.Obj [(js "message", JSON.Obj [(js "content", c)])]])].

(** The endpoint cannot be reached. *)
Definition offline (r : number) : world :=
  {| endpoint := fun _ => None; random := r; requests := []; console := [] |}.

(** The endpoint answers every request with status 200 and the content
    [c]. *)
Definition answering (c : JSON.value) : world :=
  {| endpoint := fun _ => Some {| ok := true; json := Some (envelope c) |};
     random := zero; requests := []; console := [] |}.

(** A text written with single quotes for its double quotes. *)
Definition requoted (s : string) : jsstring :=
  map (fun c => if (c =? 39)%N then DQUOTE else c) (js s).

Definition fractions : Chapter :=
  {| id := js "fractions-6"; chapter := js "Fractions";
     topics := [js "Equivalent fractions"; js "Comparing fractions"] |}.

Definition catalog : list Chapter :=
  [ {| id := js "integers-6"; chapter := js "Integers";
       topics := [js "Number line"] |};
    fractions ].

(** The diagnostic result of the example of section 8 of the design. *)
Definition weak_diagnostic : DiagnosticResult :=
  {| strengths := []; weaknesses := [js "fractions"];
     gaps := [js "long division"; js "carrying"];
     score := Number.of_Z 3; total_questions := Number.of_Z 10 |}.

(** A student who answered no question. *)
Definition empty_diagnostic : DiagnosticResult :=
  {| strengths := []; weaknesses := []; gaps := [];
     score := zero; total_questions := zero |}.

(** A response that is a study plan in shape but not in range. *)
Definition out_of_range_plan : jsstring :=
  requoted "{'chapter_id': 'fractions-6', 'prerequisites': [], 'recommended_practice': [], 'estimated_time': -30, 'difficulty_level': 'expert'}".

(** A response in prose instead of JSON. *)
Definition prose : jsstring :=
  js "Sure! Here is the study plan you asked for.".

(** A random number of the third quarter of the unit interval. *)
Definition six_tenths : number := Number.of_decimal false 6 (-1).

(** An explanation with white space around it. *)
Definition spaced_prose : jsstring :=
  js " Fractions are parts of a whole. ".

(** An explanation that the model wrapped in a fence. *)
Definition fenced_prose : jsstring :=
  fenced [] [LF] (js "Fractions are parts of a whole.") [LF].

(** A study plan as the model is asked to write it, and its value. *)
Definition advanced_plan : jsstring :=
  requoted "{'chapter_id': 'fractions-6', 'prerequisites': ['division'], 'recommended_practice': ['Daily quiz'], 'estimated_time': 90, 'difficulty_level': 'advanced'}".

Definition advanced_plan_value : JSON.value :=
  JSON.Obj [
    (js "chapter_id", JSON.Str (js "fractions-6"));
    (js "prerequisites", JSON.Arr [JSON.Str (js "division")]);
    (js "recommended_practice", JSON.Arr [JSON.Str (js "Daily quiz")]);
    (js "estimated_time", JSON.Num (Number.of_Z 90));
    (js "difficulty_level", JSON.Str (js "advanced"))
  ].

(** The fallback explanation after the topic, as lines 137-143 have it from
    [ together!] on: the rest of the first line, and three paragraphs with
    an empty line before each. *)
Definition explanation_tail : jsstring :=
  js " together! 🌟" ++ [LF; LF]
  ++ js "This is an important concept that will help you understand mathematics better. Think of it as building blocks - each piece helps you construct something amazing!"
  ++ [LF; LF]
  ++ js "We'll start with the basics and gradually build up your understanding. Don't worry if it seems challenging at first - that's completely normal! 💪"
  ++ [LF; LF]
  ++ js "Remember: every expert was once a beginner. You're on an exciting journey of discovery! 🚀".

(** A student with a score and no question. *)
Definition unasked_diagnostic : DiagnosticResult :=
  {| strengths := []; weaknesses := []; gaps := [];
     score := Number.of_Z 3; total_questions := zero |}.

(** A fenced object, and the same text fenced once more. *)
Definition fenced_object : jsstring :=
  fenced (js "json") [LF] (js "{}") [LF].

Definition twice_fenced_object : jsstring :=
  fenced [] [LF] fenced_object [LF].

(** ** Running an operation *)

Lemma request_content_run (prompt : jsstring) (w : world) :
  request_content prompt w =
  (match classify (endpoint w (groq_request prompt)) with
   | Content s => Normal (Some (trim s))
   | NetworkError | ContentNotText => Throw TypeError
   | MalformedBody => Throw SyntaxError
   | BadStatus | NoContent => Normal None
   end,
   sent (groq_request prompt) w).
Proof.
  unfold request_content, bind, fetch, classify.
  destruct (endpoint w (groq_request prompt)) as [response|]; [|reflexivity].
  destruct (ok response); [|reflexivity].
  unfold response_json.
  destruct (json response) as [data|]; [|reflexivity].
  unfold ret at 1.
  destruct (message_content data) as [c|]; [|reflexivity].
  destruct c as [|b|x|s|l|ps]; cbn; try reflexivity.
  - destruct b; reflexivity.
  - destruct (Number.truthy x); reflexivity.
  - destruct s; reflexivity.
Qed.

Lemma attempt_run (label prompt : jsstring) (w : world) :
  try_catch (request_content prompt)
    (fun error => (console_error label error ;; ret None)%js) w =
  (Normal match classify (endpoint w (groq_request prompt)) with
          | Content s => Some (trim s)
          | _ => None
          end,
   log_caught label (endpoint w (groq_request prompt))
     (sent (groq_request prompt) w)).
Proof.
  unfold try_catch, log_caught, caught.
  rewrite request_content_run.
  destruct (classify (endpoint w (groq_request prompt))); reflexivity.
Qed.

Section Runs.

Variable chaptersData : list Chapter.

Lemma study_plan_run chapterId diagnosticResult userProgress c w :
  find (fun c => str_eqb (id c) chapterId) chaptersData = Some c ->
  let prompt := studyPlanPrompt c chapterId diagnosticResult in
  let o := endpoint w (groq_request prompt) in
  let fallback := plan_object (fallbackStudyPlan chapterId diagnosticResult) in
  let label := js "Error generating study plan:" in
  generatePersonalizedStudyPlan chaptersData chapterId diagnosticResult
    userProgress w =
  match classify o with
  | Content s =>
    match JSON.parse (extract s) with
    | Some studyPlan => (Normal studyPlan, sent (groq_request prompt) w)
    | None =>
      (Normal fallback, logged label SyntaxError (sent (groq_request prompt) w))
    end
  | _ => (Normal fallback, log_caught label o (sent (groq_request prompt) w))
  end.
Proof.
  intros Hfind prompt o fallback label.
  unfold generatePersonalizedStudyPlan. rewrite Hfind.
  unfold bind at 1, try_catch, bind at 1.
  rewrite request_content_run. fold prompt o.
  unfold log_caught, caught, extract.
  destruct (classify o) as [| | | | |s]; try reflexivity.
  unfold bind, JSON_parse.
  destruct (JSON.parse (stripFences (trim s))); reflexivity.
Qed.

Lemma study_content_run chapterId chapterName userLevel uw us w :
  let weak := match uw with Some l => l | None => [] end in
  let strong := match us with Some l => l | None => [] end in
  let prompt := studyContentPrompt chapterName userLevel weak strong in
  let o := endpoint w (groq_request prompt) in
  let fallback := fallbackStudyContent chapterName weak strong in
  generatePersonalizedStudyContent chapterId chapterName userLevel uw us w =
  match classify o with
  | Content s =>
    match JSON.parse (extract s) with
    | Some parsed => (Normal parsed, sent (groq_request prompt) w)
    | None =>
      (Normal fallback,
       logged (js "Error parsing study content JSON:") SyntaxError
         (sent (groq_request prompt) w))
    end
  | _ =>
    (Normal fallback,
     log_caught (js "Error generating personalized study content:") o
       (sent (groq_request prompt) w))
  end.
Proof.
  intros weak strong prompt o fallback.
  unfold generatePersonalizedStudyContent.
  fold weak strong. fold prompt.
  unfold bind at 1, try_catch at 1, bind at 1.
  rewrite request_content_run. fold o.
  unfold log_caught, caught, extract.
  destruct (classify o) as [| | | | |s]; try reflexivity.
  unfold try_catch, bind, JSON_parse.
  destruct (JSON.parse (stripFences (trim s))); reflexivity.
Qed.

Lemma explanation_run chapterId topic studentLevel w :
  let prompt := explanationPrompt topic studentLevel in
  let o := endpoint w (groq_request prompt) in
  generateChapterExplanation chapterId topic studentLevel w =
  (Normal match classify o with
          | Content s => trim s
          | _ => fallbackExplanation topic
          end,
   log_caught (js "Error generating explanation:") o
     (sent (groq_request prompt) w)).
Proof.
  intros prompt o.
  unfold generateChapterExplanation. unfold bind at 1. cbv zeta.
  rewrite attempt_run. fold prompt o.
  destruct (classify o); reflexivity.
Qed.

Lemma notification_run userProgress recentActivity w :
  let prompt := notificationPrompt recentActivity in
  let o := endpoint w (groq_request prompt) in
  generateSmartNotification userProgress recentActivity w =
  (Normal match classify o with
          | Content s => Some (trim s)
          | _ =>
            element fallbackNotifications
              (Number.floor (Number.mul (random w) (Number.of_Z 4)))
          end,
   log_caught (js "Error generating notification:") o
     (sent (groq_request prompt) w)).
Proof.
  intros prompt o.
  unfold generateSmartNotification. unfold bind at 1. cbv zeta.
  rewrite attempt_run. fold prompt o.
  unfold log_caught, caught.
  destruct (classify o); reflexivity.
Qed.

End Runs.

(** ** White space and [trim] *)

Lemma trimStart_blank (l s : jsstring) :
  blank l = true -> trimStart (l ++ s) = trimStart s.
Proof.
  induction l as [|c l IH]; simpl; [reflexivity|].
  intros H. apply andb_prop in H. destruct H as [Hc Hl].
  rewrite Hc. auto.
Qed.

Lemma trimStart_head (c : code_unit) (s : jsstring) :
  is_white_space c = false -> trimStart (c :: s) = c :: s.
Proof. intros H. simpl. now rewrite H. Qed.

(** [trimStart] splits a string into a blank prefix and the rest. *)
Lemma trimStart_split (s : jsstring) :
  exists l, blank l = true /\ s = l ++ trimStart s.
Proof.
  induction s as [|c s [l [Hl Hs]]].
  - exists []. split; reflexivity.
  - simpl. destruct (is_white_space c) eqn:Hc.
    + exists (c :: l). simpl. rewrite Hc, Hl. split; [reflexivity|].
      now rewrite Hs at 1.
    + exists []. split; reflexivity.
Qed.

Lemma blank_rev (l : jsstring) : blank (rev l) = blank l.
Proof.
  unfold blank. induction l as [|c l IH]; [reflexivity|].
  simpl. rewrite forallb_app, IH. simpl.
  rewrite andb_true_r. apply andb_comm.
Qed.

Lemma trimStart_nil_blank (s : jsstring) :
  trimStart s = [] -> blank s = true.
Proof.
  induction s as [|c s IH]; [reflexivity|].
  simpl. destruct (is_white_space c); [auto | discriminate].
Qed.

Lemma trimStart_first (s : jsstring) c r :
  trimStart s = c :: r -> is_white_space c = false.
Proof.
  induction s as [|x s IH]; simpl; [discriminate|].
  destruct (is_white_space x) eqn:Hx; [auto|].
  intros H. injection H as -> _. exact Hx.
Qed.

(** [trim] splits a string into a blank prefix, the trimmed text and a
    blank suffix. *)
Lemma trim_split (s : jsstring) :
  exists l r, blank l = true /\ blank r = true /\ s = l ++ trim s ++ r.
Proof.
  destruct (trimStart_split s) as [l [Hl Hs]].
  destruct (trimStart_split (rev (trimStart s))) as [r [Hr Hrs]].
  exists l, (rev r). rewrite blank_rev. repeat split; try assumption.
  unfold trim, trimEnd.
  rewrite <- rev_app_distr, <- Hrs, rev_involutive. exact Hs.
Qed.

Lemma trim_is_trimmed (s : jsstring) : is_trimmed (trim s) = true.
Proof.
  unfold trim, trimEnd.
  destruct (trimStart (rev (trimStart s))) as [|c r] eqn:E; [reflexivity|].
  pose proof (trimStart_first _ _ _ E) as Hc.
  simpl rev.
  destruct (rev r ++ [c]) as [|x t] eqn:Ex.
  - destruct (rev r); discriminate.
  - unfold is_trimmed. rewrite <- Ex, last_last, Hc. simpl.
    rewrite andb_true_r.
    (* the first character comes from [trimStart s] *)
    destruct (trimStart_split (rev (trimStart s))) as [l [Hl Hs]].
    rewrite E in Hs.
    assert (Hs' : trimStart s = (rev r ++ [c]) ++ rev l).
    { rewrite <- (rev_involutive (trimStart s)), Hs, rev_app_distr.
      simpl. reflexivity. }
    rewrite Ex in Hs'. simpl in Hs'.
    now rewrite (trimStart_first _ _ _ Hs').
Qed.

Lemma trimmed_trimStart (t : jsstring) :
  is_trimmed t = true -> trimStart t = t.
Proof.
  destruct t as [|c t]; [reflexivity|].
  unfold is_trimmed. intros H. apply andb_prop in H. destruct H as [Hc _].
  apply trimStart_head. now destruct (is_white_space c).
Qed.

Lemma trimmed_rev (t : jsstring) : is_trimmed (rev t) = is_trimmed t.
Proof.
  destruct t as [|c t]; [reflexivity|].
  assert (H : forall (x : code_unit) u d, last (rev (x :: u)) d = x).
  { intros. simpl. apply last_last. }
  destruct (rev (c :: t)) as [|y u] eqn:E.
  - simpl in E. destruct (rev t); discriminate.
  - unfold is_trimmed.
    assert (Hy : last (c :: t) c = y).
    { rewrite <- (rev_involutive (c :: t)), E. apply H. }
    assert (Hc : last (y :: u) y = c).
    { rewrite <- E. apply H. }
    rewrite Hy, Hc. apply andb_comm.
Qed.

(** Blank text around a trimmed text is what [trim] removes. *)
Lemma trim_around (l t r : jsstring) :
  blank l = true -> blank r = true -> is_trimmed t = true ->
  trim (l ++ t ++ r) = t.
Proof.
  intros Hl Hr Ht. unfold trim, trimEnd.
  rewrite trimStart_blank by assumption.
  destruct t as [|c t].
  - simpl.
    assert (Hn : trimStart r = []).
    { clear -Hr. induction r as [|x r IH]; [reflexivity|].
      simpl in *. apply andb_prop in Hr. destruct Hr as [Hx Hr].
      rewrite Hx. auto. }
    now rewrite Hn.
  - assert (Hc : trimStart ((c :: t) ++ r) = (c :: t) ++ r).
    { apply trimStart_head. unfold is_trimmed in Ht.
      apply andb_prop in Ht. destruct Ht as [Hc _].
      now destruct (is_white_space c). }
    rewrite Hc, rev_app_distr, trimStart_blank by now rewrite blank_rev.
    rewrite trimmed_trimStart by now rewrite trimmed_rev.
    apply rev_involutive.
Qed.

Lemma trimmed_trim (t : jsstring) : is_trimmed t = true -> trim t = t.
Proof.
  intros H. rewrite <- (trim_around [] t []) at 2; try easy.
  now rewrite app_nil_r.
Qed.

Lemma trim_idempotent (s : jsstring) : trim (trim s) = trim s.
Proof. apply trimmed_trim, trim_is_trimmed. Qed.

(** ** The regular expressions of line 59 *)

Lemma star_end (k : nat -> jsstring -> option jsstring) pos (s : jsstring) :
  (forall pos' s', k pos' s' = Some s') ->
  RegExp.star k pos s = Some (trimStart s).
Proof.
  intros Hk. revert pos. induction s as [|c s IH]; intros pos; simpl.
  - apply Hk.
  - destruct (is_white_space c); [now rewrite IH | apply Hk].
Qed.

Lemma matches_literal (lit : jsstring) (p : list RegExp.term) pos s :
  RegExp.matches true (RegExp.literal lit ++ p) pos s =
  match drop_literal lit s with
  | Some rest => RegExp.matches true p (length lit + pos) rest
  | None => None
  end.
Proof.
  revert pos s. induction lit as [|c lit IH]; intros pos s; [reflexivity|].
  destruct s as [|x s]; [reflexivity|].
  simpl RegExp.literal. simpl app. simpl drop_literal.
  cbn [RegExp.matches].
  destruct (RegExp.canonicalize true x =? RegExp.canonicalize true c)%N;
    [|reflexivity].
  unfold RegExp.literal in IH. rewrite IH.
  simpl length. now rewrite Nat.add_succ_r.
Qed.

(** A pattern that starts with [^] matches nowhere after index 0. *)
Lemma search_caret (i : bool) (p : list RegExp.term) pos s :
  RegExp.search
    {| RegExp.source := RegExp.Caret :: p; RegExp.ignoreCase := i |}
    (S pos) s = None.
Proof.
  revert pos. induction s as [|c s IH]; intros pos; simpl; [reflexivity|].
  now rewrite IH.
Qed.

Lemma remove_opening (lit s : jsstring) :
  RegExp.remove
    {| RegExp.source :=
         RegExp.Caret :: RegExp.literal lit ++ [RegExp.WhiteSpaceStar];
       RegExp.ignoreCase := true |} s =
  drop_opening lit s.
Proof.
  unfold RegExp.remove, drop_opening.
  destruct s as [|c s].
  - cbn [RegExp.search RegExp.source RegExp.ignoreCase RegExp.matches].
    rewrite matches_literal.
    destruct (drop_literal lit []); [|reflexivity].
    cbn [RegExp.matches]. now rewrite star_end.
  - cbn [RegExp.search RegExp.source RegExp.ignoreCase].
    cbn [RegExp.matches]. rewrite matches_literal.
    destruct (drop_literal lit (c :: s)).
    + cbn [RegExp.matches]. now rewrite star_end.
    + now rewrite search_caret.
Qed.

Lemma canonicalize_backquote (x : code_unit) :
  (RegExp.canonicalize true x =? RegExp.canonicalize true 96)%N = (x =? 96)%N.
Proof.
  unfold RegExp.canonicalize. simpl.
  destruct (97 <=? x)%N eqn:H1; destruct (x <=? 122)%N eqn:H2; simpl;
    try reflexivity.
  apply N.leb_le in H1. apply N.leb_le in H2.
  destruct (N.eqb_spec (x - 32) 96); destruct (N.eqb_spec x 96);
    try reflexivity; lia.
Qed.

Lemma drop_fence (s : jsstring) :
  drop_literal fence s =
  if startsWith fence s then Some (skipn 3 s) else None.
Proof.
  change fence with [96; 96; 96]%N.
  destruct s as [|a [|b [|c s]]];
    cbn [drop_literal startsWith skipn];
    rewrite ?canonicalize_backquote, ?(N.eqb_sym 96);
    repeat match goal with
           | |- context [(?x =? 96)%N] => destruct (x =? 96)%N
           end; reflexivity.
Qed.

(** [/```$/] matches exactly where three backquotes end the input. *)
Lemma matches_closing pos (s : jsstring) :
  RegExp.matches true (RegExp.source re_fence_close) pos s =
  if list_eq_dec N.eq_dec s fence then Some [] else None.
Proof.
  destruct (list_eq_dec N.eq_dec s fence) as [->|Hne]; [reflexivity|].
  change (RegExp.source re_fence_close)
    with [RegExp.Char 96; RegExp.Char 96; RegExp.Char 96; RegExp.Dollar]%N.
  change fence with [96; 96; 96]%N in Hne.
  destruct s as [|a [|b [|c [|d s]]]]; cbn [RegExp.matches];
    rewrite ?canonicalize_backquote; try reflexivity.
  - destruct (a =? 96)%N; reflexivity.
  - destruct (a =? 96)%N; [|reflexivity]. destruct (b =? 96)%N; reflexivity.
  - destruct (N.eqb_spec a 96); [|reflexivity].
    destruct (N.eqb_spec b 96); [|reflexivity].
    destruct (N.eqb_spec c 96); [|reflexivity].
    subst. now elim Hne.
  - destruct (a =? 96)%N; [|reflexivity]. destruct (b =? 96)%N; [|reflexivity].
    destruct (c =? 96)%N; reflexivity.
Qed.

Lemma search_closing_app pos (t : jsstring) :
  RegExp.search re_fence_close pos (t ++ fence) = Some (t, []).
Proof.
  revert pos. induction t as [|c t IH]; intros pos; [reflexivity|].
  cbn [app RegExp.search].
  change (RegExp.ignoreCase re_fence_close) with true.
  rewrite matches_closing, IH.
  destruct (list_eq_dec N.eq_dec (c :: t ++ fence) fence) as [E|_];
    [|reflexivity].
  apply (f_equal (@length _)) in E. simpl in E.
  rewrite length_app in E. simpl in E. lia.
Qed.

Lemma startsWith_app (p s : jsstring) : startsWith p (p ++ s) = true.
Proof.
  induction p as [|a p IH]; [reflexivity|]. simpl.
  now rewrite N.eqb_refl, IH.
Qed.

Lemma startsWith_inv (p s : jsstring) :
  startsWith p s = true -> s = p ++ skipn (length p) s.
Proof.
  revert s. induction p as [|a p IH]; intros s H; [reflexivity|].
  destruct s as [|b s]; [discriminate|].
  simpl in H. apply andb_prop in H. destruct H as [Hab H].
  apply N.eqb_eq in Hab. subst. simpl. f_equal. auto.
Qed.

Lemma endsWith_app (p t : jsstring) : endsWith p (t ++ p) = true.
Proof. unfold endsWith. rewrite rev_app_distr. apply startsWith_app. Qed.

Lemma endsWith_inv (p s : jsstring) :
  endsWith p s = true -> exists t, s = t ++ p.
Proof.
  unfold endsWith. intros H. apply startsWith_inv in H.
  exists (rev (skipn (length (rev p)) (rev s))).
  apply (f_equal (@rev _)) in H.
  now rewrite rev_involutive, rev_app_distr, rev_involutive in H.
Qed.

Lemma search_closing_none pos (s : jsstring) :
  endsWith fence s = false -> RegExp.search re_fence_close pos s = None.
Proof.
  revert pos. induction s as [|c s IH]; intros pos H.
  - reflexivity.
  - cbn [RegExp.search].
    change (RegExp.ignoreCase re_fence_close) with true.
    rewrite matches_closing.
    destruct (list_eq_dec N.eq_dec (c :: s) fence) as [E|_].
    + rewrite E in H. discriminate.
    + rewrite IH; [reflexivity|].
      destruct (endsWith fence s) eqn:Hs; [|reflexivity].
      apply endsWith_inv in Hs. destruct Hs as [t ->].
      change (c :: t ++ fence) with ((c :: t) ++ fence) in H.
      now rewrite endsWith_app in H.
Qed.

Lemma remove_closing (s : jsstring) :
  RegExp.remove re_fence_close s = drop_closing s.
Proof.
  unfold RegExp.remove, drop_closing.
  destruct (endsWith fence s) eqn:H.
  - apply endsWith_inv in H. destruct H as [t ->].
    rewrite search_closing_app, app_nil_r, length_app, Nat.add_sub.
    now rewrite firstn_app, Nat.sub_diag, firstn_all, app_nil_r.
  - now rewrite search_closing_none.
Qed.

(** Line 59 without regular expressions. *)
Lemma stripFences_eq (text : jsstring) :
  stripFences text =
  trim (drop_closing (drop_opening fence (drop_opening (js "```json") text))).
Proof.
  unfold stripFences.
  now rewrite remove_closing, <- !remove_opening.
Qed.

(** ** Fenced payloads *)

Lemma drop_literal_equal (a lit rest : jsstring) :
  equal_ignoring_case a lit = true -> drop_literal lit (a ++ rest) = Some rest.
Proof.
  revert a. induction lit as [|c lit IH]; intros [|x a] H; try discriminate.
  - reflexivity.
  - simpl in H. apply andb_prop in H. destruct H as [Hx Ha].
    simpl. rewrite Hx. auto.
Qed.

Lemma white_space_not_j (c : code_unit) :
  is_white_space c = true ->
  (RegExp.canonicalize true c =? RegExp.canonicalize true 106)%N = false.
Proof.
  intros Hc. change (RegExp.canonicalize true 106) with 74%N.
  destruct (N.eqb_spec (RegExp.canonicalize true c) 74) as [E|]; [|reflexivity].
  assert (Hcases : c = 74%N \/ c = 106%N).
  { unfold RegExp.canonicalize in E. simpl in E.
    destruct (97 <=? c)%N eqn:H1; destruct (c <=? 122)%N eqn:H2;
      simpl in E; try (now left).
    apply N.leb_le in H1. right. lia. }
  destruct Hcases; subst; discriminate.
Qed.

Lemma drop_json_bare (c : code_unit) (rest : jsstring) :
  is_white_space c = true ->
  drop_literal (js "```json") (fence ++ c :: rest) = None.
Proof.
  intros Hc. change (js "```json") with ([96; 96; 96] ++ 106 :: js "son")%N.
  change fence with [96; 96; 96]%N.
  cbn [app drop_literal]. rewrite !canonicalize_backquote. simpl N.eqb.
  cbv iota. now rewrite white_space_not_j.
Qed.

Lemma drop_json_unfenced (s : jsstring) :
  startsWith fence s = false -> drop_literal (js "```json") s = None.
Proof.
  change (js "```json") with ([96; 96; 96] ++ js "json")%N.
  change fence with [96; 96; 96]%N.
  destruct s as [|a [|b [|c s]]];
    cbn [app drop_literal startsWith];
    rewrite ?canonicalize_backquote, ?(N.eqb_sym 96);
    repeat match goal with
           | |- context [(?x =? 96)%N] => destruct (x =? 96)%N
           end; try reflexivity; discriminate.
Qed.

Lemma blank_app (a b : jsstring) : blank (a ++ b) = blank a && blank b.
Proof. apply forallb_app. Qed.

Lemma drop_closing_app (t : jsstring) : drop_closing (t ++ fence) = t.
Proof.
  unfold drop_closing. rewrite endsWith_app, length_app, Nat.add_sub.
  now rewrite firstn_app, Nat.sub_diag, firstn_all, app_nil_r.
Qed.

(** After the opening marker is gone: the closing one and the blank text
    before it go as well. *)
Lemma closing_of_trimmed (t u : jsstring) :
  is_trimmed t = true -> blank u = true ->
  trim (drop_closing (t ++ u ++ fence)) = t.
Proof.
  intros Ht Hu.
  replace (t ++ u ++ fence) with ((t ++ u) ++ fence) by now rewrite app_assoc.
  rewrite drop_closing_app.
  now apply (trim_around [] t u).
Qed.

(** The second replacement leaves a payload alone that does not start
    with a fence. *)
Lemma second_opening (t u : jsstring) :
  is_trimmed t = true -> t <> [] -> startsWith fence t = false ->
  blank u = true ->
  trim (drop_closing (drop_opening fence (t ++ u ++ fence))) = t.
Proof.
  intros Ht Hne Hstart Hu.
  unfold drop_opening. rewrite drop_fence.
  destruct (startsWith fence (t ++ u ++ fence)) eqn:E;
    [|now apply closing_of_trimmed].
  (* the payload is one or two backquotes, right before the closing fence *)
  change fence with [96; 96; 96]%N in *.
  assert (Hblank : forall x v, u = x :: v -> (x =? 96)%N = false).
  { intros x v ->. simpl in Hu. apply andb_prop in Hu. destruct Hu as [Hx _].
    destruct (N.eqb_spec x 96) as [->|]; [discriminate | reflexivity]. }
  destruct t as [|a [|b [|c t]]]; [now elim Hne | | | ].
  - destruct u as [|x v]; cbn [app startsWith] in E.
    + destruct (N.eqb_spec 96 a) as [<-|]; [reflexivity|discriminate].
    + rewrite (N.eqb_sym 96 x), (Hblank x v eq_refl) in E.
      rewrite andb_false_r in E. discriminate.
  - destruct u as [|x v]; cbn [app startsWith] in E.
    + destruct (N.eqb_spec 96 a) as [<-|]; [|discriminate].
      destruct (N.eqb_spec 96 b) as [<-|]; [reflexivity|discriminate].
    + rewrite (N.eqb_sym 96 x), (Hblank x v eq_refl) in E.
      rewrite !andb_false_r in E. discriminate.
  - cbn [app startsWith] in E, Hstart. rewrite Hstart in E. discriminate.
Qed.

Lemma is_trimmed_ends (a x : code_unit) (l : jsstring) :
  is_white_space a = false -> is_white_space x = false ->
  is_trimmed (a :: l ++ [x]) = true.
Proof.
  intros Ha Hx. unfold is_trimmed.
  change (last (a :: l ++ [x]) a) with (last ((a :: l) ++ [x]) a).
  now rewrite last_last, Ha, Hx.
Qed.

Lemma fenced_is_trimmed (tag before payload after : jsstring) :
  is_trimmed (fenced tag before payload after) = true.
Proof.
  replace (fenced tag before payload after)
    with (96 :: (96 :: 96 :: tag ++ before ++ payload ++ after ++ [96; 96])
             ++ [96])%N.
  - now apply is_trimmed_ends.
  - unfold fenced. change fence with [96; 96; 96]%N.
    cbn [app]. now rewrite <- !app_assoc.
Qed.

(** The text after the opening marker, once its leading blanks are gone. *)
Lemma after_opening (before payload after : jsstring) :
  blank before = true -> blank after = true ->
  exists u, blank u = true /\
    trimStart (before ++ payload ++ after ++ fence) =
    match trim payload with
    | [] => fence
    | _ :: _ => trim payload ++ u ++ fence
    end.
Proof.
  intros Hb Ha.
  destruct (trim_split payload) as (l & r & Hl & Hr & Hp).
  pose proof (trim_is_trimmed payload) as Ht.
  destruct (trim payload) as [|c t] eqn:Et.
  - exists []. split; [reflexivity|].
    rewrite Hp. simpl.
    replace (before ++ (l ++ r) ++ after ++ fence)
      with ((before ++ l ++ r ++ after) ++ fence)
      by now rewrite <- !app_assoc.
    rewrite trimStart_blank; [reflexivity|].
    now rewrite !blank_app, Hb, Hl, Hr, Ha.
  - exists (r ++ after). split; [now rewrite blank_app, Hr, Ha|].
    rewrite Hp.
    replace (before ++ (l ++ (c :: t) ++ r) ++ after ++ fence)
      with ((before ++ l) ++ (c :: t) ++ (r ++ after) ++ fence)
      by now rewrite <- !app_assoc.
    rewrite trimStart_blank by now rewrite blank_app, Hb, Hl.
    apply trimStart_head.
    unfold is_trimmed in Ht. apply andb_prop in Ht. destruct Ht as [Hc _].
    now destruct (is_white_space c).
Qed.

(** Extraction of a fenced payload gives the trimmed payload. *)
Lemma extract_fenced (tag before payload after : jsstring) :
  opening tag before = true ->
  blank before = true -> blank after = true ->
  startsWith fence (trim payload) = false ->
  extract (fenced tag before payload after) = trim payload.
Proof.
  intros Hopen Hb Ha Hstart.
  unfold extract.
  rewrite (trimmed_trim _ (fenced_is_trimmed tag before payload after)).
  rewrite stripFences_eq. unfold fenced.
  destruct (after_opening before payload after Hb Ha) as (u & Hu & Hrest).
  pose proof (trim_is_trimmed payload) as Ht.
  assert (Hsingle :
    trim (drop_closing (trimStart (before ++ payload ++ after ++ fence))) =
    trim payload).
  { rewrite Hrest. destruct (trim payload) as [|c t] eqn:Et.
    - reflexivity.
    - now apply closing_of_trimmed. }
  destruct tag as [|j tag].
  - (* no tag: the first replacement does not apply *)
    destruct before as [|b before]; [discriminate|].
    simpl in Hb. apply andb_prop in Hb. destruct Hb as [Hb0 Hb].
    cbn [app]. unfold drop_opening at 2.
    rewrite drop_json_bare by assumption.
    unfold drop_opening. rewrite drop_fence, startsWith_app.
    change (skipn 3 (fence ++ b :: before ++ payload ++ after ++ fence))
      with ((b :: before) ++ payload ++ after ++ fence).
    exact Hsingle.
  - (* the tag [json]: the first replacement takes the marker *)
    unfold drop_opening at 2.
    replace (fence ++ (j :: tag) ++ before ++ payload ++ after ++ fence)
      with ((fence ++ j :: tag) ++ before ++ payload ++ after ++ fence)
      by now rewrite <- app_assoc.
    rewrite (drop_literal_equal (fence ++ j :: tag) (js "```json"))
      by exact Hopen.
    rewrite Hrest. destruct (trim payload) as [|c t] eqn:Et.
    + reflexivity.
    + apply second_opening; try assumption. discriminate.
Qed.

(** Extraction leaves a trimmed text without fences at its ends as it is. *)
Lemma extract_unfenced (t : jsstring) :
  is_trimmed t = true ->
  startsWith fence t = false -> endsWith fence t = false ->
  extract t = t.
Proof.
  intros Ht Hstart Hend. unfold extract.
  rewrite (trimmed_trim t Ht), stripFences_eq.
  unfold drop_opening. rewrite (drop_json_unfenced t Hstart).
  rewrite drop_fence, Hstart. unfold drop_closing. rewrite Hend.
  exact (trimmed_trim t Ht).
Qed.

(** ** Binary64 arithmetic of line 200 *)

Section BinaryFloats.

Local Open Scope Z_scope.

Lemma digits2_size (m : positive) : digits2_pos m = Pos.size m.
Proof. induction m; simpl; congruence. Qed.

Lemma digits2_bounds (m : positive) :
2 ^ (Z.pos (digits2_pos m) - 1) <= Z.pos m < 2 ^ Z.pos (digits2_pos m).
Proof.
rewrite digits2_size.
pose proof (Pos.size_le m). pose proof (Pos.size_gt m).
split.
- assert (2 ^ Z.pos (Pos.size m) <= 2 * Z.pos m).
  { change 2 with (Z.pos 2) at 1. rewrite <- Pos2Z.inj_pow. lia. }
  replace (Z.pos (Pos.size m)) with (Z.succ (Z.pos (Pos.size m) - 1)) in H1 by lia.
  rewrite Z.pow_succ_r in H1 by lia. lia.
- change 2 with (Z.pos 2). rewrite <- Pos2Z.inj_pow. lia.
Qed.



(** The product by 4 of a number below 1 is exact: the mantissa is kept, up
  to the normalization of a subnormal operand. *)
Lemma mul_four_shifted (m : positive) (e k : Z) :
(k = 0 \/ k = 1 \/ k = 2) ->
Z.max (Z.pos (digits2_pos m) + e - 51) (-1074) = e + 2 - k ->
e <= 900 ->
exists m', Z.pos m' = Z.pos m * 2 ^ k /\
  Number.mul (S754_finite false m e) (Number.of_Z 4) =
  S754_finite false m' (e + 2 - k).
Proof.
intros Hk Hd He.
change (Number.of_Z 4) with (S754_finite false 4503599627370496 (-50)).
unfold Number.mul, SFmul. rewrite Pos.mul_comm.
cbn [Pos.mul xorb].
unfold binary_round_aux, shr_fexp.
cbn [Zdigits2 digits2_pos].
match goal with
| |- context [fexp ?p ?em ?x - ?y] =>
  replace (fexp p em x - y) with (52 - k)
    by (unfold fexp, emin, Number.prec, Number.emax; lia)
end.
destruct Hk as [-> | [-> | ->]]; cbn [Z.sub Z.opp Z.add Z.pos_sub Pos.pred_double shr iter_pos shr_record_of_loc shr_1 orb Pos.succ Z.succ_double Z.pred_double Z.double];
cbn [shr_m loc_of_shr_record round_nearest_even shr_record_of_loc shr_r shr_s Zdigits2 digits2_pos].
all: match goal with
     | |- context [fexp ?p ?em ?x - ?y] =>
       replace (fexp p em x - y) with 0
         by (unfold fexp, emin, Number.prec, Number.emax; lia)
     end;
  cbn [shr shr_m];
  match goal with
  | |- context [?a <=? ?b] =>
    replace (a <=? b) with true
      by (symmetry; apply Z.leb_le; unfold Number.prec, Number.emax; lia)
  end.
- exists m. split; [lia | f_equal; lia].
- exists (m~0)%positive. split; [lia | f_equal; lia].
- exists (m~0~0)%positive. split; [lia | f_equal; lia].
Qed.

Lemma valid_exponent (m : positive) (e : Z) :
Number.valid (S754_finite false m e) = true ->
exists k, (k = 0 \/ k = 1 \/ k = 2) /\
  Z.max (Z.pos (digits2_pos m) + e - 51) (-1074) = e + 2 - k /\
  Z.pos m < 2 ^ 53 /\ -1074 <= e /\
  (e = -52 -> 2 ^ 52 <= Z.pos m).
Proof.
unfold Number.valid, valid_binary, bounded, canonical_mantissa, fexp, emin.
unfold Number.prec, Number.emax.
intros H. apply andb_prop in H. destruct H as [Hc _].
apply Z.eqb_eq in Hc.
pose proof (digits2_bounds m) as [Hlo Hhi].
set (d := Z.pos (digits2_pos m)) in *.
assert (Hd : 1 <= d) by (subst d; lia).
assert (Hm53 : Z.pos m < 2 ^ 53).
{ apply Z.lt_le_trans with (1 := Hhi).
  apply Z.pow_le_mono_r; lia. }
assert (Hcases : d = 53 \/ (e = -1074 /\ d <= 52)) by lia.
destruct Hcases as [H53 | [He Hle]].
- exists 0. repeat split; try lia.
  intros _. rewrite H53 in Hlo. exact Hlo.
- assert (d <= 51 \/ d = 52) as [H51 | H52] by lia.
  + exists 2. repeat split; lia.
  + exists 1. repeat split; lia.
Qed.


(** A valid number from 0 up to, and not including, 1. *)
Lemma unit_interval (r : number) :
Number.valid r = true ->
Number.leb zero r = true -> Number.ltb r one = true ->
(exists s, r = S754_zero s) \/
(exists m e, r = S754_finite false m e /\ e <= -53).
Proof.
intros Hv H0 H1.
destruct r as [s | s | | s m e].
- left. now exists s.
- destruct s; discriminate.
- discriminate.
- right. destruct s; [discriminate|].
  exists m, e. split; [reflexivity|].
  destruct (valid_exponent m e Hv) as (k & _ & _ & _ & _ & H52).
  change one with (S754_finite false 4503599627370496 (-52)) in H1.
  unfold Number.ltb, SFltb, SFcompare in H1.
  destruct (Z.compare_spec e (-52)) as [E | E | E].
  + specialize (H52 E).
    destruct (Pos.compare_cont Eq m 4503599627370496) eqn:C.
    * discriminate H1.
    * assert (Hlt : Z.pos m < 4503599627370496) by exact C.
      change (2 ^ 52) with 4503599627370496 in H52.
      lia.
    * discriminate H1.
  + lia.
  + discriminate H1.
Qed.
Lemma index_of_small (q : Z) :
0 <= q < 4 ->
Number.to_index (if q =? 0 then S754_zero false else Number.of_Z q) =
Some (Z.to_nat q).
Proof.
intros H.
assert (q = 0 \/ q = 1 \/ q = 2 \/ q = 3) as [-> | [-> | [-> | ->]]] by lia;
  reflexivity.
Qed.

(** Line 200 on a random number of the unit interval: the index is the
  quarter of the interval in which the number lies. *)
Lemma quarter_index (r : number) :
Number.valid r = true ->
Number.leb zero r = true -> Number.ltb r one = true ->
exists i : nat,
  (i < 4)%nat /\
  Number.to_index (Number.floor (Number.mul r (Number.of_Z 4))) = Some i /\
  (Z.of_nat i # 4 <= exact r)%Q /\ (exact r < Z.of_nat i + 1 # 4)%Q.
Proof.
intros Hv H0 H1.
destruct (unit_interval r Hv H0 H1) as [[s ->] | (m & e & -> & He)].
- exists 0%nat. split; [lia|]. split; [now destruct s|].
  unfold Qle, Qlt. cbn. lia.
- destruct (valid_exponent m e Hv) as (k & Hk & Hd & Hm & Hmin & _).
  destruct (mul_four_shifted m e k Hk Hd ltac:(lia)) as (m' & Hm' & ->).
  set (D := 2 ^ (- e - 2)).
  assert (HD : 0 < D) by (apply Z.pow_pos_nonneg; lia).
  assert (HD51 : 2 ^ 51 <= D) by (apply Z.pow_le_mono_r; lia).
  assert (Hq : Z.shiftr (Z.pos m') (- (e + 2 - k)) = Z.pos m / D).
  { rewrite Z.shiftr_div_pow2 by lia. rewrite Hm'.
    replace (- (e + 2 - k)) with ((- e - 2) + k) by lia.
    rewrite Z.pow_add_r by lia. fold D.
    apply Z.div_mul_cancel_r; [lia|].
    apply Z.pow_nonzero; lia. }
  assert (Hrange : 0 <= Z.pos m / D < 4).
  { split; [apply Z.div_pos; lia|].
    apply Z.div_lt_upper_bound; [lia|].
    change (2 ^ 53) with (2 ^ 51 * 4) in Hm. nia. }
  exists (Z.to_nat (Z.pos m / D)). split; [lia|]. split.
  + unfold Number.floor.
    replace (0 <=? e + 2 - k) with false by (symmetry; apply Z.leb_gt; lia).
    rewrite Hq. now apply index_of_small.
  + rewrite Z2Nat.id by lia.
    unfold exact.
    replace (0 <=? e) with false by (symmetry; apply Z.leb_gt; lia).
    assert (HP : Z.pos (Z.to_pos (2 ^ (- e))) = 4 * D).
    { rewrite Z2Pos.id by (apply Z.pow_pos_nonneg; lia).
      replace (- e) with (2 + (- e - 2)) by lia.
      rewrite Z.pow_add_r by lia. reflexivity. }
    unfold Qle, Qlt. cbn [Qnum Qden]. rewrite HP.
    pose proof (Z.mul_div_le (Z.pos m) D HD).
    pose proof (Z.mul_succ_div_gt (Z.pos m) D HD).
    split; nia.
Qed.

End BinaryFloats.

(** ** The study plan *)

Lemma fallback_plan_fields (chapterId : jsstring) (d : DiagnosticResult) :
  fallbackStudyPlan chapterId d =
  {| chapter_id := chapterId;
     prerequisites :=
       match gaps d with
       | [] => [js "Basic arithmetic"; js "Number concepts"]
       | _ :: _ => firstn 3 (gaps d)
       end;
     recommended_practice := [
       js "Complete 10 practice problems daily";
       js "Review concept explanations";
       js "Take mini-quizzes to test understanding";
       js "Practice with real-world examples"
     ];
     estimated_time :=
       if Number.geb (Number.div (score d) (total_questions d))
            Number.seven_tenths
       then Number.of_Z 120 else Number.of_Z 180;
     difficulty_level :=
       if Number.geb (Number.div (score d) (total_questions d))
            Number.seven_tenths
       then intermediate else beginner |}.
Proof.
  unfold fallbackStudyPlan.
  destruct (Number.geb _ _); destruct (gaps d); reflexivity.
Qed.

Lemma fallback_plan_in_range (chapterId : jsstring) (d : DiagnosticResult) :
  plan_in_range (plan_object (fallbackStudyPlan chapterId d)) = true.
Proof.
  rewrite fallback_plan_fields.
  destruct (Number.geb _ _); reflexivity.
Qed.

(** On a failed generation the operation returns the fallback plan, after
    one request. *)
Lemma study_plan_failed (chaptersData : list Chapter) chapterId d up c w :
  find (fun c => str_eqb (id c) chapterId) chaptersData = Some c ->
  generation_failed
    (endpoint w (groq_request (studyPlanPrompt c chapterId d))) = true ->
  exists w',
    generatePersonalizedStudyPlan chaptersData chapterId d up w =
    (Normal (plan_object (fallbackStudyPlan chapterId d)), w').
Proof.
  intros Hfind Hfail.
  rewrite (study_plan_run chaptersData chapterId d up c w Hfind).
  unfold generation_failed in Hfail.
  destruct (classify _); try discriminate; eexists; reflexivity.
Qed.

(** The object that the fallback returns, property by property.  The
    numbers are written as binary64 values: 0.7 is
    6305039478318694 * 2^-53, 120 is 8444249301319680 * 2^-46 and 180 is
    6333186975989760 * 2^-45; [SFdiv 53 1024] and [SFleb] are the binary64
    division and comparison. *)
Lemma fallback_plan_value (chapterId : jsstring) (d : DiagnosticResult) :
  plan_object (fallbackStudyPlan chapterId d) =
  JSON.Obj [
    (js "chapter_id", JSON.Str chapterId);
    (js "prerequisites",
     JSON.Arr (map JSON.Str
                 match gaps d with
                 | [] => [js "Basic arithmetic"; js "Number concepts"]
                 | _ :: _ => firstn 3 (gaps d)
                 end));
    (js "recommended_practice",
     JSON.Arr [
       JSON.Str (js "Complete 10 practice problems daily");
       JSON.Str (js "Review concept explanations");
       JSON.Str (js "Take mini-quizzes to test understanding");
       JSON.Str (js "Practice with real-world examples")
     ]);
    (js "estimated_time",
     JSON.Num
       (if SFleb (S754_finite false 6305039478318694 (-53))
                 (SFdiv 53 1024 (score d) (total_questions d))
        then S754_finite false 8444249301319680 (-46)
        else S754_finite false 6333186975989760 (-45)));
    (js "difficulty_level",
     JSON.Str
       (if SFleb (S754_finite false 6305039478318694 (-53))
                 (SFdiv 53 1024 (score d) (total_questions d))
        then js "intermediate" else js "beginner"))
  ].
Proof.
  rewrite fallback_plan_fields. unfold plan_object.
  cbn [chapter_id prerequisites recommended_practice estimated_time
       difficulty_level map].
  assert (E7 : Number.seven_tenths = S754_finite false 6305039478318694 (-53))
    by (vm_compute; reflexivity).
  assert (E120 : Number.of_Z 120 = S754_finite false 8444249301319680 (-46))
    by (vm_compute; reflexivity).
  assert (E180 : Number.of_Z 180 = S754_finite false 6333186975989760 (-45))
    by (vm_compute; reflexivity).
  rewrite E7, E120, E180. unfold Number.geb, Number.div.
  change Number.prec with 53%Z. change Number.emax with 1024%Z.
  destruct (SFleb _ _); reflexivity.
Qed.

(** C1. When the chapter exists and the call of the endpoint fails (network
    error, non-success status, a body that is not JSON, a missing, empty or
    non-text content), generatePersonalizedStudyPlan returns exactly the
    fallback plan, the object with the five properties below: the
    chapterId; the first three gaps, or the two default prerequisites when
    there is no gap; the four fixed practices; 120 minutes and
    "intermediate" when score / total_questions >= 0.7, 180 minutes and
    "beginner" otherwise.  The quotient and the comparison are the binary64
    ones, and the threshold 6305039478318694 * 2^-53 is the binary64 value
    of the literal 0.7: it lies within half a unit in the last place of
    7/10. *)
Theorem study_plan_fallback
    (chaptersData : list Chapter) (chapterId : jsstring)
    (d : DiagnosticResult) (userProgress : option JSON.value)
    (c : Chapter) (w : world) :
  find (fun c => str_eqb (id c) chapterId) chaptersData = Some c ->
  generation_failed
    (endpoint w (groq_request (studyPlanPrompt c chapterId d))) = true ->
  (exists w',
     generatePersonalizedStudyPlan chaptersData chapterId d userProgress w =
     (Normal
        (JSON.Obj [
           (js "chapter_id", JSON.Str chapterId);
           (js "prerequisites",
            JSON.Arr (map JSON.Str
                        match gaps d with
                        | [] => [js "Basic arithmetic"; js "Number concepts"]
                        | _ :: _ => firstn 3 (gaps d)
                        end));
           (js "recommended_practice",
            JSON.Arr [
              JSON.Str (js "Complete 10 practice problems daily");
              JSON.Str (js "Review concept explanations");
              JSON.Str (js "Take mini-quizzes to test understanding");
              JSON.Str (js "Practice with real-world examples")
            ]);
           (js "estimated_time",
            JSON.Num
              (if SFleb (S754_finite false 6305039478318694 (-53))
                        (SFdiv 53 1024 (score d) (total_questions d))
               then S754_finite false 8444249301319680 (-46)
               else S754_finite false 6333186975989760 (-45)));
           (js "difficulty_level",
            JSON.Str
              (if SFleb (S754_finite false 6305039478318694 (-53))
                        (SFdiv 53 1024 (score d) (total_questions d))
               then js "intermediate" else js "beginner"))
         ]),
      w'))
  /\ ((7 # 10) - (1 # 2 ^ 54) <= 6305039478318694 # 2 ^ 53)%Q
  /\ (6305039478318694 # 2 ^ 53 <= (7 # 10) + (1 # 2 ^ 54))%Q
  /\ (8444249301319680 # 2 ^ 46 == 120)%Q
  /\ (6333186975989760 # 2 ^ 45 == 180)%Q.
Proof.
  intros Hfind Hfail. split.
  - destruct (study_plan_failed chaptersData chapterId d userProgress c w
                Hfind Hfail) as [w' Hrun].
    exists w'. now rewrite Hrun, fallback_plan_value.
  - repeat split; vm_compute; congruence.
Qed.

(** The example of the design: gaps "long division" and "carrying", score
    3 of 10, endpoint unreachable.  The result has the two gaps as its
    prerequisites, 180 minutes and "beginner". *)
Lemma study_plan_fallback_example :
  exists w',
    generatePersonalizedStudyPlan catalog (js "fractions-6") weak_diagnostic
      None (offline zero) =
    (Normal
       (JSON.Obj [
          (js "chapter_id", JSON.Str (js "fractions-6"));
          (js "prerequisites",
           JSON.Arr [JSON.Str (js "long division"); JSON.Str (js "carrying")]);
          (js "recommended_practice",
           JSON.Arr [
             JSON.Str (js "Complete 10 practice problems daily");
             JSON.Str (js "Review concept explanations");
             JSON.Str (js "Take mini-quizzes to test understanding");
             JSON.Str (js "Practice with real-world examples")
           ]);
          (js "estimated_time",
           JSON.Num (S754_finite false 6333186975989760 (-45)));
          (js "difficulty_level", JSON.Str (js "beginner"))
        ]),
     w').
Proof.
  exact (proj1 (study_plan_fallback catalog (js "fractions-6") weak_diagnostic
                  None fractions (offline zero) eq_refl eq_refl)).
Defined.

Lemma unknown_chapter_is_thrown (chaptersData : list Chapter) chapterId d up w :
  find (fun c => str_eqb (id c) chapterId) chaptersData = None ->
  generatePersonalizedStudyPlan chaptersData chapterId d up w =
  (Throw (Error (js "Chapter not found")), w).
Proof.
  intros Hfind. unfold generatePersonalizedStudyPlan.
  now rewrite Hfind.
Qed.

(** C3. For a chapterId that no chapter of the catalog has,
    generatePersonalizedStudyPlan throws the error "Chapter not found" and
    leaves the world as it was: no request was sent, nothing was logged. *)
Theorem unknown_chapter_throws
    (chaptersData : list Chapter) (chapterId : jsstring)
    (d : DiagnosticResult) (userProgress : option JSON.value) (w : world) :
  find (fun c => str_eqb (id c) chapterId) chaptersData = None ->
  generatePersonalizedStudyPlan chaptersData chapterId d userProgress w =
  (Throw (Error (js "Chapter not found")), w).
Proof. apply unknown_chapter_is_thrown. Qed.

Lemma unknown_chapter_example :
  generatePersonalizedStudyPlan catalog (js "algebra-9") weak_diagnostic None
    (answering (JSON.Str out_of_range_plan)) =
  (Throw (Error (js "Chapter not found")),
   answering (JSON.Str out_of_range_plan)).
Proof.
  exact (unknown_chapter_throws catalog (js "algebra-9") weak_diagnostic None
           (answering (JSON.Str out_of_range_plan)) eq_refl).
Defined.

(** The two structured operations on a content that is not JSON. *)
Lemma study_plan_unparsable (chaptersData : list Chapter) chapterId d up c w raw :
  find (fun c => str_eqb (id c) chapterId) chaptersData = Some c ->
  classify (endpoint w (groq_request (studyPlanPrompt c chapterId d))) =
    Content raw ->
  JSON.parse (extract raw) = None ->
  exists w',
    generatePersonalizedStudyPlan chaptersData chapterId d up w =
    (Normal (plan_object (fallbackStudyPlan chapterId d)), w').
Proof.
  intros Hfind Hc Hp.
  rewrite (study_plan_run chaptersData chapterId d up c w Hfind).
  rewrite Hc, Hp. eexists; reflexivity.
Qed.

Lemma study_content_unparsable chapterId chapterName userLevel uw us w raw :
  let weak := match uw with Some l => l | None => [] end in
  let strong := match us with Some l => l | None => [] end in
  classify (endpoint w (groq_request
              (studyContentPrompt chapterName userLevel weak strong))) =
    Content raw ->
  JSON.parse (extract raw) = None ->
  exists w',
    generatePersonalizedStudyContent chapterId chapterName userLevel uw us w =
    (Normal (fallbackStudyContent chapterName weak strong), w').
Proof.
  intros weak strong Hc Hp.
  rewrite study_content_run. fold weak strong.
  rewrite Hc, Hp. eexists; reflexivity.
Qed.

(** What the operations throw. *)
Lemma study_plan_throws (chaptersData : list Chapter) chapterId d up w e w' :
  generatePersonalizedStudyPlan chaptersData chapterId d up w = (Throw e, w') ->
  e = Error (js "Chapter not found") /\
  find (fun c => str_eqb (id c) chapterId) chaptersData = None.
Proof.
  destruct (find (fun c => str_eqb (id c) chapterId) chaptersData) as [c|] eqn:Hfind.
  - rewrite (study_plan_run chaptersData chapterId d up c w Hfind).
    destruct (classify _); try discriminate.
    destruct (JSON.parse _); discriminate.
  - rewrite unknown_chapter_is_thrown by assumption.
    intros H. injection H as <- _. split; reflexivity.
Qed.

Lemma study_content_never_throws chapterId chapterName userLevel uw us w :
  exists v w',
    generatePersonalizedStudyContent chapterId chapterName userLevel uw us w =
    (Normal v, w').
Proof.
  rewrite study_content_run.
  destruct (classify _); try (eexists; eexists; reflexivity).
  destruct (JSON.parse _); eexists; eexists; reflexivity.
Qed.

(** C2. When the endpoint returns a content that is not valid JSON, both
    structured operations return their fallback value; and whatever the
    endpoint does, generatePersonalizedStudyContent, generateChapterExplanation
    and generateSmartNotification never throw, and
    generatePersonalizedStudyPlan throws nothing but "Chapter not found", and
    only for a chapterId that the catalog does not have. *)
Theorem invalid_content_absorbed
    (chaptersData : list Chapter) (chapterId : jsstring)
    (d : DiagnosticResult) (userProgress : option JSON.value)
    (chapterName topic : jsstring) (userLevel : Level)
    (userWeaknesses userStrengths : option (list jsstring))
    (recentActivity : list jsstring) (w : world) :
  let weak := match userWeaknesses with Some l => l | None => [] end in
  let strong := match userStrengths with Some l => l | None => [] end in
  (forall c raw,
     find (fun c => str_eqb (id c) chapterId) chaptersData = Some c ->
     classify (endpoint w (groq_request (studyPlanPrompt c chapterId d))) =
       Content raw ->
     JSON.parse (extract raw) = None ->
     exists w',
       generatePersonalizedStudyPlan chaptersData chapterId d userProgress w =
       (Normal (plan_object (fallbackStudyPlan chapterId d)), w'))
  /\ (forall raw,
       classify (endpoint w (groq_request
                   (studyContentPrompt chapterName userLevel weak strong))) =
         Content raw ->
       JSON.parse (extract raw) = None ->
       exists w',
         generatePersonalizedStudyContent chapterId chapterName userLevel
           userWeaknesses userStrengths w =
         (Normal (fallbackStudyContent chapterName weak strong), w'))
  /\ (forall e w',
       generatePersonalizedStudyPlan chaptersData chapterId d userProgress w =
         (Throw e, w') ->
       e = Error (js "Chapter not found") /\
       find (fun c => str_eqb (id c) chapterId) chaptersData = None)
  /\ (exists v w',
       generatePersonalizedStudyContent chapterId chapterName userLevel
         userWeaknesses userStrengths w = (Normal v, w'))
  /\ (exists text w',
       generateChapterExplanation chapterId topic userLevel w =
       (Normal text, w'))
  /\ (exists text w',
       generateSmartNotification userProgress recentActivity w =
       (Normal text, w')).
Proof.
  intros weak strong. repeat split.
  - intros c raw. apply study_plan_unparsable.
  - intros raw. apply study_content_unparsable.
  - eapply study_plan_throws; eassumption.
  - eapply study_plan_throws; eassumption.
  - apply study_content_never_throws.
  - rewrite explanation_run. eexists; eexists; reflexivity.
  - rewrite notification_run. eexists; eexists; reflexivity.
Qed.

(** Prose in place of the JSON object: both operations fall back. *)
Lemma invalid_content_example :
  (exists w',
     generatePersonalizedStudyPlan catalog (js "fractions-6") weak_diagnostic
       None (answering (JSON.Str prose)) =
     (Normal (plan_object (fallbackStudyPlan (js "fractions-6") weak_diagnostic)),
      w'))
  /\ (exists w',
       generatePersonalizedStudyContent (js "fractions-6") (js "Fractions")
         beginner None None (answering (JSON.Str prose)) =
       (Normal (fallbackStudyContent (js "Fractions") [] []), w')).
Proof.
  pose proof (invalid_content_absorbed catalog (js "fractions-6")
                weak_diagnostic None (js "Fractions") (js "Fractions") beginner
                None None [] (answering (JSON.Str prose))) as H.
  split.
  - exact (proj1 H fractions prose eq_refl eq_refl eq_refl).
  - exact (proj1 (proj2 H) prose eq_refl eq_refl).
Defined.

(** C4, the claim as stated fails: a response whose content is a study plan
    with a negative time and an unknown level is returned as it is. *)
Lemma study_plan_out_of_range :
  exists v,
    fst (generatePersonalizedStudyPlan catalog (js "fractions-6")
           weak_diagnostic None (answering (JSON.Str out_of_range_plan))) =
    Normal v
    /\ JSON.get v (js "estimated_time") = Some (JSON.Num (Number.of_Z (-30)))
    /\ JSON.get v (js "difficulty_level") = Some (JSON.Str (js "expert"))
    /\ plan_in_range v = false.
Proof. eexists. repeat split. Qed.

(** C4, amended. For a chapterId of the catalog, generatePersonalizedStudyPlan
    returns either the fallback plan, which has a positive estimated_time
    (120 or 180) and the difficulty_level "beginner" or "intermediate", or
    the value that JSON.parse gives for the extracted content of the
    response, unchanged and unchecked. *)
Theorem study_plan_range
    (chaptersData : list Chapter) (chapterId : jsstring)
    (d : DiagnosticResult) (userProgress : option JSON.value)
    (c : Chapter) (w : world) :
  find (fun c => str_eqb (id c) chapterId) chaptersData = Some c ->
  exists v w',
    generatePersonalizedStudyPlan chaptersData chapterId d userProgress w =
    (Normal v, w')
    /\ ((v = plan_object (fallbackStudyPlan chapterId d)
         /\ plan_in_range v = true
         /\ (estimated_time (fallbackStudyPlan chapterId d) = Number.of_Z 120
             \/ estimated_time (fallbackStudyPlan chapterId d) = Number.of_Z 180)
         /\ (difficulty_level (fallbackStudyPlan chapterId d) = beginner
             \/ difficulty_level (fallbackStudyPlan chapterId d) = intermediate))
        \/ (exists raw,
              classify (endpoint w
                          (groq_request (studyPlanPrompt c chapterId d))) =
                Content raw
              /\ JSON.parse (extract raw) = Some v)).
Proof.
  intros Hfind.
  rewrite (study_plan_run chaptersData chapterId d userProgress c w Hfind).
  assert (Hfallback :
    plan_in_range (plan_object (fallbackStudyPlan chapterId d)) = true
    /\ (estimated_time (fallbackStudyPlan chapterId d) = Number.of_Z 120
        \/ estimated_time (fallbackStudyPlan chapterId d) = Number.of_Z 180)
    /\ (difficulty_level (fallbackStudyPlan chapterId d) = beginner
        \/ difficulty_level (fallbackStudyPlan chapterId d) = intermediate)).
  { split; [apply fallback_plan_in_range|].
    rewrite fallback_plan_fields. cbn [estimated_time difficulty_level].
    destruct (Number.geb _ _); split; auto. }
  destruct (classify _) as [| | | | |raw] eqn:Hc;
    try (eexists; eexists; split; [reflexivity | left; split; [reflexivity | exact Hfallback]]).
  destruct (JSON.parse (extract raw)) as [v|] eqn:Hp.
  - exists v. eexists. split; [reflexivity|]. right. now exists raw.
  - eexists; eexists; split; [reflexivity | left; split; [reflexivity | exact Hfallback]].
Qed.

Lemma study_plan_range_example :
  exists v w',
    generatePersonalizedStudyPlan catalog (js "fractions-6") weak_diagnostic
      None (offline zero) = (Normal v, w')
    /\ plan_in_range v = true.
Proof.
  destruct (study_plan_range catalog (js "fractions-6") weak_diagnostic None
              fractions (offline zero) eq_refl) as (v & w' & Hrun & Hv).
  exists v, w'. split; [exact Hrun|].
  destruct Hv as [(_ & Hr & _) | (raw & Hc & _)]; [exact Hr | discriminate Hc].
Defined.

(** ** Fence stripping *)

(** C5, the claim as stated fails.  Extraction is not idempotent: of an
    object fenced twice it removes the outer fences only, and a second
    extraction removes the inner ones.  And it is not lossless on every
    payload: under a [json] fence a payload that is itself fenced loses its
    opening backquotes, and no longer parses as it does without the outer
    fence. *)
Lemma fence_stripping_not_idempotent :
  extract twice_fenced_object = fenced_object
  /\ extract (extract twice_fenced_object) = js "{}"
  /\ extract (extract twice_fenced_object) <> extract twice_fenced_object
  /\ extract (fenced (js "json") [LF] fenced_object [LF])
     <> trim fenced_object
  /\ JSON.parse (extract (fenced (js "json") [LF] fenced_object [LF])) = None
  /\ JSON.parse (extract fenced_object) = Some (JSON.Obj []).
Proof. repeat split; try reflexivity; discriminate. Qed.

(** C5, amended. For a payload whose trimmed text neither starts nor ends
    with three backquotes: extraction of the payload between fence markers
    (three backquotes, then the tag "json" in any letter case or no tag but
    white space, then white space; after the payload white space and three
    backquotes) gives the trimmed payload; so does extraction of the
    payload alone, hence both parse to the same result; and a second
    extraction changes nothing. *)
Theorem fenced_payload_round_trip (tag before payload after : jsstring) :
  opening tag before = true ->
  blank before = true -> blank after = true ->
  startsWith fence (trim payload) = false ->
  endsWith fence (trim payload) = false ->
  extract (fenced tag before payload after) = trim payload
  /\ extract payload = trim payload
  /\ JSON.parse (extract (fenced tag before payload after)) =
     JSON.parse (extract payload)
  /\ extract (extract (fenced tag before payload after)) =
     extract (fenced tag before payload after).
Proof.
  intros Hopen Hb Ha Hstart Hend.
  assert (Hf : extract (fenced tag before payload after) = trim payload)
    by now apply extract_fenced.
  assert (Ht : extract (trim payload) = trim payload)
    by (apply extract_unfenced; [apply trim_is_trimmed | assumption..]).
  assert (Hp : extract payload = trim payload).
  { unfold extract in *. now rewrite trim_idempotent in Ht. }
  rewrite Hf, Hp. repeat split. exact Ht.
Qed.

(** An object under an upper-case tag, with blanks around it. *)
Lemma fenced_payload_example :
  extract (fenced (js "JSON") [LF] (js " {} ") [LF; LF]) = js "{}"
  /\ JSON.parse (extract (fenced (js "JSON") [LF] (js " {} ") [LF; LF])) =
     Some (JSON.Obj []).
Proof.
  destruct (fenced_payload_round_trip (js "JSON") [LF] (js " {} ") [LF; LF]
              eq_refl eq_refl eq_refl eq_refl eq_refl) as (H1 & _ & H3 & _).
  split; [exact H1 | rewrite H3; reflexivity].
Defined.

(** ** The guard of the division *)





(** ** The prompts *)

(** C7, at the failing input: for a student without strengths, weaknesses
    and gaps the prompt of generatePersonalizedStudyPlan has the three
    labels with nothing after them, where the prompt of
    generatePersonalizedStudyContent has its placeholders; the prompt of
    generateSmartNotification has a bare label as well. *)
Theorem study_plan_prompt_bare_labels :
  prompt_line 4 (studyPlanPrompt fractions (js "fractions-6") empty_diagnostic)
  = js "Student's Strengths: "
  /\ prompt_line 5
       (studyPlanPrompt fractions (js "fractions-6") empty_diagnostic)
     = js "Student's Weaknesses: "
  /\ prompt_line 6
       (studyPlanPrompt fractions (js "fractions-6") empty_diagnostic)
     = js "Student's Gaps: "
  /\ prompt_line 2 (notificationPrompt []) = js "Recent Activity: "
  /\ prompt_line 4 (studyContentPrompt (js "Fractions") beginner [] [])
     = js "Student's Strengths: Building foundation"
  /\ prompt_line 5 (studyContentPrompt (js "Fractions") beginner [] [])
     = js "Student's Weaknesses: None identified".
Proof. repeat split. Qed.

(** ** The free-text operations *)

(** C8, the claim as stated fails: generateChapterExplanation and
    generateSmartNotification return a fenced content with its fences,
    where extraction would remove them. *)
Lemma free_text_keeps_fences :
  fst (generateChapterExplanation (js "fractions-6") (js "Fractions") beginner
         (answering (JSON.Str fenced_prose))) = Normal fenced_prose
  /\ fst (generateSmartNotification None []
            (answering (JSON.Str fenced_prose))) = Normal (Some fenced_prose)
  /\ extract fenced_prose = js "Fractions are parts of a whole."
  /\ fenced_prose <> extract fenced_prose.
Proof. repeat split; try reflexivity; discriminate. Qed.

(** C8, amended. On a successful response, generateChapterExplanation and
    generateSmartNotification return the content of the response with the
    white space at its ends removed and nothing else: no fence is
    stripped, nothing is parsed. *)
Theorem free_text_is_trimmed_content
    (chapterId topic : jsstring) (studentLevel : Level)
    (userProgress : option JSON.value) (recentActivity : list jsstring)
    (w : world) (explanation notification : jsstring) :
  classify (endpoint w (groq_request (explanationPrompt topic studentLevel))) =
    Content explanation ->
  classify (endpoint w (groq_request (notificationPrompt recentActivity))) =
    Content notification ->
  (exists w',
     generateChapterExplanation chapterId topic studentLevel w =
     (Normal (trim explanation), w'))
  /\ (exists w',
       generateSmartNotification userProgress recentActivity w =
       (Normal (Some (trim notification)), w')).
Proof.
  intros He Hn. split.
  - rewrite explanation_run, He. eexists; reflexivity.
  - rewrite notification_run, Hn. eexists; reflexivity.
Qed.

Lemma free_text_example :
  (exists w',
     generateChapterExplanation (js "fractions-6") (js "Fractions") beginner
       (answering (JSON.Str spaced_prose)) =
     (Normal (trim spaced_prose), w'))
  /\ (exists w',
       generateSmartNotification None [] (answering (JSON.Str spaced_prose)) =
       (Normal (Some (trim spaced_prose)), w'))
  /\ trim spaced_prose = js "Fractions are parts of a whole.".
Proof.
  split; [|split].
  - exact (proj1 (free_text_is_trimmed_content (js "fractions-6")
                    (js "Fractions") beginner None []
                    (answering (JSON.Str spaced_prose))
                    spaced_prose spaced_prose eq_refl eq_refl)).
  - exact (proj2 (free_text_is_trimmed_content (js "fractions-6")
                    (js "Fractions") beginner None []
                    (answering (JSON.Str spaced_prose))
                    spaced_prose spaced_prose eq_refl eq_refl)).
  - vm_compute. reflexivity.
Defined.

(** ** The fallback notification *)

(** The fallback path of generateSmartNotification on a random number of
    the unit interval. *)
Lemma notification_fallback_index userProgress recentActivity w :
  generation_failed
    (endpoint w (groq_request (notificationPrompt recentActivity))) = true ->
  Number.valid (random w) = true ->
  Number.leb zero (random w) = true -> Number.ltb (random w) one = true ->
  exists (i : nat) (text : jsstring) (w' : world),
    (i < 4)%nat
    /\ nth_error fallbackNotifications i = Some text
    /\ generateSmartNotification userProgress recentActivity w =
       (Normal (Some text), w')
    /\ (Z.of_nat i # 4 <= exact (random w))%Q
    /\ (exact (random w) < Z.of_nat i + 1 # 4)%Q.
Proof.
  intros Hfail Hv H0 H1.
  destruct (quarter_index (random w) Hv H0 H1) as (i & Hi & Hidx & Hlo & Hhi).
  assert (Htext : exists text, nth_error fallbackNotifications i = Some text).
  { destruct (nth_error fallbackNotifications i) as [text|] eqn:E.
    - now exists text.
    - apply nth_error_None in E. simpl in E. lia. }
  destruct Htext as [text Htext].
  exists i, text. eexists. split; [exact Hi|]. split; [exact Htext|].
  split; [|split; assumption].
  rewrite notification_run. unfold generation_failed in Hfail.
  unfold element. rewrite Hidx, Htext.
  destruct (classify _); try discriminate; reflexivity.
Qed.

(** C9. When the call of the endpoint fails, generateSmartNotification
    returns a member of the pool of four fallback strings: for a random
    number r with 0 <= r < 1 it is the string of index i where
    i/4 <= r < (i+1)/4, so each string is chosen on a quarter of the unit
    interval, and a uniform r gives a uniform choice. *)
Theorem notification_fallback_uniform
    (userProgress : option JSON.value) (recentActivity : list jsstring)
    (w : world) :
  generation_failed
    (endpoint w (groq_request (notificationPrompt recentActivity))) = true ->
  Number.valid (random w) = true ->
  Number.leb zero (random w) = true -> Number.ltb (random w) one = true ->
  length fallbackNotifications = 4%nat
  /\ exists (i : nat) (text : jsstring) (w' : world),
       generateSmartNotification userProgress recentActivity w =
       (Normal (Some text), w')
       /\ In text fallbackNotifications
       /\ nth_error fallbackNotifications i = Some text
       /\ (Z.of_nat i # 4 <= exact (random w))%Q
       /\ (exact (random w) < Z.of_nat i + 1 # 4)%Q.
Proof.
  intros Hfail Hv H0 H1. split; [reflexivity|].
  destruct (notification_fallback_index userProgress recentActivity w
              Hfail Hv H0 H1) as (i & text & w' & _ & Ht & Hrun & Hlo & Hhi).
  exists i, text, w'. repeat split; try assumption.
  eapply nth_error_In; eassumption.
Qed.

(** The random number 0.6 picks the third string. *)
Lemma notification_fallback_example :
  exists (i : nat) (text : jsstring) (w' : world),
    generateSmartNotification None [] (offline six_tenths) =
    (Normal (Some text), w')
    /\ In text fallbackNotifications
    /\ nth_error fallbackNotifications i = Some text
    /\ (Z.of_nat i # 4 <= exact six_tenths)%Q
    /\ (exact six_tenths < Z.of_nat i + 1 # 4)%Q.
Proof.
  exact (proj2 (notification_fallback_uniform None [] (offline six_tenths)
                  eq_refl eq_refl eq_refl eq_refl)).
Defined.

Lemma fallback_notifications_lengths :
  Forall (fun text => (length text < 100)%nat) fallbackNotifications.
Proof. repeat constructor. Qed.

(** C10. Every string of the fallback pool has fewer than 100 characters
    (UTF-16 code units, as [length] counts them), so on the fallback path
    generateSmartNotification returns a text of fewer than 100 characters. *)
Theorem fallback_notification_short
    (userProgress : option JSON.value) (recentActivity : list jsstring)
    (w : world) :
  Forall (fun text => (length text < 100)%nat) fallbackNotifications
  /\ (generation_failed
        (endpoint w (groq_request (notificationPrompt recentActivity))) = true ->
      Number.valid (random w) = true ->
      Number.leb zero (random w) = true -> Number.ltb (random w) one = true ->
      exists (text : jsstring) (w' : world),
        generateSmartNotification userProgress recentActivity w =
        (Normal (Some text), w')
        /\ (length text < 100)%nat).
Proof.
  split; [apply fallback_notifications_lengths|].
  intros Hfail Hv H0 H1.
  destruct (notification_fallback_index userProgress recentActivity w
              Hfail Hv H0 H1) as (i & text & w' & _ & Ht & Hrun & _).
  exists text, w'. split; [exact Hrun|].
  pose proof fallback_notifications_lengths as Hall.
  rewrite Forall_forall in Hall. apply Hall.
  eapply nth_error_In; eassumption.
Qed.

Lemma fallback_notification_short_example :
  exists (text : jsstring) (w' : world),
    generateSmartNotification None [] (offline six_tenths) =
    (Normal (Some text), w')
    /\ (length text < 100)%nat.
Proof.
  exact (proj2 (fallback_notification_short None [] (offline six_tenths))
           eq_refl eq_refl eq_refl eq_refl).
Defined.

(** ** The text of a JSON value *)

Ltac reassoc :=
  repeat (rewrite <- app_assoc || rewrite <- app_comm_cons); reflexivity.

Lemma skip_ws_split (s : jsstring) :
  exists l, json_blank l = true /\ s = l ++ JSON.skip_ws s.
Proof.
  induction s as [|c s [l [Hl Hs]]].
  - exists []. split; reflexivity.
  - simpl. destruct (JSON.is_ws c) eqn:Hc.
    + exists (c :: l). simpl. rewrite Hc, Hl. split; [reflexivity|].
      now rewrite Hs at 1.
    + exists []. split; reflexivity.
Qed.

Lemma strip_prefix_app (p s rest : jsstring) :
  JSON.strip_prefix p s = Some rest -> s = p ++ rest.
Proof.
  revert s. induction p as [|a p IH]; intros s H.
  - simpl in H. now injection H as ->.
  - destruct s as [|b s]; [discriminate|]. simpl in H.
    destruct (N.eqb_spec a b) as [->|]; [|discriminate].
    simpl. f_equal. auto.
Qed.

(** A string literal ends with its closing quote. *)
Lemma string_chars_closed (n : nat) :
  forall s acc str rest,
    (length s <= n)%nat ->
    JSON.string_chars s acc = Some (str, rest) ->
    exists pre, s = pre ++ 34 :: rest.
Proof.
  induction n as [|n IH]; intros s acc str rest Hn H.
  - destruct s; [discriminate | simpl in Hn; lia].
  - destruct s as [|c r]; [discriminate|].
    simpl in Hn. cbn [JSON.string_chars] in H.
    destruct (N.eqb_spec c 34) as [->|_].
    + injection H as _ <-. now exists [].
    + destruct (c =? 92).
      * destruct r as [|e r1]; [discriminate|].
        destruct (e =? 117).
        -- destruct r1 as [|h1 [|h2 [|h3 [|h4 r2]]]]; try discriminate.
           destruct (JSON.hex4 h1 h2 h3 h4); [|discriminate].
           apply IH in H; [|simpl in Hn; lia].
           destruct H as [pre ->]. now exists (c :: e :: h1 :: h2 :: h3 :: h4 :: pre).
        -- destruct (JSON.escape e); [|discriminate].
           apply IH in H; [|simpl in Hn; lia].
           destruct H as [pre ->]. now exists (c :: e :: pre).
      * destruct (c <? 32); [discriminate|].
        apply IH in H; [|lia].
        destruct H as [pre ->]. now exists (c :: pre).
Qed.

(** A run of digits: nothing is read, or the last character read is a
    digit. *)
Lemma digits_split (s : jsstring) :
  forall ds rest, JSON.digits s = (ds, rest) ->
    (ds = [] /\ rest = s) \/
    (exists pre c, s = pre ++ c :: rest /\ JSON.is_digit c = true /\ ds <> []).
Proof.
  induction s as [|c s IH]; intros ds rest H.
  - simpl in H. injection H as <- <-. now left.
  - simpl in H. destruct (JSON.is_digit c) eqn:Hc.
    + destruct (JSON.digits s) as [ds' rest'] eqn:E.
      injection H as <- <-. right.
      destruct (IH ds' rest' eq_refl) as [[-> ->] | (pre & d & -> & Hd & _)].
      * exists [], c. repeat split; [assumption | discriminate].
      * exists (c :: pre), d. repeat split; [assumption | discriminate].
    + injection H as <- <-. now left.
Qed.

Lemma number_literal_split (s : jsstring) x rest :
  JSON.number_literal s = Some (x, rest) ->
  exists pre c, s = pre ++ c :: rest /\ JSON.is_digit c = true.
Proof.
  unfold JSON.number_literal.
  set (sign := match s with
               | [] => (false, s)
               | c :: r => if c =? 45 then (true, r) else (false, s)
               end).
  assert (Hsign : exists p, s = p ++ snd sign).
  { subst sign. destruct s as [|c r]; [now exists []|].
    destruct (c =? 45); [now exists [c] | now exists []]. }
  destruct sign as [neg s1]. cbn [snd] in Hsign. destruct Hsign as [p0 ->].
  destruct (JSON.digits s1) as [int s2] eqn:Eint.
  destruct int as [|d more]; [discriminate|].
  destruct ((d =? 0) && negb match more with [] => true | _ :: _ => false end);
    [discriminate|].
  apply digits_split in Eint.
  destruct Eint as [[Hnil _] | (pre1 & c1 & -> & Hc1 & _)]; [discriminate|].
  match goal with
  | |- match ?X with Some _ => _ | None => _ end = _ -> _ =>
    destruct X as [[frac s3]|] eqn:Efrac; [|discriminate]
  end.
  assert (Hfrac : s3 = s2 \/
                  exists pre c, s2 = pre ++ c :: s3 /\ JSON.is_digit c = true).
  { destruct s2 as [|c r]; [injection Efrac as _ <-; now left|].
    destruct (c =? 46).
    - destruct (JSON.digits r) as [fs s3'] eqn:Ed.
      destruct fs as [|f fs]; [discriminate|]. injection Efrac as _ <-.
      apply digits_split in Ed.
      destruct Ed as [[Hnil _] | (pre & c' & -> & Hc' & _)]; [discriminate|].
      right. now exists (c :: pre), c'.
    - injection Efrac as _ <-. now left. }
  clear Efrac.
  match goal with
  | |- match ?X with Some _ => _ | None => _ end = _ -> _ =>
    destruct X as [[e s4]|] eqn:Eexp; [|discriminate]
  end.
  assert (Hexp : s4 = s3 \/
                 exists pre c, s3 = pre ++ c :: s4 /\ JSON.is_digit c = true).
  { destruct s3 as [|c r]; [injection Eexp as _ <-; now left|].
    destruct ((c =? 101) || (c =? 69)).
    - set (sg := match r with
                 | [] => (false, r)
                 | g :: r' =>
                   if g =? 45 then (true, r')
                   else if g =? 43 then (false, r') else (false, r)
                 end) in Eexp.
      assert (Hsg : exists p, r = p ++ snd sg).
      { subst sg. destruct r as [|g r']; [now exists []|].
        destruct (g =? 45); [now exists [g]|].
        destruct (g =? 43); [now exists [g] | now exists []]. }
      destruct sg as [eneg r1]. cbn [snd] in Hsg. destruct Hsg as [p ->].
      destruct (JSON.digits r1) as [es s4'] eqn:Ed.
      destruct es as [|e0 es]; [discriminate|]. injection Eexp as _ <-.
      apply digits_split in Ed.
      destruct Ed as [[Hnil _] | (pre & c' & -> & Hc' & _)]; [discriminate|].
      right. exists (c :: p ++ pre), c'. split; [reassoc | assumption].
    - injection Eexp as _ <-. now left. }
  clear Eexp.
  intros H.
  assert (Hrest : rest = s4).
  { destruct (JSON.decimal ((d :: more) ++ frac)); now injection H as _ <-. }
  subst rest. clear H.
  destruct Hexp as [E1 | (pre3 & c3 & E1 & Hc3)];
    destruct Hfrac as [E2 | (pre2 & c2 & E2 & Hc2)]; subst.
  - exists (p0 ++ pre1), c1. split; [reassoc | assumption].
  - exists (p0 ++ pre1 ++ c1 :: pre2), c2. split; [reassoc | assumption].
  - exists (p0 ++ pre1 ++ c1 :: pre3), c3. split; [reassoc | assumption].
  - exists (p0 ++ pre1 ++ c1 :: pre2 ++ c2 :: pre3), c3.
    split; [reassoc | assumption].
Qed.

Lemma value_text_ends (a b : code_unit) (mid : jsstring) :
  starts_value a = true -> ends_value b = true ->
  value_text (a :: mid ++ [b]) = true.
Proof.
  intros Ha Hb. unfold value_text.
  change (last (a :: mid ++ [b]) a) with (last ((a :: mid) ++ [b]) a).
  now rewrite last_last, Ha, Hb.
Qed.

Lemma digit_starts (c : code_unit) :
  JSON.is_digit c = true -> starts_value c = true.
Proof. intros H. unfold starts_value. rewrite H. now rewrite !orb_true_r. Qed.

Lemma digit_ends (c : code_unit) :
  JSON.is_digit c = true -> ends_value c = true.
Proof. intros H. unfold ends_value. rewrite H. now rewrite !orb_true_r. Qed.

(** The text of a value that the parser accepts: after the white space
    that it skips, from a character that can start a value to one that
    can end it; an array read by [parse_elements] ends with its bracket and
    an object read by [parse_members] with its brace. *)
Lemma parse_shape (fuel : nat) :
  (forall s v rest,
     JSON.parse_value fuel s = Some (v, rest) ->
     exists body, JSON.skip_ws s = body ++ rest /\ value_text body = true)
  /\ (forall s acc v rest,
        JSON.parse_elements fuel s acc = Some (v, rest) ->
        exists pre, s = pre ++ 93 :: rest)
  /\ (forall s acc v rest,
        JSON.parse_members fuel s acc = Some (v, rest) ->
        exists pre, s = pre ++ 125 :: rest).
Proof.
  induction fuel as [|f (IHv & IHe & IHm)];
    [repeat split; intros; discriminate|].
  repeat split.
  - intros s v rest H. cbn [JSON.parse_value] in H.
    destruct (JSON.skip_ws s) as [|c r]; [discriminate|].
    destruct (N.eqb_spec c 34) as [->|_].
    { destruct (JSON.string_chars r []) as [[str rest']|] eqn:E; [|discriminate].
      injection H as _ <-.
      apply (string_chars_closed (length r)) in E; [|lia].
      destruct E as [pre ->].
      exists (34 :: pre ++ [34]). split; [reassoc|].
      now apply value_text_ends. }
    destruct (N.eqb_spec c 91) as [->|_].
    { destruct (skip_ws_split r) as (l & _ & Hr).
      destruct (JSON.skip_ws r) as [|d r'] eqn:E; [discriminate|].
      destruct (N.eqb_spec d 93) as [->|_].
      - injection H as _ <-. exists (91 :: l ++ [93]).
        split; [rewrite Hr; reassoc | now apply value_text_ends].
      - apply IHe in H. destruct H as [pre ->].
        exists (91 :: pre ++ [93]).
        split; [reassoc | now apply value_text_ends]. }
    destruct (N.eqb_spec c 123) as [->|_].
    { destruct (skip_ws_split r) as (l & _ & Hr).
      destruct (JSON.skip_ws r) as [|d r'] eqn:E; [discriminate|].
      destruct (N.eqb_spec d 125) as [->|_].
      - injection H as _ <-. exists (123 :: l ++ [125]).
        split; [rewrite Hr; reassoc | now apply value_text_ends].
      - apply IHm in H. destruct H as [pre ->].
        exists (123 :: pre ++ [125]).
        split; [reassoc | now apply value_text_ends]. }
    destruct ((c =? 45) || JSON.is_digit c) eqn:Hnum.
    { destruct (JSON.number_literal (c :: r)) as [[x rest']|] eqn:E;
        [|discriminate].
      injection H as _ <-.
      apply number_literal_split in E. destruct E as (pre & d & E & Hd).
      exists (pre ++ [d]). split; [rewrite E; reassoc|].
      destruct pre as [|a pre].
      - injection E as -> _. unfold value_text. cbn [app last].
        now rewrite digit_starts, digit_ends.
      - injection E as <- _. cbn [app]. apply value_text_ends.
        + unfold starts_value.
          apply orb_prop in Hnum. destruct Hnum as [-> | ->];
            now rewrite ?orb_true_r.
        + now apply digit_ends. }
    destruct (JSON.strip_prefix (js "null") (c :: r)) as [rest'|] eqn:E1.
    { injection H as _ <-. apply strip_prefix_app in E1.
      exists (js "null"). split; [exact E1 | reflexivity]. }
    destruct (JSON.strip_prefix (js "true") (c :: r)) as [rest'|] eqn:E2.
    { injection H as _ <-. apply strip_prefix_app in E2.
      exists (js "true"). split; [exact E2 | reflexivity]. }
    destruct (JSON.strip_prefix (js "false") (c :: r)) as [rest'|] eqn:E3;
      [|discriminate].
    injection H as _ <-. apply strip_prefix_app in E3.
    exists (js "false"). split; [exact E3 | reflexivity].
  - intros s acc v rest H. cbn [JSON.parse_elements] in H.
    destruct (JSON.parse_value f s) as [[v1 rest1]|] eqn:E; [|discriminate].
    apply IHv in E. destruct E as (body & Hs & _).
    destruct (skip_ws_split s) as (l & _ & Hl). rewrite Hs in Hl.
    destruct (skip_ws_split rest1) as (l1 & _ & Hl1).
    destruct (JSON.skip_ws rest1) as [|c r]; [discriminate|].
    destruct (N.eqb_spec c 44) as [->|_].
    + apply IHe in H. destruct H as [pre ->].
      exists (l ++ body ++ l1 ++ 44 :: pre).
      rewrite Hl, Hl1. reassoc.
    + destruct (N.eqb_spec c 93) as [->|_]; [|discriminate].
      injection H as _ <-. exists (l ++ body ++ l1).
      rewrite Hl, Hl1. reassoc.
  - intros s acc v rest H. cbn [JSON.parse_members] in H.
    destruct (skip_ws_split s) as (l & _ & Hl).
    destruct (JSON.skip_ws s) as [|q s1]; [discriminate|].
    destruct (N.eqb_spec q 34) as [->|_]; [|discriminate].
    destruct (JSON.string_chars s1 []) as [[k s2]|] eqn:Ek; [|discriminate].
    apply (string_chars_closed (length s1)) in Ek; [|lia].
    destruct Ek as [pk ->].
    destruct (skip_ws_split s2) as (l2 & _ & Hl2).
    destruct (JSON.skip_ws s2) as [|colon s3]; [discriminate|].
    destruct (N.eqb_spec colon 58) as [->|_]; [|discriminate].
    destruct (JSON.parse_value f s3) as [[v1 rest1]|] eqn:E; [|discriminate].
    apply IHv in E. destruct E as (body & Hs3 & _).
    destruct (skip_ws_split s3) as (l3 & _ & Hl3). rewrite Hs3 in Hl3.
    destruct (skip_ws_split rest1) as (l4 & _ & Hl4).
    destruct (JSON.skip_ws rest1) as [|c r]; [discriminate|].
    destruct (N.eqb_spec c 44) as [->|_].
    + apply IHm in H. destruct H as [pre ->].
      exists (l ++ 34 :: pk ++ 34 :: l2 ++ 58 :: l3 ++ body ++ l4 ++ 44 :: pre).
      rewrite Hl, Hl2, Hl3, Hl4. reassoc.
    + destruct (N.eqb_spec c 125) as [->|_]; [|discriminate].
      injection H as _ <-.
      exists (l ++ 34 :: pk ++ 34 :: l2 ++ 58 :: l3 ++ body ++ l4).
      rewrite Hl, Hl2, Hl3, Hl4. reassoc.
Qed.

Lemma skip_ws_nil (s : jsstring) : JSON.skip_ws s = [] -> json_blank s = true.
Proof.
  induction s as [|c s IH]; [reflexivity|].
  simpl. destruct (JSON.is_ws c); [auto | discriminate].
Qed.

(** A text that [JSON.parse] accepts is the text of one value between
    JSON white space. *)
Lemma parse_text (t : jsstring) (v : JSON.value) :
  JSON.parse t = Some v ->
  exists l body r,
    t = l ++ body ++ r /\ json_blank l = true /\ json_blank r = true
    /\ value_text body = true.
Proof.
  unfold JSON.parse. intros H.
  destruct (JSON.parse_value (2 * length t + 2) t) as [[v' rest]|] eqn:E;
    [|discriminate].
  destruct (JSON.skip_ws rest) eqn:Er; [|discriminate].
  apply (proj1 (parse_shape _)) in E. destruct E as (body & Hs & Hb).
  destruct (skip_ws_split t) as (l & Hl & Ht). rewrite Hs in Ht.
  exists l, body, rest. repeat split; try assumption.
  now apply skip_ws_nil.
Qed.

Lemma json_blank_blank (s : jsstring) : json_blank s = true -> blank s = true.
Proof.
  induction s as [|c s IH]; [reflexivity|].
  simpl. intros H. apply andb_prop in H. destruct H as [Hc Hs].
  rewrite (IH Hs), andb_true_r.
  unfold JSON.is_ws in Hc.
  repeat (apply orb_prop in Hc; destruct Hc as [Hc | Hc]);
    apply N.eqb_eq in Hc; subst; reflexivity.
Qed.

Lemma starts_value_plain (c : code_unit) :
  starts_value c = true -> is_white_space c = false /\ (96 =? c) = false.
Proof.
  unfold starts_value, JSON.is_digit. intros H.
  destruct (is_white_space c) eqn:Hw; destruct (N.eqb_spec 96 c) as [E|E];
    try (split; reflexivity); exfalso.
  all: try (subst c; discriminate).
  all: unfold is_white_space in Hw;
    repeat match goal with
           | H : _ || _ = true |- _ => apply orb_prop in H; destruct H as [H | H]
           | H : _ && _ = true |- _ => apply andb_prop in H; destruct H as [? ?]
           | H : (_ =? _) = true |- _ => apply N.eqb_eq in H
           | H : (_ <=? _) = true |- _ => apply N.leb_le in H
           end; lia.
Qed.

Lemma ends_value_plain (c : code_unit) :
  ends_value c = true -> is_white_space c = false /\ (96 =? c) = false.
Proof.
  unfold ends_value, JSON.is_digit. intros H.
  destruct (is_white_space c) eqn:Hw; destruct (N.eqb_spec 96 c) as [E|E];
    try (split; reflexivity); exfalso.
  all: try (subst c; discriminate).
  all: unfold is_white_space in Hw;
    repeat match goal with
           | H : _ || _ = true |- _ => apply orb_prop in H; destruct H as [H | H]
           | H : _ && _ = true |- _ => apply andb_prop in H; destruct H as [? ?]
           | H : (_ =? _) = true |- _ => apply N.eqb_eq in H
           | H : (_ <=? _) = true |- _ => apply N.leb_le in H
           end; lia.
Qed.

(** The text of a value has no white space and no backquote at its ends. *)
Lemma value_text_unfenced (body : jsstring) :
  value_text body = true ->
  is_trimmed body = true /\ startsWith fence body = false
  /\ endsWith fence body = false.
Proof.
  destruct body as [|c body]; [discriminate|].
  unfold value_text. intros H. apply andb_prop in H. destruct H as [Hs He].
  apply starts_value_plain in Hs. destruct Hs as [Hs1 Hs2].
  apply ends_value_plain in He. destruct He as [He1 He2].
  split; [|split].
  - unfold is_trimmed. now rewrite Hs1, He1.
  - change fence with [96; 96; 96]. cbn [startsWith]. now rewrite Hs2.
  - unfold endsWith. change (rev fence) with [96; 96; 96].
    destruct (rev (c :: body)) as [|y u] eqn:E.
    + apply (f_equal (@length _)) in E. rewrite length_rev in E. discriminate.
    + assert (Hy : last (c :: body) c = y).
      { rewrite <- (rev_involutive (c :: body)), E. simpl. apply last_last. }
      rewrite Hy in He2. cbn [startsWith]. now rewrite He2.
Qed.

(** Valid JSON has no fence at its ends, whatever white space is around. *)
Lemma valid_json_unfenced (t : jsstring) (v : JSON.value) :
  JSON.parse t = Some v ->
  startsWith fence (trim t) = false /\ endsWith fence (trim t) = false.
Proof.
  intros H. apply parse_text in H.
  destruct H as (l & body & r & -> & Hl & Hr & Hb).
  apply value_text_unfenced in Hb. destruct Hb as (Ht & Hs & He).
  rewrite (trim_around l body r); auto using json_blank_blank.
Qed.

(** ** What extraction keeps *)

Lemma drop_literal_suffix (lit s r : jsstring) :
  drop_literal lit s = Some r ->
  exists a, s = a ++ r /\ length a = length lit.
Proof.
  revert s. induction lit as [|c lit IH]; intros s H.
  - simpl in H. injection H as ->. now exists [].
  - destruct s as [|x s]; [discriminate|]. simpl in H.
    destruct (RegExp.canonicalize true x =? RegExp.canonicalize true c);
      [|discriminate].
    apply IH in H. destruct H as (a & -> & Ha).
    exists (x :: a). split; [reflexivity | simpl; now rewrite Ha].
Qed.

Lemma drop_opening_suffix (lit s : jsstring) :
  exists a, s = a ++ drop_opening lit s
            /\ (drop_literal lit s <> None -> (length lit <= length a)%nat).
Proof.
  unfold drop_opening.
  destruct (drop_literal lit s) as [r|] eqn:E.
  - apply drop_literal_suffix in E. destruct E as (a & -> & Ha).
    destruct (trimStart_split r) as (l & _ & Hr).
    exists (a ++ l). split.
    + rewrite <- app_assoc. now rewrite <- Hr.
    + intros _. rewrite length_app. lia.
  - exists []. split; [reflexivity | intros H; now elim H].
Qed.

Lemma drop_closing_prefix (s : jsstring) :
  exists b, s = drop_closing s ++ b
            /\ (endsWith fence s = true -> length b = 3%nat).
Proof.
  unfold drop_closing. destruct (endsWith fence s) eqn:E.
  - apply endsWith_inv in E. destruct E as [t ->].
    exists fence. split; [|reflexivity].
    rewrite length_app, Nat.add_sub.
    now rewrite firstn_app, Nat.sub_diag, firstn_all, app_nil_r.
  - exists []. split; [now rewrite app_nil_r | discriminate].
Qed.

(** The steps of an extraction: what each of them removes. *)
Lemma extract_steps (s : jsstring) :
  exists l a1 a2 b l' r' r,
    s = l ++ a1 ++ a2 ++ l' ++ extract s ++ r' ++ b ++ r
    /\ trim s = a1 ++ a2 ++ l' ++ extract s ++ r' ++ b
    /\ (startsWith fence (trim s) = true -> (3 <= length (a1 ++ a2))%nat)
    /\ (startsWith fence (trim s) = false -> endsWith fence (trim s) = true ->
        length b = 3%nat).
Proof.
  unfold extract. rewrite stripFences_eq.
  destruct (trim_split s) as (l & r & _ & _ & Hs).
  set (t := trim s) in *.
  destruct (drop_opening_suffix (js "```json") t) as (a1 & H1 & L1).
  set (t1 := drop_opening (js "```json") t) in *.
  destruct (drop_opening_suffix fence t1) as (a2 & H2 & L2).
  set (t2 := drop_opening fence t1) in *.
  destruct (drop_closing_prefix t2) as (b & H3 & L3).
  set (t3 := drop_closing t2) in *.
  destruct (trim_split t3) as (l' & r' & _ & _ & H4).
  exists l, a1, a2, b, l', r', r.
  assert (Ht : t = a1 ++ a2 ++ l' ++ trim t3 ++ r' ++ b).
  { rewrite H1 at 1. rewrite H2 at 1. rewrite H3 at 1. rewrite H4 at 1.
    reassoc. }
  split; [|split; [exact Ht|split]].
  - rewrite Hs at 1. rewrite Ht at 1. reassoc.
  - intros Hstart. rewrite length_app.
    destruct (drop_literal (js "```json") t) as [r0|] eqn:E.
    + assert (Hlen : (length (js "```json") <= length a1)%nat)
        by (apply L1; discriminate).
      change (length (js "```json")) with 7%nat in Hlen. lia.
    + assert (Ht1 : t1 = t) by (unfold t1, drop_opening; now rewrite E).
      assert (Hlen : (length fence <= length a2)%nat).
      { apply L2. rewrite Ht1, drop_fence, Hstart. discriminate. }
      change (length fence) with 3%nat in Hlen. lia.
  - intros Hstart Hend. apply L3.
    assert (Ht1 : t1 = t).
    { unfold t1, drop_opening. now rewrite (drop_json_unfenced t Hstart). }
    assert (Ht2 : t2 = t).
    { unfold t2, drop_opening. now rewrite Ht1, drop_fence, Hstart. }
    now rewrite Ht2.
Qed.

(** X1. extraction only removes text at the two ends.  The extracted text
    is a part of the content in one piece, it has no white space at its
    ends, and it is not longer than the content. *)
Theorem extract_is_infix (content : jsstring) :
  (exists before after, content = before ++ extract content ++ after)
  /\ is_trimmed (extract content) = true
  /\ (length (extract content) <= length content)%nat.
Proof.
  destruct (extract_steps content) as (l & a1 & a2 & b & l' & r' & r & Hs & _).
  split; [|split].
  - exists (l ++ a1 ++ a2 ++ l'), (r' ++ b ++ r).
    rewrite Hs at 1. reassoc.
  - apply trim_is_trimmed.
  - rewrite Hs at 2. rewrite !length_app. lia.
Qed.

(** X2. a second extraction changes the text exactly when the first one
    has left three backquotes at an end of it. *)
Theorem extract_idempotent_iff (content : jsstring) :
  extract (extract content) = extract content <->
  startsWith fence (extract content) || endsWith fence (extract content)
  = false.
Proof.
  set (t := extract content).
  assert (Ht : is_trimmed t = true) by apply trim_is_trimmed.
  split.
  - intros Hfix.
    destruct (extract_steps t) as (l & a1 & a2 & b & l' & r' & r & Hs & _ & Ha & Hb).
    rewrite (trimmed_trim t Ht) in Ha, Hb.
    assert (Hlen : length t =
                   (length l + length (a1 ++ a2) + length l' + length (extract t)
                    + length r' + length b + length r)%nat).
    { rewrite Hs at 1. rewrite !length_app. lia. }
    rewrite Hfix in Hlen.
    destruct (startsWith fence t) eqn:Hstart.
    + specialize (Ha eq_refl). lia.
    + destruct (endsWith fence t) eqn:Hend; [|reflexivity].
      specialize (Hb eq_refl eq_refl). lia.
  - intros H. apply orb_false_elim in H. destruct H as [Hstart Hend].
    now apply extract_unfenced.
Qed.

Lemma extract_idempotent_example :
  extract (extract fenced_object) = extract fenced_object.
Proof.
  apply (extract_idempotent_iff fenced_object). vm_compute. reflexivity.
Defined.

(** ** Valid JSON between fences *)

(** X3. for a payload whose trimmed text is valid JSON, extraction of the
    payload between fence markers and extraction of the payload alone both
    give the trimmed payload, which parses to the same value. *)
Theorem valid_json_round_trip
    (tag before payload after : jsstring) (v : JSON.value) :
  opening tag before = true ->
  blank before = true -> blank after = true ->
  JSON.parse (trim payload) = Some v ->
  extract (fenced tag before payload after) = trim payload
  /\ extract payload = trim payload
  /\ JSON.parse (extract (fenced tag before payload after)) = Some v
  /\ JSON.parse (extract payload) = Some v.
Proof.
  intros Hopen Hb Ha Hv.
  destruct (valid_json_unfenced (trim payload) v Hv) as [Hstart Hend].
  rewrite trim_idempotent in Hstart, Hend.
  assert (Hf : extract (fenced tag before payload after) = trim payload)
    by now apply extract_fenced.
  assert (Hp : extract payload = trim payload).
  { pose proof (extract_unfenced (trim payload) (trim_is_trimmed payload)
                  Hstart Hend) as Ht.
    unfold extract in *. now rewrite trim_idempotent in Ht. }
  rewrite Hf, Hp. repeat split; assumption.
Qed.

Lemma valid_json_round_trip_example :
  extract (fenced (js "json") [LF] advanced_plan [LF]) = trim advanced_plan
  /\ extract advanced_plan = trim advanced_plan
  /\ JSON.parse (extract (fenced (js "json") [LF] advanced_plan [LF])) =
     Some advanced_plan_value
  /\ JSON.parse (extract advanced_plan) = Some advanced_plan_value.
Proof.
  apply (valid_json_round_trip (js "json") [LF] advanced_plan [LF]
           advanced_plan_value); reflexivity.
Defined.

(** X4. when the response has a valid JSON text between fence markers as
    its content, generatePersonalizedStudyPlan returns the value of that
    text, after one request and without a line on the console. *)
Theorem study_plan_returns_fenced_json
    (chaptersData : list Chapter) (chapterId : jsstring)
    (d : DiagnosticResult) (userProgress : option JSON.value)
    (c : Chapter) (w : world)
    (tag before payload after : jsstring) (v : JSON.value) :
  find (fun c => str_eqb (id c) chapterId) chaptersData = Some c ->
  classify (endpoint w (groq_request (studyPlanPrompt c chapterId d))) =
    Content (fenced tag before payload after) ->
  opening tag before = true ->
  blank before = true -> blank after = true ->
  JSON.parse (trim payload) = Some v ->
  generatePersonalizedStudyPlan chaptersData chapterId d userProgress w =
  (Normal v, sent (groq_request (studyPlanPrompt c chapterId d)) w).
Proof.
  intros Hfind Hc Hopen Hb Ha Hv.
  rewrite (study_plan_run chaptersData chapterId d userProgress c w Hfind), Hc.
  destruct (valid_json_unfenced (trim payload) v Hv) as [Hstart _].
  rewrite trim_idempotent in Hstart.
  rewrite (extract_fenced tag before payload after Hopen Hb Ha Hstart), Hv.
  reflexivity.
Qed.

Lemma study_plan_returns_fenced_json_example :
  generatePersonalizedStudyPlan catalog (js "fractions-6") weak_diagnostic None
    (answering (JSON.Str (fenced (js "json") [LF] advanced_plan [LF]))) =
  (Normal advanced_plan_value,
   sent (groq_request
           (studyPlanPrompt fractions (js "fractions-6") weak_diagnostic))
     (answering (JSON.Str (fenced (js "json") [LF] advanced_plan [LF])))).
Proof.
  apply (study_plan_returns_fenced_json catalog (js "fractions-6")
           weak_diagnostic None fractions
           (answering (JSON.Str (fenced (js "json") [LF] advanced_plan [LF])))
           (js "json") [LF] advanced_plan [LF] advanced_plan_value);
    reflexivity.
Defined.

(** ** The other fallbacks *)

Lemma fallback_explanation_template (topic : jsstring) :
  fallbackExplanation topic = js "Let's explore " ++ topic ++ explanation_tail.
Proof.
  unfold fallbackExplanation, lines. cbn [join].
  rewrite <- !app_assoc. now do 2 f_equal.
Qed.

(** X5. when the call of the endpoint fails, generateChapterExplanation
    returns the fixed text of lines 137-143, "Let's explore ", the topic
    and the text [explanation_tail] written out above, whatever the chapter
    and the level of the student are. *)
Theorem explanation_fallback
    (chapterId topic : jsstring) (studentLevel : Level) (w : world) :
  generation_failed
    (endpoint w (groq_request (explanationPrompt topic studentLevel))) = true ->
  exists w',
    generateChapterExplanation chapterId topic studentLevel w =
    (Normal (js "Let's explore " ++ topic ++ explanation_tail), w').
Proof.
  intros Hfail. rewrite explanation_run, <- fallback_explanation_template.
  unfold generation_failed in Hfail.
  destruct (classify _); try discriminate; eexists; reflexivity.
Qed.

Lemma explanation_fallback_example :
  exists w',
    generateChapterExplanation (js "fractions-6") (js "Fractions") advanced
      (offline zero) =
    (Normal (js "Let's explore " ++ js "Fractions" ++ explanation_tail), w').
Proof.
  exact (explanation_fallback (js "fractions-6") (js "Fractions") advanced
           (offline zero) eq_refl).
Defined.

(** X6. when the call of the endpoint fails, generatePersonalizedStudyContent
    returns an object with the four sections "Introduction", "Core
    Concepts", "Problem Solving" and "Practice & Review", in this order,
    each a text; of the strengths and weaknesses only the first ones are
    used. *)
Theorem study_content_fallback
    (chapterId chapterName : jsstring) (userLevel : Level)
    (userWeaknesses userStrengths : option (list jsstring)) (w : world) :
  let weak := match userWeaknesses with Some l => l | None => [] end in
  let strong := match userStrengths with Some l => l | None => [] end in
  generation_failed
    (endpoint w (groq_request
                   (studyContentPrompt chapterName userLevel weak strong)))
  = true ->
  exists v w',
    generatePersonalizedStudyContent chapterId chapterName userLevel
      userWeaknesses userStrengths w = (Normal v, w')
    /\ object_keys v =
       [js "Introduction"; js "Core Concepts"; js "Problem Solving";
        js "Practice & Review"]
    /\ (forall k, In k (object_keys v) ->
        exists text, JSON.get v k = Some (JSON.Str text))
    /\ v = fallbackStudyContent chapterName (firstn 1 weak) (firstn 1 strong).
Proof.
  intros weak strong Hfail.
  exists (fallbackStudyContent chapterName weak strong).
  rewrite study_content_run. fold weak strong.
  unfold generation_failed in Hfail.
  assert (Hkeys : forall k,
            In k (object_keys (fallbackStudyContent chapterName weak strong)) ->
            exists text,
              JSON.get (fallbackStudyContent chapterName weak strong) k =
              Some (JSON.Str text)).
  { intros k Hk. cbn [object_keys fallbackStudyContent map fst In] in Hk.
    destruct Hk as [<- | [<- | [<- | [<- | []]]]]; eexists; reflexivity. }
  assert (Hfirst : fallbackStudyContent chapterName weak strong =
                   fallbackStudyContent chapterName (firstn 1 weak)
                     (firstn 1 strong)).
  { destruct weak as [|x weak]; destruct strong as [|y strong]; reflexivity. }
  destruct (classify _); try discriminate;
    eexists; (split; [reflexivity | split; [reflexivity | split; assumption]]).
Qed.

Lemma study_content_fallback_example :
  exists v w',
    generatePersonalizedStudyContent (js "fractions-6") (js "Fractions")
      beginner None (Some [js "mental arithmetic"; js "geometry"])
      (offline zero) = (Normal v, w')
    /\ object_keys v =
       [js "Introduction"; js "Core Concepts"; js "Problem Solving";
        js "Practice & Review"]
    /\ (forall k, In k (object_keys v) ->
        exists text, JSON.get v k = Some (JSON.Str text))
    /\ v = fallbackStudyContent (js "Fractions") []
             [js "mental arithmetic"].
Proof.
  exact (study_content_fallback (js "fractions-6") (js "Fractions") beginner
           None (Some [js "mental arithmetic"; js "geometry"]) (offline zero)
           eq_refl).
Defined.

(** X7. on a successful response whose extracted content is valid JSON,
    generatePersonalizedStudyContent returns the parsed value as it is,
    be it an object with the four sections or any other value, after one
    request and without a line on the console. *)
Theorem study_content_generated
    (chapterId chapterName : jsstring) (userLevel : Level)
    (userWeaknesses userStrengths : option (list jsstring)) (w : world)
    (raw : jsstring) (v : JSON.value) :
  let weak := match userWeaknesses with Some l => l | None => [] end in
  let strong := match userStrengths with Some l => l | None => [] end in
  let request :=
    groq_request (studyContentPrompt chapterName userLevel weak strong) in
  classify (endpoint w request) = Content raw ->
  JSON.parse (extract raw) = Some v ->
  generatePersonalizedStudyContent chapterId chapterName userLevel
    userWeaknesses userStrengths w = (Normal v, sent request w).
Proof.
  intros weak strong request Hc Hv.
  rewrite study_content_run. fold weak strong. fold request.
  now rewrite Hc, Hv.
Qed.

(** A response that is an array: it is returned in place of the sections. *)
Lemma study_content_generated_example :
  generatePersonalizedStudyContent (js "fractions-6") (js "Fractions")
    beginner None None (answering (JSON.Str (js "[1, 2]"))) =
  (Normal (JSON.Arr [JSON.Num (Number.of_Z 1); JSON.Num (Number.of_Z 2)]),
   sent (groq_request (studyContentPrompt (js "Fractions") beginner [] []))
     (answering (JSON.Str (js "[1, 2]")))).
Proof.
  apply (study_content_generated (js "fractions-6") (js "Fractions") beginner
           None None (answering (JSON.Str (js "[1, 2]"))) (js "[1, 2]")
           (JSON.Arr [JSON.Num (Number.of_Z 1); JSON.Num (Number.of_Z 2)]));
    reflexivity.
Defined.

(** ** Requests and the console *)

Lemma requests_log_caught (label : jsstring) o (w : world) :
  requests (log_caught label o w) = requests w.
Proof. unfold log_caught. now destruct (caught o). Qed.

(** X8. every call of an operation that gets past the lookup of the chapter
    sends exactly one request, to [GROQ_PROXY_URL] with [MODEL_NAME] and
    the prompt of the operation, whatever the endpoint answers: nothing is
    sent twice, on no path. *)
Theorem one_request_per_call
    (chaptersData : list Chapter) (chapterId : jsstring)
    (d : DiagnosticResult) (userProgress : option JSON.value)
    (chapterName topic : jsstring) (userLevel : Level)
    (userWeaknesses userStrengths : option (list jsstring))
    (recentActivity : list jsstring) (w : world) :
  let weak := match userWeaknesses with Some l => l | None => [] end in
  let strong := match userStrengths with Some l => l | None => [] end in
  (forall c,
     find (fun c => str_eqb (id c) chapterId) chaptersData = Some c ->
     requests (snd (generatePersonalizedStudyPlan chaptersData chapterId d
                      userProgress w)) =
     requests w ++
     [{| url := js "http://localhost:3001/api/groq-chat";
         model := js "openai/gpt-oss-20b";
         content := studyPlanPrompt c chapterId d |}])
  /\ requests (snd (generateChapterExplanation chapterId topic userLevel w)) =
     requests w ++
     [{| url := js "http://localhost:3001/api/groq-chat";
         model := js "openai/gpt-oss-20b";
         content := explanationPrompt topic userLevel |}]
  /\ requests (snd (generateSmartNotification userProgress recentActivity w)) =
     requests w ++
     [{| url := js "http://localhost:3001/api/groq-chat";
         model := js "openai/gpt-oss-20b";
         content := notificationPrompt recentActivity |}]
  /\ requests (snd (generatePersonalizedStudyContent chapterId chapterName
                     userLevel userWeaknesses userStrengths w)) =
     requests w ++
     [{| url := js "http://localhost:3001/api/groq-chat";
         model := js "openai/gpt-oss-20b";
         content := studyContentPrompt chapterName userLevel weak strong |}].
Proof.
  intros weak strong. repeat split.
  - intros c Hfind.
    rewrite (study_plan_run chaptersData chapterId d userProgress c w Hfind).
    destruct (classify _); cbn [snd]; rewrite ?requests_log_caught;
      try reflexivity.
    destruct (JSON.parse _); reflexivity.
  - rewrite explanation_run. cbn [snd]. now rewrite requests_log_caught.
  - rewrite notification_run. cbn [snd]. now rewrite requests_log_caught.
  - rewrite study_content_run. fold weak strong.
    destruct (classify _); cbn [snd]; rewrite ?requests_log_caught;
      try reflexivity.
    destruct (JSON.parse _); reflexivity.
Qed.

Lemma one_request_example :
  requests (snd (generatePersonalizedStudyPlan catalog (js "fractions-6")
                   weak_diagnostic None (answering (JSON.Str prose)))) =
  [{| url := js "http://localhost:3001/api/groq-chat";
      model := js "openai/gpt-oss-20b";
      content := studyPlanPrompt fractions (js "fractions-6") weak_diagnostic |}].
Proof.
  rewrite (proj1 (one_request_per_call catalog (js "fractions-6")
                    weak_diagnostic None (js "Fractions") (js "Fractions")
                    beginner None None [] (answering (JSON.Str prose)))
             fractions eq_refl).
  reflexivity.
Defined.

(** X9. what the operations write on the console.  A rejected fetch and a
    content that is not a text leave one line with a TypeError, a body
    that is not JSON one line with a SyntaxError, each under the label of
    the operation; a non-success status and a missing or empty content
    leave nothing.  A content that does not parse leaves one line with a
    SyntaxError: under the label of the operation for the study plan,
    under "Error parsing study content JSON:" alone for the study
    content. *)
Theorem console_lines
    (chaptersData : list Chapter) (chapterId : jsstring)
    (d : DiagnosticResult) (userProgress : option JSON.value)
    (chapterName topic : jsstring) (userLevel : Level)
    (userWeaknesses userStrengths : option (list jsstring))
    (recentActivity : list jsstring) (w : world) :
  let weak := match userWeaknesses with Some l => l | None => [] end in
  let strong := match userStrengths with Some l => l | None => [] end in
  let line (label : jsstring) (o : option Response) (parsing : jsstring) :=
    match classify o with
    | NetworkError | ContentNotText => [(label, TypeError)]
    | MalformedBody => [(label, SyntaxError)]
    | BadStatus | NoContent => []
    | Content raw =>
      match parsing, JSON.parse (extract raw) with
      | _ :: _, None => [(parsing, SyntaxError)]
      | _, _ => []
      end
    end in
  (forall c,
     find (fun c => str_eqb (id c) chapterId) chaptersData = Some c ->
     console (snd (generatePersonalizedStudyPlan chaptersData chapterId d
                     userProgress w)) =
     console w ++
     line (js "Error generating study plan:")
       (endpoint w (groq_request (studyPlanPrompt c chapterId d)))
       (js "Error generating study plan:"))
  /\ console (snd (generateChapterExplanation chapterId topic userLevel w)) =
     console w ++
     line (js "Error generating explanation:")
       (endpoint w (groq_request (explanationPrompt topic userLevel))) []
  /\ console (snd (generateSmartNotification userProgress recentActivity w)) =
     console w ++
     line (js "Error generating notification:")
       (endpoint w (groq_request (notificationPrompt recentActivity))) []
  /\ console (snd (generatePersonalizedStudyContent chapterId chapterName
                    userLevel userWeaknesses userStrengths w)) =
     console w ++
     line (js "Error generating personalized study content:")
       (endpoint w (groq_request
                      (studyContentPrompt chapterName userLevel weak strong)))
       (js "Error parsing study content JSON:").
Proof.
  intros weak strong line. unfold line. repeat split.
  - intros c Hfind.
    rewrite (study_plan_run chaptersData chapterId d userProgress c w Hfind).
    unfold log_caught, caught.
    destruct (classify _); cbn [snd logged sent console];
      rewrite ?app_nil_r; try reflexivity.
    destruct (JSON.parse _); cbn [snd logged sent console];
      rewrite ?app_nil_r; reflexivity.
  - rewrite explanation_run. unfold log_caught, caught.
    destruct (classify _); cbn [snd logged sent console];
      rewrite ?app_nil_r; reflexivity.
  - rewrite notification_run. unfold log_caught, caught.
    destruct (classify _); cbn [snd logged sent console];
      rewrite ?app_nil_r; reflexivity.
  - rewrite study_content_run. fold weak strong. unfold log_caught, caught.
    destruct (classify _); cbn [snd logged sent console];
      rewrite ?app_nil_r; try reflexivity.
    destruct (JSON.parse _); cbn [snd logged sent console];
      rewrite ?app_nil_r; reflexivity.
Qed.

Lemma console_lines_example :
  console (snd (generatePersonalizedStudyPlan catalog (js "fractions-6")
                  weak_diagnostic None (answering (JSON.Str prose)))) =
  [(js "Error generating study plan:", SyntaxError)].
Proof.
  rewrite (proj1 (console_lines catalog (js "fractions-6") weak_diagnostic None
                    (js "Fractions") (js "Fractions") beginner None None []
                    (answering (JSON.Str prose)))
             fractions eq_refl).
  vm_compute. reflexivity.
Defined.

(** X10. the result of an operation depends on the world through the
    answers of the endpoint only, and for generateSmartNotification through
    the random number as well: not on the requests sent before, not on the
    console. *)
Theorem results_depend_on_endpoint
    (chaptersData : list Chapter) (chapterId : jsstring)
    (d : DiagnosticResult) (userProgress : option JSON.value)
    (chapterName topic : jsstring) (userLevel : Level)
    (userWeaknesses userStrengths : option (list jsstring))
    (recentActivity : list jsstring) (w1 w2 : world) :
  (forall r, endpoint w1 r = endpoint w2 r) ->
  fst (generatePersonalizedStudyPlan chaptersData chapterId d userProgress w1)
  = fst (generatePersonalizedStudyPlan chaptersData chapterId d userProgress w2)
  /\ fst (generateChapterExplanation chapterId topic userLevel w1)
     = fst (generateChapterExplanation chapterId topic userLevel w2)
  /\ fst (generatePersonalizedStudyContent chapterId chapterName userLevel
            userWeaknesses userStrengths w1)
     = fst (generatePersonalizedStudyContent chapterId chapterName userLevel
              userWeaknesses userStrengths w2)
  /\ (random w1 = random w2 ->
      fst (generateSmartNotification userProgress recentActivity w1)
      = fst (generateSmartNotification userProgress recentActivity w2)).
Proof.
  intros Hsame. repeat split.
  - destruct (find (fun c => str_eqb (id c) chapterId) chaptersData)
      as [c|] eqn:Hfind.
    + rewrite !(study_plan_run chaptersData chapterId d userProgress c _ Hfind).
      rewrite Hsame.
      destruct (classify _); try reflexivity.
      destruct (JSON.parse _); reflexivity.
    + now rewrite !unknown_chapter_is_thrown.
  - rewrite !explanation_run. cbn [fst]. now rewrite Hsame.
  - rewrite !study_content_run. rewrite Hsame.
    destruct (classify _); try reflexivity.
    destruct (JSON.parse _); reflexivity.
  - intros Hrandom. rewrite !notification_run. cbn [fst].
    now rewrite Hsame, Hrandom.
Qed.

(** The explanation is the same whatever the random number is. *)
Lemma results_depend_on_endpoint_example :
  fst (generateChapterExplanation (js "fractions-6") (js "Fractions") beginner
         (offline zero))
  = fst (generateChapterExplanation (js "fractions-6") (js "Fractions")
           beginner (offline six_tenths)).
Proof.
  exact (proj1 (proj2 (results_depend_on_endpoint catalog (js "fractions-6")
                         weak_diagnostic None (js "Fractions") (js "Fractions")
                         beginner None None [] (offline zero)
                         (offline six_tenths) (fun r => eq_refl)))).
Defined.

(** ** Placeholders of the study content prompt *)

Lemma join_app (sep : jsstring) (l1 l2 : list jsstring) :
  l1 <> [] -> l2 <> [] ->
  join sep (l1 ++ l2) = join sep l1 ++ sep ++ join sep l2.
Proof.
  intros H1 H2. induction l1 as [|x l1 IH]; [now elim H1|].
  destruct l1 as [|y l1].
  - destruct l2 as [|z l2]; [now elim H2 | reflexivity].
  - change (join sep ((x :: y :: l1) ++ l2))
      with (x ++ sep ++ join sep ((y :: l1) ++ l2)).
    rewrite IH by discriminate.
    change (join sep (x :: y :: l1)) with (x ++ sep ++ join sep (y :: l1)).
    reassoc.
Qed.

(** An array of strings joins to the empty string when it is empty or holds
    the empty string alone. *)
Lemma join_nil (l : list jsstring) :
  join (js ", ") l = [] <-> l = [] \/ l = [[]].
Proof.
  split.
  - destruct l as [|x [|y l]]; intros H.
    + now left.
    + right. simpl in H. now subst.
    + exfalso. change (join (js ", ") (x :: y :: l))
        with (x ++ js ", " ++ join (js ", ") (y :: l)) in H.
      apply app_eq_nil in H. destruct H as [_ H']. discriminate.
  - intros [-> | ->]; reflexivity.
Qed.

(** X11. in the prompt of generatePersonalizedStudyContent the two labels
    are never followed by nothing: after "Student's Strengths: " comes the
    comma-separated list, or "Building foundation" when the list is empty
    or holds the empty string alone, and after "Student's Weaknesses: " the
    list or "None identified". *)
Theorem study_content_prompt_placeholders
    (chapterName : jsstring) (userLevel : Level)
    (userWeaknesses userStrengths : list jsstring) :
  exists before after shown_strengths shown_weaknesses,
    studyContentPrompt chapterName userLevel userWeaknesses userStrengths =
    before ++ [LF] ++ js "Student's Strengths: " ++ shown_strengths
    ++ [LF] ++ js "Student's Weaknesses: " ++ shown_weaknesses
    ++ [LF] ++ after
    /\ shown_strengths <> [] /\ shown_weaknesses <> []
    /\ (userStrengths = [] \/ userStrengths = [[]] ->
        shown_strengths = js "Building foundation")
    /\ (~ (userStrengths = [] \/ userStrengths = [[]]) ->
        shown_strengths = join (js ", ") userStrengths)
    /\ (userWeaknesses = [] \/ userWeaknesses = [[]] ->
        shown_weaknesses = js "None identified")
    /\ (~ (userWeaknesses = [] \/ userWeaknesses = [[]]) ->
        shown_weaknesses = join (js ", ") userWeaknesses).
Proof.
  assert (Hor : forall l p, p <> [] ->
            or_else (join (js ", ") l) p <> []
            /\ (l = [] \/ l = [[]] -> or_else (join (js ", ") l) p = p)
            /\ (~ (l = [] \/ l = [[]]) ->
                or_else (join (js ", ") l) p = join (js ", ") l)).
  { intros l p Hp. pose proof (join_nil l) as Hj.
    destruct (join (js ", ") l) as [|c t] eqn:E; cbn [or_else].
    - split; [exact Hp|]. split; [reflexivity|].
      intros Hn. elim Hn. now apply Hj.
    - split; [discriminate|]. split; [|reflexivity].
      intros Hl. apply Hj in Hl. discriminate. }
  destruct (Hor userStrengths (js "Building foundation")) as (S1 & S2 & S3);
    [discriminate|].
  destruct (Hor userWeaknesses (js "None identified")) as (W1 & W2 & W3);
    [discriminate|].
  unfold studyContentPrompt, lines.
  match goal with
  | |- context [join [LF] (?a :: ?b :: ?c :: ?d :: ?s :: ?x :: ?rest)] =>
    change (join [LF] (a :: b :: c :: d :: s :: x :: rest))
      with (join [LF] ([a; b; c; d] ++ [s; x] ++ rest));
    exists (join [LF] [a; b; c; d]), (join [LF] rest)
  end.
  exists (or_else (join (js ", ") userStrengths) (js "Building foundation")),
    (or_else (join (js ", ") userWeaknesses) (js "None identified")).
  split; [|repeat split; assumption].
  rewrite !join_app by discriminate.
  cbn [join]. reassoc.
Qed.

Lemma study_content_prompt_placeholders_example :
  exists before after,
    studyContentPrompt (js "Fractions") beginner [[]] [] =
    before ++ [LF] ++ js "Student's Strengths: " ++ js "Building foundation"
    ++ [LF] ++ js "Student's Weaknesses: " ++ js "None identified"
    ++ [LF] ++ after.
Proof.
  destruct (study_content_prompt_placeholders (js "Fractions") beginner
              [[]] [])
    as (before & after & s & w & E & _ & _ & Hs & _ & Hw & _).
  exists before, after.
  rewrite <- (Hs (or_introl eq_refl)), <- (Hw (or_intror eq_refl)).
  exact E.
Defined.

(** ** The fallback study plan *)

(** X12. the fallback plan has one to three prerequisites: the gaps of the
    diagnostic result up to the third, in their order, or the two default
    ones when there is no gap. *)
Theorem fallback_prerequisites_bounds
    (chapterId : jsstring) (d : DiagnosticResult) :
  let p := prerequisites (fallbackStudyPlan chapterId d) in
  (1 <= length p <= 3)%nat
  /\ (gaps d = [] -> p = [js "Basic arithmetic"; js "Number concepts"])
  /\ (gaps d <> [] ->
      p = firstn 3 (gaps d)
      /\ gaps d = p ++ skipn 3 (gaps d)
      /\ length p = Nat.min 3 (length (gaps d))).
Proof.
  intros p. subst p. rewrite fallback_plan_fields. cbn [prerequisites].
  destruct (gaps d) as [|g gs].
  - split; [simpl; lia|]. split; [reflexivity|].
    intros Hne. now elim Hne.
  - split; [|split; [discriminate|]].
    + rewrite length_firstn. cbn [length]. lia.
    + intros _. split; [reflexivity|].
      split; [now rewrite firstn_skipn | apply length_firstn].
Qed.

Lemma fallback_prerequisites_example :
  prerequisites (fallbackStudyPlan (js "fractions-6") weak_diagnostic) =
  firstn 3 (gaps weak_diagnostic).
Proof.
  destruct (fallback_prerequisites_bounds (js "fractions-6") weak_diagnostic)
    as (_ & _ & H).
  apply H. discriminate.
Defined.

(** X13. nothing guards the division.  For a positive score and a total of
    0 the quotient is an infinity of the sign of the zero: with +0 the
    fallback plan is "intermediate" with 120 minutes, with -0 it is
    "beginner" with 180. *)
Theorem positive_score_zero_total
    (chapterId : jsstring) (d : DiagnosticResult) (negative : bool) :
  Number.gtb (score d) zero = true ->
  total_questions d = S754_zero negative ->
  Number.div (score d) (total_questions d) = S754_infinity negative
  /\ difficulty_level (fallbackStudyPlan chapterId d) =
     (if negative then beginner else intermediate)
  /\ estimated_time (fallbackStudyPlan chapterId d) =
     (if negative then Number.of_Z 180 else Number.of_Z 120).
Proof.
  intros Hpos Htotal. rewrite fallback_plan_fields.
  cbn [difficulty_level estimated_time]. rewrite Htotal.
  assert (Hdiv : Number.div (score d) (S754_zero negative) =
                 S754_infinity negative).
  { destruct (score d) as [s | s | | s m e]; try discriminate.
    - destruct s; [discriminate | reflexivity].
    - destruct s; [discriminate | reflexivity]. }
  rewrite Hdiv. destruct negative; repeat split.
Qed.

Lemma positive_score_zero_total_example :
  Number.div (score unasked_diagnostic) (total_questions unasked_diagnostic) =
    S754_infinity false
  /\ difficulty_level (fallbackStudyPlan (js "fractions-6") unasked_diagnostic)
     = intermediate
  /\ estimated_time (fallbackStudyPlan (js "fractions-6") unasked_diagnostic)
     = Number.of_Z 120.
Proof.
  exact (positive_score_zero_total (js "fractions-6") unasked_diagnostic false
           eq_refl eq_refl).
Defined.

(** X14. the prompt of generatePersonalizedStudyPlan shows the three lists
    of the diagnostic result joined with ", " right after their labels,
    with no placeholder: for an empty list the label ends its line. *)
Theorem study_plan_prompt_lists
    (c : Chapter) (chapterId : jsstring) (d : DiagnosticResult) :
  exists before after,
    studyPlanPrompt c chapterId d =
    before ++ [LF]
    ++ js "Student's Strengths: " ++ join (js ", ") (strengths d) ++ [LF]
    ++ js "Student's Weaknesses: " ++ join (js ", ") (weaknesses d) ++ [LF]
    ++ js "Student's Gaps: " ++ join (js ", ") (gaps d) ++ [LF]
    ++ after
    /\ (strengths d = [] -> join (js ", ") (strengths d) = [])
    /\ (weaknesses d = [] -> join (js ", ") (weaknesses d) = [])
    /\ (gaps d = [] -> join (js ", ") (gaps d) = []).
Proof.
  unfold studyPlanPrompt, lines.
  match goal with
  | |- context [join [LF] (?a :: ?b :: ?c :: ?d :: ?s :: ?x :: ?g :: ?rest)] =>
    change (join [LF] (a :: b :: c :: d :: s :: x :: g :: rest))
      with (join [LF] ([a; b; c; d] ++ [s; x; g] ++ rest));
    exists (join [LF] [a; b; c; d]), (join [LF] rest)
  end.
  split.
  - rewrite !join_app by discriminate. cbn [join]. reassoc.
  - repeat split; intros ->; reflexivity.
Qed.

Lemma study_plan_prompt_lists_example :
  exists before after,
    studyPlanPrompt fractions (js "fractions-6") empty_diagnostic =
    before ++ [LF]
    ++ js "Student's Strengths: " ++ [LF]
    ++ js "Student's Weaknesses: " ++ [LF]
    ++ js "Student's Gaps: " ++ [LF]
    ++ after.
Proof.
  destruct (study_plan_prompt_lists fractions (js "fractions-6")
              empty_diagnostic)
    as (before & after & E & Hs & Hw & Hg).
  exists before, after.
  rewrite (Hs eq_refl), (Hw eq_refl), (Hg eq_refl) in E.
  exact E.
Defined.

(** ** Contents that are blank or not texts *)

Lemma blank_trim (s : jsstring) : blank s = true -> trim s = [].
Proof.
  intros H. rewrite <- (app_nil_r s).
  exact (trim_around s [] [] H eq_refl eq_refl).
Qed.

(** X15. a content that has white space only is a successful response.
    generateChapterExplanation returns the empty text for it, not its
    fallback; generatePersonalizedStudyContent finds nothing to parse,
    writes one line on the console and returns its fallback. *)
Theorem blank_content
    (chapterId chapterName topic : jsstring) (userLevel : Level)
    (userWeaknesses userStrengths : option (list jsstring)) (w : world)
    (explanation sections : jsstring) :
  let weak := match userWeaknesses with Some l => l | None => [] end in
  let strong := match userStrengths with Some l => l | None => [] end in
  classify (endpoint w (groq_request (explanationPrompt topic userLevel))) =
    Content explanation ->
  blank explanation = true ->
  classify (endpoint w (groq_request
              (studyContentPrompt chapterName userLevel weak strong))) =
    Content sections ->
  blank sections = true ->
  fst (generateChapterExplanation chapterId topic userLevel w) = Normal []
  /\ fst (generatePersonalizedStudyContent chapterId chapterName userLevel
            userWeaknesses userStrengths w) =
     Normal (fallbackStudyContent chapterName weak strong)
  /\ console (snd (generatePersonalizedStudyContent chapterId chapterName
                     userLevel userWeaknesses userStrengths w)) =
     console w ++ [(js "Error parsing study content JSON:", SyntaxError)].
Proof.
  intros weak strong He Hbe Hs Hbs.
  rewrite explanation_run, He, (blank_trim _ Hbe).
  rewrite study_content_run. fold weak strong. rewrite Hs.
  unfold extract. rewrite (blank_trim _ Hbs).
  repeat split.
Qed.

Lemma blank_content_example :
  fst (generateChapterExplanation (js "fractions-6") (js "Fractions") beginner
         (answering (JSON.Str [LF; LF]))) = Normal []
  /\ fst (generatePersonalizedStudyContent (js "fractions-6") (js "Fractions")
            beginner None None (answering (JSON.Str [LF; LF]))) =
     Normal (fallbackStudyContent (js "Fractions") [] [])
  /\ console (snd (generatePersonalizedStudyContent (js "fractions-6")
                     (js "Fractions") beginner None None
                     (answering (JSON.Str [LF; LF])))) =
     [] ++ [(js "Error parsing study content JSON:", SyntaxError)].
Proof.
  exact (blank_content (js "fractions-6") (js "Fractions") (js "Fractions")
           beginner None None (answering (JSON.Str [LF; LF])) [LF; LF] [LF; LF]
           eq_refl eq_refl eq_refl eq_refl).
Defined.

(** X16. a response of status 200 whose envelope holds a content that is not
    a string.  A truthy one (true, a number other than 0, an array, an
    object) makes [trim] fail: generateChapterExplanation returns its
    fallback and writes one line with a TypeError.  A falsy one (null,
    false, 0) gives the fallback and no line. *)
Theorem non_text_content
    (chapterId topic : jsstring) (studentLevel : Level) (w : world)
    (response : Response) (c : JSON.value) :
  endpoint w (groq_request (explanationPrompt topic studentLevel)) =
    Some response ->
  ok response = true -> json response = Some (envelope c) ->
  (forall text, c <> JSON.Str text) ->
  fst (generateChapterExplanation chapterId topic studentLevel w) =
    Normal (fallbackExplanation topic)
  /\ console (snd (generateChapterExplanation chapterId topic studentLevel w)) =
     console w ++
     (if JSON.truthy (Some c)
      then [(js "Error generating explanation:", TypeError)] else []).
Proof.
  intros Hresp Hok Hjson Hc.
  rewrite explanation_run. unfold log_caught, caught, classify.
  rewrite Hresp, Hok, Hjson.
  change (message_content (envelope c)) with (Some c).
  destruct c as [|b|x|s|l|ps]; cbn [JSON.truthy fst snd];
    try (split; [reflexivity | cbn; now rewrite ?app_nil_r]).
  - destruct b; split; try reflexivity; cbn; now rewrite ?app_nil_r.
  - destruct (Number.truthy x); split; try reflexivity;
      cbn; now rewrite ?app_nil_r.
  - now elim (Hc s).
Qed.

Lemma non_text_content_example :
  fst (generateChapterExplanation (js "fractions-6") (js "Fractions") beginner
         (answering (JSON.Arr []))) =
    Normal (fallbackExplanation (js "Fractions"))
  /\ console (snd (generateChapterExplanation (js "fractions-6")
                     (js "Fractions") beginner (answering (JSON.Arr [])))) =
     [] ++ [(js "Error generating explanation:", TypeError)].
Proof.
  refine (non_text_content (js "fractions-6") (js "Fractions") beginner
            (answering (JSON.Arr []))
            {| ok := true; json := Some (envelope (JSON.Arr [])) |}
            (JSON.Arr []) eq_refl eq_refl eq_refl _).
  intros text H. discriminate H.
Defined.

(** ** The fuel of the parser *)

Lemma skip_ws_length (s : jsstring) :
  (length (JSON.skip_ws s) <= length s)%nat.
Proof.
  destruct (skip_ws_split s) as (l & _ & Hs).
  rewrite Hs at 2. rewrite length_app. lia.
Qed.

Lemma parse_value_length (f : nat) (s : jsstring) v rest :
  JSON.parse_value f s = Some (v, rest) -> (length rest < length s)%nat.
Proof.
  intros H. apply (proj1 (parse_shape f)) in H.
  destruct H as (body & Hs & Hb).
  pose proof (skip_ws_length s) as Hl. rewrite Hs, length_app in Hl.
  destruct body; [discriminate | cbn [length] in Hl; lia].
Qed.

Lemma string_chars_length (s acc : jsstring) str rest :
  JSON.string_chars s acc = Some (str, rest) -> (length rest < length s)%nat.
Proof.
  intros H. apply (string_chars_closed (length s)) in H; [|lia].
  destruct H as [pre ->]. rewrite length_app. cbn [length].
  unfold jsstring, code_unit in *. lia.
Qed.

(** With the fuel that [JSON.parse] gives, or more, the parser comes to
    the same result: it never stops for want of fuel. *)
Lemma parse_fuel (f1 : nat) :
  forall f2,
    (forall s,
       (2 * length s + 2 <= f1)%nat -> (2 * length s + 2 <= f2)%nat ->
       JSON.parse_value f1 s = JSON.parse_value f2 s)
    /\ (forall s acc,
          (2 * length s + 3 <= f1)%nat -> (2 * length s + 3 <= f2)%nat ->
          JSON.parse_elements f1 s acc = JSON.parse_elements f2 s acc)
    /\ (forall s acc,
          (2 * length s + 3 <= f1)%nat -> (2 * length s + 3 <= f2)%nat ->
          JSON.parse_members f1 s acc = JSON.parse_members f2 s acc).
Proof.
  induction f1 as [|f1 IH]; intros f2.
  { repeat split; intros; lia. }
  destruct f2 as [|f2]; [repeat split; intros; lia|].
  destruct (IH f2) as (IHv & IHe & IHm). repeat split.
  - intros s H1 H2. cbn [JSON.parse_value].
    pose proof (skip_ws_length s) as Hs.
    destruct (JSON.skip_ws s) as [|c r]; [reflexivity|]. simpl in Hs.
    destruct (c =? 34); [reflexivity|].
    destruct (c =? 91).
    { destruct (JSON.skip_ws r) as [|x r']; [reflexivity|].
      destruct (x =? 93); [reflexivity|]. apply IHe; lia. }
    destruct (c =? 123); [|reflexivity].
    destruct (JSON.skip_ws r) as [|x r']; [reflexivity|].
    destruct (x =? 125); [reflexivity|]. apply IHm; lia.
  - intros s acc H1 H2. cbn [JSON.parse_elements].
    rewrite (IHv s) by lia.
    destruct (JSON.parse_value f2 s) as [[v rest]|] eqn:E; [|reflexivity].
    apply parse_value_length in E.
    pose proof (skip_ws_length rest) as Hr.
    destruct (JSON.skip_ws rest) as [|c r]; [reflexivity|]. simpl in Hr.
    destruct (c =? 44); [|reflexivity]. apply IHe; lia.
  - intros s acc H1 H2. cbn [JSON.parse_members].
    pose proof (skip_ws_length s) as Hs.
    destruct (JSON.skip_ws s) as [|q s1]; [reflexivity|]. simpl in Hs.
    destruct (q =? 34); [|reflexivity].
    destruct (JSON.string_chars s1 []) as [[k s2]|] eqn:Ek; [|reflexivity].
    apply string_chars_length in Ek.
    pose proof (skip_ws_length s2) as Hs2.
    destruct (JSON.skip_ws s2) as [|colon s3]; [reflexivity|]. simpl in Hs2.
    destruct (colon =? 58); [|reflexivity].
    rewrite (IHv s3) by lia.
    destruct (JSON.parse_value f2 s3) as [[v rest]|] eqn:E; [|reflexivity].
    apply parse_value_length in E.
    pose proof (skip_ws_length rest) as Hr.
    destruct (JSON.skip_ws rest) as [|c r]; [reflexivity|]. simpl in Hr.
    destruct (c =? 44); [|reflexivity]. apply IHm; lia.
Qed.

(** ** The body of the request is read back *)

Lemma hex_digit_char (d : N) : d < 16 -> JSON.hex_digit (hex_char d) = Some d.
Proof.
  intros H.
  assert (Hd : d = 0 \/ d = 1 \/ d = 2 \/ d = 3 \/ d = 4 \/ d = 5 \/ d = 6
               \/ d = 7 \/ d = 8 \/ d = 9 \/ d = 10 \/ d = 11 \/ d = 12
               \/ d = 13 \/ d = 14 \/ d = 15) by lia.
  repeat (destruct Hd as [-> | Hd]; [reflexivity|]). now subst.
Qed.

Lemma hex_escape_read (c : code_unit) :
  c < 65536 ->
  JSON.hex4 (hex_char (c / 4096)) (hex_char ((c / 256) mod 16))
    (hex_char ((c / 16) mod 16)) (hex_char (c mod 16)) = Some c.
Proof.
  intros Hc. unfold JSON.hex4.
  pose proof (N.div_mod c 16 ltac:(discriminate)) as E0.
  pose proof (N.div_mod (c / 16) 16 ltac:(discriminate)) as E1.
  pose proof (N.div_mod (c / 16 / 16) 16 ltac:(discriminate)) as E2.
  rewrite !N.Div0.div_div in E1, E2.
  change (16 * 16) with 256 in *.
  rewrite N.Div0.div_div in E2. change (256 * 16) with 4096 in *.
  pose proof (N.mod_lt c 16 ltac:(discriminate)).
  pose proof (N.mod_lt (c / 16) 16 ltac:(discriminate)).
  pose proof (N.mod_lt (c / 256) 16 ltac:(discriminate)).
  assert (c / 4096 < 16) by (apply N.Div0.div_lt_upper_bound; lia).
  rewrite !hex_digit_char by assumption.
  f_equal. lia.
Qed.

Lemma string_chars_literal (c : code_unit) (tail acc : jsstring) :
  32 <= c -> c <> 34 -> c <> 92 ->
  JSON.string_chars (c :: tail) acc = JSON.string_chars tail (c :: acc).
Proof.
  intros H32 H34 H92. cbn [JSON.string_chars].
  destruct (N.eqb_spec c 34); [contradiction|].
  destruct (N.eqb_spec c 92); [contradiction|].
  destruct (N.ltb_spec c 32); [lia | reflexivity].
Qed.

Lemma string_chars_escape (c : code_unit) (tail acc : jsstring) :
  c < 65536 ->
  JSON.string_chars (unicode_escape c ++ tail) acc =
  JSON.string_chars tail (c :: acc).
Proof.
  intros Hc. unfold unicode_escape. cbn [app JSON.string_chars].
  change (92 =? 34) with false. change (92 =? 92) with true.
  change (117 =? 117) with true. cbv iota.
  now rewrite hex_escape_read.
Qed.

(** Reading back a string that QuoteJSONString has written. *)
Lemma string_chars_quote (n : nat) :
  forall s rest acc,
    (length s <= n)%nat ->
    JSON.string_chars (quote_chars s ++ 34 :: rest) acc =
    Some (rev acc ++ s, rest).
Proof.
  induction n as [|n IH]; intros s rest acc Hn.
  - destruct s; [|simpl in Hn; lia]. cbn. now rewrite app_nil_r.
  - destruct s as [|c r]; [cbn; now rewrite app_nil_r|].
    cbn [length] in Hn.
    assert (Hstep : forall x,
              JSON.string_chars (quote_chars r ++ 34 :: rest) (x :: acc) =
              Some (rev acc ++ x :: r, rest)).
    { intros x. rewrite IH by lia. cbn [rev]. now rewrite <- app_assoc. }
    cbn [quote_chars].
    destruct (N.eqb_spec c 8) as [->|H8]; [apply (Hstep 8)|].
    destruct (N.eqb_spec c 9) as [->|H9]; [apply (Hstep 9)|].
    destruct (N.eqb_spec c 10) as [->|H10]; [apply (Hstep 10)|].
    destruct (N.eqb_spec c 12) as [->|H12]; [apply (Hstep 12)|].
    destruct (N.eqb_spec c 13) as [->|H13]; [apply (Hstep 13)|].
    destruct (N.eqb_spec c 34) as [->|H34]; [apply (Hstep 34)|].
    destruct (N.eqb_spec c 92) as [->|H92]; [apply (Hstep 92)|].
    destruct (N.ltb_spec c 32) as [Hlt|Hge].
    { rewrite <- app_assoc, string_chars_escape by lia. apply Hstep. }
    unfold is_leading_surrogate, is_trailing_surrogate.
    destruct (N.leb_spec 55296 c) as [Hl1|Hl1];
      destruct (N.leb_spec c 56319) as [Hl2|Hl2]; cbn [andb].
    + destruct r as [|c2 r2].
      * rewrite string_chars_escape by lia. cbn [JSON.string_chars].
        change (34 =? 34) with true. cbv iota. reflexivity.
      * destruct (N.leb_spec 56320 c2) as [Ht1|Ht1];
          destruct (N.leb_spec c2 57343) as [Ht2|Ht2]; cbn [andb];
          try (rewrite <- app_assoc, string_chars_escape by lia; apply Hstep).
        cbn [app]. rewrite !string_chars_literal by lia.
        cbn [length] in Hn. rewrite IH by lia.
        cbn [rev]. f_equal. f_equal. reassoc.
    + destruct (N.leb_spec 56320 c) as [Ht1|Ht1];
        destruct (N.leb_spec c 57343) as [Ht2|Ht2]; cbn [andb];
        try (rewrite <- app_assoc, string_chars_escape by lia; apply Hstep);
        try (exfalso; lia).
      cbn [app]. rewrite string_chars_literal by lia. apply Hstep.
    + destruct (N.leb_spec 56320 c) as [Ht1|Ht1]; [exfalso; lia|].
      cbn [andb app]. rewrite string_chars_literal by lia. apply Hstep.
    + exfalso. lia.
Qed.

Lemma parse_quoted (f : nat) (s rest : jsstring) :
  JSON.parse_value (S f) (QuoteJSONString s ++ rest) = Some (JSON.Str s, rest).
Proof.
  unfold QuoteJSONString. cbn [app]. rewrite <- app_assoc. cbn [app].
  cbn [JSON.parse_value JSON.skip_ws].
  change (JSON.is_ws DQUOTE) with false. cbv iota.
  change (DQUOTE =? 34) with true. cbv iota.
  change DQUOTE with 34.
  now rewrite (string_chars_quote (length s)) by lia.
Qed.

Lemma parse_member (f : nat) (k X : jsstring) acc :
  JSON.parse_members (S f) (QuoteJSONString k ++ 58 :: X) acc =
  match JSON.parse_value f X with
  | None => None
  | Some (v, rest) =>
    match JSON.skip_ws rest with
    | c :: r =>
      if c =? 44 then JSON.parse_members f r (JSON.define k v acc)
      else if c =? 125 then Some (JSON.Obj (JSON.define k v acc), r)
      else None
    | [] => None
    end
  end.
Proof.
  unfold QuoteJSONString. cbn [app]. rewrite <- app_assoc. cbn [app].
  cbn [JSON.parse_members JSON.skip_ws].
  change (JSON.is_ws DQUOTE) with false. cbv iota.
  change (DQUOTE =? 34) with true. cbv iota.
  change DQUOTE with 34.
  rewrite (string_chars_quote (length k)) by lia.
  cbn [rev app JSON.skip_ws].
  change (JSON.is_ws 58) with false. cbv iota.
  change (58 =? 58) with true. cbv iota.
  reflexivity.
Qed.

Lemma request_body_text (r : Request) :
  request_body r =
  123 :: QuoteJSONString (js "model") ++ 58 ::
         QuoteJSONString (model r) ++ 44 ::
         QuoteJSONString (js "messages") ++ 58 :: 91 :: 123 ::
         QuoteJSONString (js "role") ++ 58 ::
         QuoteJSONString (js "user") ++ 44 ::
         QuoteJSONString (js "content") ++ 58 ::
         QuoteJSONString (content r) ++ [125; 93; 125].
Proof.
  unfold request_body, request_object.
  cbn [stringify map join fst snd].
  change (js "{") with [123]. change (js "}") with [125].
  change (js "[") with [91]. change (js "]") with [93].
  change (js ",") with [44]. change (js ":") with [58].
  reassoc.
Qed.

Lemma parse_object_open (f : nat) (k rest : jsstring) :
  JSON.parse_value (S f) (123 :: QuoteJSONString k ++ rest) =
  JSON.parse_members f (QuoteJSONString k ++ rest) [].
Proof. reflexivity. Qed.

Lemma parse_array_open (f : nat) (rest : jsstring) :
  JSON.parse_value (S f) (91 :: 123 :: rest) =
  JSON.parse_elements f (123 :: rest) [].
Proof. reflexivity. Qed.

Lemma fuel_split {A : Type} (l : list A) :
  (4 <= length l)%nat -> exists f, (2 * length l + 2 = 9 + f)%nat.
Proof. intros H. exists (2 * length l + 2 - 9)%nat. lia. Qed.

(** X17. the body of the request, [JSON.stringify] of the object of lines
    46-51, is a JSON text that reads back as that object: whatever the
    prompt holds (quotes, backslashes, line breaks, emoji, lone
    surrogates), the endpoint receives the model name and the prompt
    unchanged. *)
Theorem request_body_round_trip (r : Request) :
  JSON.parse (request_body r) = Some (request_object r).
Proof.
  unfold JSON.parse. rewrite request_body_text.
  match goal with
  | |- context [JSON.parse_value (2 * @length ?T ?b + 2) _] =>
    destruct (@fuel_split T b) as [f Hf]
  end.
  { cbn [length]. apply le_n_S, le_n_S, le_n_S, le_n_S, Nat.le_0_l. }
  rewrite Hf. clear Hf. cbn [Nat.add].
  rewrite parse_object_open, parse_member, parse_quoted.
  cbn [JSON.skip_ws]. change (JSON.is_ws 44) with false. cbv iota.
  change (44 =? 44) with true. cbv iota.
  rewrite parse_member, parse_array_open.
  cbn [JSON.parse_elements].
  rewrite parse_object_open, parse_member, parse_quoted.
  cbn [JSON.skip_ws]. change (JSON.is_ws 44) with false. cbv iota.
  change (44 =? 44) with true. cbv iota.
  rewrite parse_member, parse_quoted.
  reflexivity.
Qed.

(** ** What the operations throw *)

(** X18. the only exception that leaves an operation is the error
    "Chapter not found" of generatePersonalizedStudyPlan, thrown before the
    try block for an identifier that chaptersData does not hold.  For a
    known chapter, and in the three other operations on every input,
    whatever the endpoint does, the call returns a value. *)
Theorem only_unknown_chapter_throws
    (chaptersData : list Chapter) (chapterId : jsstring)
    (d : DiagnosticResult) (userProgress : option JSON.value)
    (chapterName topic : jsstring) (userLevel : Level)
    (userWeaknesses userStrengths : option (list jsstring))
    (recentActivity : list jsstring) (w : world) :
  match find (fun c => str_eqb (id c) chapterId) chaptersData with
  | Some _ =>
    exists plan,
      fst (generatePersonalizedStudyPlan chaptersData chapterId d
             userProgress w) = Normal plan
  | None =>
    fst (generatePersonalizedStudyPlan chaptersData chapterId d
           userProgress w) = Throw (Error (js "Chapter not found"))
  end
  /\ (exists text,
        fst (generateChapterExplanation chapterId topic userLevel w) =
        Normal text)
  /\ (exists text,
        fst (generateSmartNotification userProgress recentActivity w) =
        Normal text)
  /\ (exists sections,
        fst (generatePersonalizedStudyContent chapterId chapterName userLevel
               userWeaknesses userStrengths w) = Normal sections).
Proof.
  split; [|split; [|split]].
  - destruct (find _ chaptersData) as [c|] eqn:Hfind.
    + rewrite (study_plan_run chaptersData chapterId d userProgress c w Hfind).
      destruct (classify _); try (eexists; reflexivity).
      destruct (JSON.parse _); eexists; reflexivity.
    + now rewrite unknown_chapter_is_thrown.
  - rewrite explanation_run. eexists; reflexivity.
  - rewrite notification_run. eexists; reflexivity.
  - rewrite study_content_run.
    destruct (classify _); try (eexists; reflexivity).
    destruct (JSON.parse _); eexists; reflexivity.
Qed.

(** ** Arguments that are not read *)

(** X19. the arguments that the operations do not read: the result and
    the effects of a call are the same for every userProgress of
    generatePersonalizedStudyPlan and generateSmartNotification, and for
    every chapterId of generateChapterExplanation and
    generatePersonalizedStudyContent. *)
Theorem unused_arguments
    (chaptersData : list Chapter) (chapterId chapterId' : jsstring)
    (d : DiagnosticResult) (userProgress userProgress' : option JSON.value)
    (chapterName topic : jsstring) (userLevel : Level)
    (userWeaknesses userStrengths : option (list jsstring))
    (recentActivity : list jsstring) (w : world) :
  generatePersonalizedStudyPlan chaptersData chapterId d userProgress w =
  generatePersonalizedStudyPlan chaptersData chapterId d userProgress' w
  /\ generateChapterExplanation chapterId topic userLevel w =
     generateChapterExplanation chapterId' topic userLevel w
  /\ generateSmartNotification userProgress recentActivity w =
     generateSmartNotification userProgress' recentActivity w
  /\ generatePersonalizedStudyContent chapterId chapterName userLevel
       userWeaknesses userStrengths w =
     generatePersonalizedStudyContent chapterId' chapterName userLevel
       userWeaknesses userStrengths w.
Proof. repeat split. Qed.

(** ** The body of the request has no control character *)

Lemma hex_char_printable (d : N) : (32 <=? hex_char d) = true.
Proof.
  unfold hex_char. destruct (d <? 10); apply N.leb_le; lia.
Qed.

Lemma quote_chars_printable (n : nat) :
  forall s, (length s <= n)%nat ->
    forallb (fun c => 32 <=? c) (quote_chars s) = true.
Proof.
  induction n as [|n IH]; intros s Hn.
  - destruct s; [reflexivity | simpl in Hn; lia].
  - destruct s as [|c r]; [reflexivity|].
    cbn [length] in Hn.
    assert (Hr : forallb (fun c => 32 <=? c) (quote_chars r) = true)
      by (apply IH; lia).
    assert (He : forall x tail,
              forallb (fun c => 32 <=? c) tail = true ->
              forallb (fun c => 32 <=? c) (unicode_escape x ++ tail) = true).
    { intros x tail Ht. unfold unicode_escape. cbn [app forallb].
      now rewrite !hex_char_printable, Ht. }
    cbn [quote_chars].
    repeat match goal with
           | |- context [if ?c =? ?k then _ else _] =>
             destruct (N.eqb_spec c k); [cbn [forallb]; now rewrite Hr|]
           end.
    destruct (N.ltb_spec c 32) as [Hlt|Hge]; [now apply He|].
    assert (Hc : (32 <=? c) = true) by now apply N.leb_le.
    destruct (is_leading_surrogate c).
    + destruct r as [|c2 r2].
      * now apply He.
      * destruct (is_trailing_surrogate c2) eqn:Ht; [|now apply He].
        cbn [forallb]. rewrite Hc.
        assert (Hc2 : (32 <=? c2) = true).
        { unfold is_trailing_surrogate in Ht.
          apply andb_true_iff in Ht. destruct Ht as [Ht _].
          apply N.leb_le in Ht. apply N.leb_le. lia. }
        rewrite Hc2. apply IH. cbn [length] in Hn. lia.
    + destruct (is_trailing_surrogate c); [now apply He|].
      cbn [forallb]. now rewrite Hc, Hr.
Qed.

Lemma quoted_printable (s : jsstring) :
  forallb (fun c => 32 <=? c) (QuoteJSONString s) = true.
Proof.
  unfold QuoteJSONString. cbn [forallb]. rewrite forallb_app.
  apply andb_true_intro. split; [reflexivity|].
  apply andb_true_intro. split; [|reflexivity].
  exact (quote_chars_printable (length s) s (le_n _)).
Qed.

(** X20. the body of the request holds no code unit below 32: the line
    breaks of the prompts, and any other control character of a topic, a
    chapter name or an identifier, are written as escapes, so the body is
    one line of text. *)
Theorem request_body_no_control_character (r : Request) :
  forallb (fun c => 32 <=? c) (request_body r) = true.
Proof.
  rewrite request_body_text.
  repeat first
    [ reflexivity
    | apply quoted_printable
    | rewrite forallb_app; apply andb_true_intro; split
    | cbn [forallb]; apply andb_true_intro; split ].
Qed.

(** ** The threshold on whole scores *)

(** The quotient and the literal 0.7, both rounded to binary64, compared on
    every score up to 100 and every total from 1 to 100. *)
Lemma threshold_table :
  forallb (fun s =>
    forallb (fun t =>
      Bool.eqb
        (Number.geb (Number.div (Number.of_Z (Z.of_nat s))
                                (Number.of_Z (Z.of_nat t)))
                    Number.seven_tenths)
        (7 * Z.of_nat t <=? 10 * Z.of_nat s)%Z)
      (seq 1 100))
    (seq 0 101) = true.
Proof. vm_compute. reflexivity. Qed.

Lemma threshold_whole (s t : Z) :
  (0 <= s <= 100)%Z -> (1 <= t <= 100)%Z ->
  Number.geb (Number.div (Number.of_Z s) (Number.of_Z t)) Number.seven_tenths =
  (7 * t <=? 10 * s)%Z.
Proof.
  intros Hs Ht.
  pose proof threshold_table as H.
  rewrite forallb_forall in H.
  specialize (H (Z.to_nat s)).
  rewrite forallb_forall in H.
  assert (Hin : In (Z.to_nat s) (seq 0 101)) by (apply in_seq; lia).
  specialize (H Hin (Z.to_nat t)).
  assert (Hin' : In (Z.to_nat t) (seq 1 100)) by (apply in_seq; lia).
  specialize (H Hin').
  rewrite !Z2Nat.id in H by lia.
  now apply Bool.eqb_prop in H.
Qed.

(** X21. on whole numbers the comparison of line 74 makes no rounding
    error.  For a score from 0 to 100 and a total from 1 to 100 the
    binary64 test [score / total_questions >= 0.7] holds exactly when
    [10 * score >= 7 * total_questions]: the fallback plan is
    "intermediate" with 120 minutes then, "beginner" with 180 otherwise.
    A score of 7 out of 10 is on the "intermediate" side. *)
Theorem whole_scores_exact_threshold
    (chapterId : jsstring) (d : DiagnosticResult) (s t : Z) :
  (0 <= s <= 100)%Z -> (1 <= t <= 100)%Z ->
  score d = Number.of_Z s -> total_questions d = Number.of_Z t ->
  difficulty_level (fallbackStudyPlan chapterId d) =
    (if (7 * t <=? 10 * s)%Z then intermediate else beginner)
  /\ estimated_time (fallbackStudyPlan chapterId d) =
    (if (7 * t <=? 10 * s)%Z then Number.of_Z 120 else Number.of_Z 180).
Proof.
  intros Hs Ht Hscore Htotal.
  rewrite fallback_plan_fields. cbn [difficulty_level estimated_time].
  rewrite Hscore, Htotal, (threshold_whole s t Hs Ht).
  split; reflexivity.
Qed.

Lemma whole_scores_exact_threshold_example :
  difficulty_level
    (fallbackStudyPlan (js "fractions-6")
       {| strengths := []; weaknesses := []; gaps := [];
          score := Number.of_Z 7; total_questions := Number.of_Z 10 |}) =
  intermediate.
Proof.
  apply (whole_scores_exact_threshold (js "fractions-6")
           {| strengths := []; weaknesses := []; gaps := [];
              score := Number.of_Z 7; total_questions := Number.of_Z 10 |}
           7 10); [lia | lia | reflexivity | reflexivity].
Defined.
